(** * q3DMASC: the random-forest classifier front end

    A shallow embedding of [masc::Classifier] (q3DMASCClassifier.cpp/.h) and of
    the [Feature] descriptor (FeaturesInterface.h): [isValid], [GetSource],
    [evaluate], [train], [toFile], [fromFile].

    Conventions of the embedding.
    - The build is the default CloudCompare one: [ScalarType] and
      [PointCoordinateType] are IEEE binary32, [int] and [unsigned] are 32 bits
      wide, [assert] is compiled out (NDEBUG).
    - Raw pointers are addresses into a heap of cloud objects, [None] being
      [nullptr].  Dereferencing a null or dangling pointer, reading a vector out
      of range and converting an unrepresentable float to [int] are undefined
      behaviour, which the embedding reports as the outcome [Undefined].
    - OpenCV ([cv::Mat] allocation, [cv::ml::RTrees]) is an external library:
      its model type and operations are the fields of the class [OpenCV].
    - Progress dialogs and event pumping are not modelled; [ccLog] output is
      collected as a list of log entries. *)

From Stdlib Require Import ZArith Lia SpecFloat.
From stdpp Require Import base option list strings gmap pretty.

Local Open Scope Z_scope.

(** ** Machine numbers *)

(** IEEE binary32 ([float]) and binary64 ([double]) values. *)
Definition float : Type := spec_float.
Definition double : Type := spec_float.

Definition float_prec : Z := 24.
Definition float_emax : Z := 128.
Definition double_prec : Z := 53.
Definition double_emax : Z := 1024.

Definition INT_MIN : Z := - 2 ^ 31.
Definition INT_MAX : Z := 2 ^ 31 - 1.

(** Conversion of an integer to [int] (two's complement wrap-around). *)
Definition to_int (n : Z) : Z :=
  let m := n mod 2 ^ 32 in
  if m <? 2 ^ 31 then m else m - 2 ^ 32.

(** Conversion of an integer to [unsigned]. *)
Definition to_unsigned (n : Z) : Z := n mod 2 ^ 32.

(** Conversion of an integer to [unsigned char]. *)
Definition to_uchar (n : Z) : Z := n mod 256.

(** Conversion of an integer to [float], rounding to nearest even. *)
Definition float_of_Z (n : Z) : float :=
  binary_normalize float_prec float_emax n 0 false.

(** Conversion of an integer to [double]. *)
Definition double_of_Z (n : Z) : double :=
  binary_normalize double_prec double_emax n 0 false.

(** [static_cast<double>] of a [float]: exact, only the representation is
    renormalised. *)
Definition float_to_double (x : float) : double :=
  match x with
  | S754_finite s m e => binary_round double_prec double_emax s m e
  | _ => x
  end.

(** [static_cast<float>] of a [double]: rounding to nearest even. *)
Definition double_to_float (x : double) : float :=
  match x with
  | S754_finite s m e => binary_round float_prec float_emax s m e
  | _ => x
  end.

(** The integer obtained by discarding the fractional part; no result for
    infinities and NaN. *)
Definition truncate (x : spec_float) : option Z :=
  match x with
  | S754_zero _ => Some 0
  | S754_finite s m e =>
      let a := if 0 <=? e then Z.pos m * 2 ^ e else Z.pos m / 2 ^ (- e) in
      Some (if s then - a else a)
  | S754_infinity _ | S754_nan => None
  end.

(** [static_cast<int>] of a floating-point value: truncation toward zero; the
    behaviour is undefined ([None]) when the truncated value does not fit. *)
Definition float_to_int (x : spec_float) : option Z :=
  match truncate x with
  | Some n => if (INT_MIN <=? n) && (n <=? INT_MAX) then Some n else None
  | None => None
  end.

(** Division of two [float]s. *)
Definition float_div (x y : float) : float := SFdiv float_prec float_emax x y.

(** The value is a binary32 number: a zero, an infinity, a NaN, or a finite
    number whose mantissa and exponent are those of the format. *)
Definition valid_float (x : float) : bool := valid_binary float_prec float_emax x.

#[local] Instance spec_float_eq_dec : EqDecision spec_float.
Proof. solve_decision. Defined.

(** [std::numeric_limits<double>::epsilon()], that is 2^-52. *)
Definition double_epsilon : double := S754_finite false (2 ^ 52) (- 104).

(** ** Point clouds (CCLib / qCC_db, as far as the classifier uses them) *)

Record CCVector3 := { vx : float; vy : float; vz : float }.

(** An RGB colour, each channel an [unsigned char]. *)
Record ccColorRgb := { col_r : Z; col_g : Z; col_b : Z }.

Record ScalarField := { sf_name : string; sf_values : list float }.

Definition ScalarField_size (sf : ScalarField) : Z :=
  Z.of_nat (length (sf_values sf)).

(** [ScalarField::getValue(index)]: unchecked vector read. *)
Definition ScalarField_getValue (sf : ScalarField) (index : Z) : option float :=
  if index <? 0 then None else sf_values sf !! Z.to_nat index.

Record ccPointCloud := {
  cloud_points : list CCVector3;
  cloud_colors : option (list ccColorRgb);
  cloud_scalarFields : list ScalarField
}.

Definition cloud_size (c : ccPointCloud) : Z :=
  Z.of_nat (length (cloud_points c)).

Definition hasColors (c : ccPointCloud) : bool :=
  match cloud_colors c with Some _ => true | None => false end.

(** Position of the first scalar field called [name], counted from [i]. *)
Fixpoint find_sf (name : string) (sfs : list ScalarField) (i : Z) : Z :=
  match sfs with
  | [] => -1
  | sf :: rest =>
      if String.eqb (sf_name sf) name then i else find_sf name rest (i + 1)
  end.

(** [getScalarFieldIndexByName]: the index of the field, or -1. *)
Definition getScalarFieldIndexByName (c : ccPointCloud) (name : string) : Z :=
  find_sf name (cloud_scalarFields c) 0.

(** [getScalarField(index)]: the field, or null when out of range. *)
Definition getScalarField (c : ccPointCloud) (index : Z) : option ScalarField :=
  if (0 <=? index) && (index <? Z.of_nat (length (cloud_scalarFields c)))
  then cloud_scalarFields c !! Z.to_nat index
  else None.

(** What an address of the heap holds: a [ccPointCloud], or some other
    implementation of [GenericIndexedCloudPersist]. *)
Inductive CloudObject :=
| IsPointCloud (c : ccPointCloud)
| IsOtherCloud.

(** A nullable pointer: an address of the heap, or [nullptr]. *)
Definition ptr : Type := option nat.

(** [CCLib::ReferenceCloud]: point indexes into the associated cloud. *)
Record ReferenceCloud := {
  rc_associatedCloud : ptr;
  rc_indexes : list Z
}.

Definition rc_size (rc : ReferenceCloud) : Z :=
  Z.of_nat (length (rc_indexes rc)).

(** [getPointGlobalIndex(localIndex)]: unchecked vector read. *)
Definition getPointGlobalIndex (rc : ReferenceCloud) (i : Z) : option Z :=
  if i <? 0 then None else rc_indexes rc !! Z.to_nat i.

(** ** Features (FeaturesInterface.h) *)

Inductive Source := ScalarField_src | DimX | DimY | DimZ | Red | Green | Blue.

(** A feature descriptor.  [f_toString] stands for the result of the virtual
    method [toString()] of the concrete feature. *)
Record Feature := {
  f_cloud : ptr;
  f_source : Source;
  f_sourceName : string;
  f_toString : string
}.

(** [Feature::Shared] is a shared pointer (null is [None]); [Feature::Set] is
    a vector of them. *)
Definition Feature_Shared : Type := option Feature.
Definition Feature_Set : Type := list Feature_Shared.

(** ** Value sources (ScalarFieldWrappers.h) *)

Inductive Dim := Dim_X | Dim_Y | Dim_Z.
Inductive Band := Band_Red | Band_Green | Band_Blue.

(** Modelled from the spec: ScalarFieldWrappers.h ([IScalarFieldWrapper] and
    its three implementations) is not among the sources.  Section 4.1 of the
    specification makes the validity of a scalar-field source depend on the
    point count of the backing cloud, so the wrapper of a scalar field records
    that cloud next to the field it is built from. *)
Inductive IScalarFieldWrapper :=
| ScalarFieldWrapper (cloud : ccPointCloud) (sf : option ScalarField)
| DimScalarFieldWrapper (cloud : ccPointCloud) (dim : Dim)
| ColorScalarFieldWrapper (cloud : ccPointCloud) (band : Band).

(** Modelled from the spec: [IScalarFieldWrapper::isValid()].  A named scalar
    field is valid iff the field exists and is at least as long as the cloud, a
    coordinate is valid as soon as the cloud exists, a colour channel is valid
    iff the cloud has per-point colours. *)
Definition wrapper_isValid (w : IScalarFieldWrapper) : bool :=
  match w with
  | ScalarFieldWrapper cloud (Some sf) => cloud_size cloud <=? ScalarField_size sf
  | ScalarFieldWrapper _ None => false
  | DimScalarFieldWrapper _ _ => true
  | ColorScalarFieldWrapper cloud _ => hasColors cloud
  end.

Definition coordinate (d : Dim) (P : CCVector3) : float :=
  match d with Dim_X => vx P | Dim_Y => vy P | Dim_Z => vz P end.

Definition channel (b : Band) (c : ccColorRgb) : Z :=
  match b with Band_Red => col_r c | Band_Green => col_g c | Band_Blue => col_b c end.

(** Modelled from the spec: [IScalarFieldWrapper::pointValue(index)], the
    stored value, the coordinate or the colour channel of the point, as a
    [double].  Reading past the end of the data (or through a missing field or
    colour table) is undefined. *)
Definition pointValue (w : IScalarFieldWrapper) (index : Z) : option double :=
  if index <? 0 then None else
  match w with
  | ScalarFieldWrapper _ sf =>
      sf ← sf; float_to_double <$> ScalarField_getValue sf index
  | DimScalarFieldWrapper cloud d =>
      (fun P => float_to_double (coordinate d P)) <$> cloud_points cloud !! Z.to_nat index
  | ColorScalarFieldWrapper cloud b =>
      cols ← cloud_colors cloud;
      (fun c => double_of_Z (channel b c)) <$> cols !! Z.to_nat index
  end.

(** ** Dense matrices of [float] ([cv::Mat] of type CV_32FC1) *)

Record Mat := {
  mat_rows : Z;
  mat_cols : Z;
  mat_data : list (list float)
}.

(** The matrix a successful [create(rows, cols, CV_32FC1)] yields.  Its cells are
    not initialised by OpenCV; the embedding fills them with +0. *)
Definition Mat_fresh (rows cols : Z) : Mat :=
  {| mat_rows := rows;
     mat_cols := cols;
     mat_data := replicate (Z.to_nat rows) (replicate (Z.to_nat cols) (S754_zero false)) |}.

(** Read of [at<float>(i, j)]. *)
Definition Mat_at (m : Mat) (i j : Z) : option float :=
  if (0 <=? i) && (0 <=? j)
  then row ← mat_data m !! Z.to_nat i; row !! Z.to_nat j
  else None.

(** Write [at<float>(i, j) = v]; the access is unchecked, so outside the
    matrix it is undefined. *)
Definition Mat_set (m : Mat) (i j : Z) (v : float) : option Mat :=
  if (0 <=? i) && (i <? mat_rows m) && (0 <=? j) && (j <? mat_cols m)
  then Some {| mat_rows := mat_rows m;
               mat_cols := mat_cols m;
               mat_data := alter (fun row => <[Z.to_nat j := v]> row) (Z.to_nat i) (mat_data m) |}
  else None.

(** [row(i)]: the 1 x cols matrix holding row [i]. *)
Definition Mat_row (m : Mat) (i : Z) : option Mat :=
  if (0 <=? i) && (i <? mat_rows m)
  then (fun row => {| mat_rows := 1; mat_cols := mat_cols m; mat_data := [row] |})
         <$> mat_data m !! Z.to_nat i
  else None.

(** The data of a matrix has the announced dimensions. *)
Definition Mat_wf (m : Mat) : Prop :=
  0 <= mat_rows m /\ 0 <= mat_cols m /\
  length (mat_data m) = Z.to_nat (mat_rows m) /\
  Forall (fun row => length row = Z.to_nat (mat_cols m)) (mat_data m).

(** ** The OpenCV interface *)

Inductive Exception :=
| cv_Exception (msg : string)
| std_exception (what : string)
| other_exception.

Record TermCriteria := {
  tc_type : Z;
  tc_maxCount : Z;
  tc_epsilon : double
}.

(** [cv::TermCriteria::MAX_ITER]. *)
Definition MAX_ITER : Z := 1.

(** What the classifier requires of OpenCV.  [RTrees] is the state of a
    [cv::ml::RTrees] object and [FileSystem] the files [save] and [load] work
    on.  [RTrees_train] gives the exception raised, if any, and the state the
    object is left in; [Mat_alloc_failure rows cols] is the message of the
    [cv::Exception] that allocating a [rows] x [cols] matrix raises, if it
    does. *)
Class OpenCV := {
  RTrees : Type;
  FileSystem : Type;
  RTrees_create : RTrees;
  setMaxDepth : Z -> RTrees -> RTrees;
  setMinSampleCount : Z -> RTrees -> RTrees;
  setCalculateVarImportance : bool -> RTrees -> RTrees;
  setActiveVarCount : Z -> RTrees -> RTrees;
  setTermCriteria : TermCriteria -> RTrees -> RTrees;
  RTrees_train : RTrees -> Mat -> Mat -> option Exception * RTrees;
  isTrained : RTrees -> bool;
  predict : RTrees -> Mat -> Exception + float;
  save : RTrees -> string -> FileSystem -> Exception + FileSystem;
  load : string -> FileSystem -> Exception + option RTrees;
  Mat_alloc_failure : Z -> Z -> option string;
  Mat_negative_size : string
}.

(** Modelled from the spec: Parameters.h, which declares [RandomTreesParams], is
    not among the sources.  The fields are those of section 3 of the
    specification, which are also the ones [train] reads. *)
Record RandomTreesParams := {
  maxDepth : Z;
  minSampleCount : Z;
  calcVarImportance : bool;
  activeVarCount : Z;
  maxTreeCount : Z
}.

(** ** The classifier and the state its methods run in *)

Inductive LogEntry :=
| Print (msg : string)
| Warning (msg : string).

Record AccuracyMetrics := {
  sampleCount : Z;
  goodGuess : Z;
  ratio : float
}.

Section WithOpenCV.
Context `{CV : OpenCV}.

(** [cv::Ptr<cv::ml::RTrees> m_rtrees], [None] being the empty pointer. *)
Record Classifier := { m_rtrees : option RTrees }.

(** The default constructor. *)
Definition Classifier_new : Classifier := {| m_rtrees := None |}.

Record State := {
  this : Classifier;
  heap : gmap nat CloudObject;
  files : FileSystem
}.

(** How a call ends: it returns a value, an exception escapes it, or its
    behaviour is undefined.  The first two leave a state and the log entries
    written so far. *)
Inductive Outcome (A : Type) :=
| Returns (a : A) (st : State) (log : list LogEntry)
| Throws (e : Exception) (st : State) (log : list LogEntry)
| Undefined.
Arguments Returns {A} a st log.
Arguments Throws {A} e st log.
Arguments Undefined {A}.

Definition M (A : Type) : Type := State -> Outcome A.

Definition ret {A} (a : A) : M A := fun st => Returns a st [].

Definition bind {A B} (m : M A) (k : A -> M B) : M B :=
  fun st =>
    match m st with
    | Returns a st1 log1 =>
        match k a st1 with
        | Returns b st2 log2 => Returns b st2 (log1 ++ log2)
        | Throws e st2 log2 => Throws e st2 (log1 ++ log2)
        | Undefined => Undefined
        end
    | Throws e st1 log1 => Throws e st1 log1
    | Undefined => Undefined
    end.

Definition throw {A} (e : Exception) : M A := fun st => Throws e st [].
Definition undefined {A} : M A := fun _ => Undefined.

(** A value that must exist for the behaviour to be defined. *)
Definition defined {A} (o : option A) : M A :=
  match o with Some a => ret a | None => undefined end.

(** A library call that returns or throws. *)
Definition call {A} (r : Exception + A) : M A :=
  match r with inl e => throw e | inr a => ret a end.

Definition ccLog (e : LogEntry) : M unit := fun st => Returns tt st [e].

Definition get_rtrees : M (option RTrees) :=
  fun st => Returns (m_rtrees (this st)) st [].

Definition set_rtrees (p : option RTrees) : M unit :=
  fun st => Returns tt {| this := {| m_rtrees := p |}; heap := heap st; files := files st |} [].

Definition get_files : M FileSystem := fun st => Returns (files st) st [].

Definition set_files (fs : FileSystem) : M unit :=
  fun st => Returns tt {| this := this st; heap := heap st; files := fs |} [].

(** Dereference of a non-null [ccPointCloud*]. *)
Definition deref_cloud (a : nat) : M ccPointCloud :=
  fun st =>
    match heap st !! a with
    | Some (IsPointCloud c) => Returns c st []
    | _ => Undefined
    end.

(** [dynamic_cast<ccPointCloud*>] of a [GenericIndexedCloudPersist*], followed
    by the dereference of the result when it is not null. *)
Definition dynamic_cast_cloud (p : ptr) : M (option ccPointCloud) :=
  fun st =>
    match p with
    | None => Returns None st []
    | Some a =>
        match heap st !! a with
        | Some (IsPointCloud c) => Returns (Some c) st []
        | Some IsOtherCloud => Returns None st []
        | None => Undefined
        end
    end.

End WithOpenCV.

Arguments Returns {CV A} a st log.
Arguments Throws {CV A} e st log.
Arguments Undefined {CV A}.

Notation "'let*' x := m 'in' k" := (bind m (fun x => k))
  (at level 10, x name, m at level 100, k at level 200).
Notation "m ;; k" := (bind m (fun _ => k))
  (at level 100, k at level 200, right associativity).

Section Methods.
Context `{CV : OpenCV}.

(** The values [0, 1, ..., n-1] a loop counter takes. *)
Definition range (n : Z) : list Z := Z.of_nat <$> seq 0 (Z.to_nat n).

(** A [for] loop whose body updates the loop state [s]. *)
Fixpoint for_each {T : Type} (idx : list Z) (body : Z -> T -> M T) (s : T) : M T :=
  match idx with
  | [] => ret s
  | i :: rest => let* s' := body i s in for_each rest body s'
  end.

(** A [for] loop whose body may leave the enclosing function with [return]:
    [inl r] is the returned value, [inr s] the loop state to go on with. *)
Fixpoint for_each_ret {R T : Type} (idx : list Z) (body : Z -> T -> M (R + T)) (s : T)
  : M (R + T) :=
  match idx with
  | [] => ret (inr s)
  | i :: rest =>
      let* r := body i s in
      match r with
      | inl v => ret (inl v)
      | inr s' => for_each_ret rest body s'
      end
  end.

(** [cv::Mat::create(rows, cols, CV_32FC1)]: the created matrix, or the message
    of the [cv::Exception] it throws, on a negative size or when the memory
    cannot be allocated. *)
Definition Mat_create (rows cols : Z) : string + Mat :=
  if (rows <? 0) || (cols <? 0) then inl Mat_negative_size
  else match Mat_alloc_failure rows cols with
       | Some msg => inl msg
       | None => inr (Mat_fresh rows cols)
       end.

(** ** Classifier::isValid *)

Definition isValid (c : Classifier) : bool :=
  match m_rtrees c with
  | Some rt => isTrained rt
  | None => false
  end.

(** ** GetSource *)

(** The name of the classification field, [LAS_FIELD_NAMES[LAS_CLASSIFICATION]]. *)
Definition LAS_CLASSIFICATION_NAME : string := "Classification".

Definition GetSource (f : Feature_Shared) (cloud : ccPointCloud)
  : M (option IScalarFieldWrapper) :=
  (match f with
   | None => ccLog (Warning "Internal error: invalid feature (nullptr)")
   | Some _ => ret tt
   end) ;;
  let* f := defined f in
  match f_source f with
  | ScalarField_src =>
      let sfIdx := getScalarFieldIndexByName cloud (f_sourceName f) in
      if 0 <=? sfIdx
      then ret (Some (ScalarFieldWrapper cloud (getScalarField cloud sfIdx)))
      else ccLog (Warning ("Internal error: unknwon scalar field '" +:+ f_sourceName f +:+ "'")) ;;
           ret None
  | DimX => ret (Some (DimScalarFieldWrapper cloud Dim_X))
  | DimY => ret (Some (DimScalarFieldWrapper cloud Dim_Y))
  | DimZ => ret (Some (DimScalarFieldWrapper cloud Dim_Z))
  | Red => ret (Some (ColorScalarFieldWrapper cloud Band_Red))
  | Green => ret (Some (ColorScalarFieldWrapper cloud Band_Green))
  | Blue => ret (Some (ColorScalarFieldWrapper cloud Band_Blue))
  end.

(** [!source || !source->isValid()]. *)
Definition source_unusable (source : option IScalarFieldWrapper) : bool :=
  match source with
  | None => true
  | Some w => negb (wrapper_isValid w)
  end.

(** ** Classifier::evaluate *)

Definition zero_metrics : AccuracyMetrics :=
  {| sampleCount := 0; goodGuess := 0; ratio := S754_zero false |}.

(** "fill the data matrix": one column per feature, one row per point of the
    test subset.  [inl msg] is a [return false] with error message [msg]. *)
Definition evaluate_fill_data (features : Feature_Set) (cloud : ccPointCloud)
    (testSubset : ReferenceCloud) (attributesPerSample : Z) (test_data : Mat)
    (errorMessage : string) : M (string + Mat) :=
  for_each_ret (range attributesPerSample)
    (fun fIndex test_data =>
       let* f := defined (features !! Z.to_nat fIndex) in
       match f with
       | None => ret (inl errorMessage)
       | Some ft =>
           let* source := GetSource f cloud in
           if source_unusable source
           then ret (inl ("Internal error: invalid source '" +:+ f_sourceName ft +:+ "'"))
           else
             let* source := defined source in
             let* filled :=
               for_each (range (rc_size testSubset))
                 (fun i test_data =>
                    let* pointIndex := defined (getPointGlobalIndex testSubset i) in
                    let* value := defined (pointValue source pointIndex) in
                    defined (Mat_set test_data (to_int i) fIndex (double_to_float value)))
                 test_data in
             ret (inr filled)
       end)
    test_data.

(** "estimate the efficiency of the classifier". *)
Definition evaluate_metrics (rtrees : RTrees) (classifSF : ScalarField)
    (testSubset : ReferenceCloud) (test_data : Mat) : M AccuracyMetrics :=
  let* good :=
    for_each (range (rc_size testSubset))
      (fun i good =>
         let* pointIndex := defined (getPointGlobalIndex testSubset i) in
         let* pointClass := defined (ScalarField_getValue classifSF pointIndex) in
         let* iClass := defined (float_to_int pointClass) in
         let* row := defined (Mat_row test_data (to_int i)) in
         let* predictedClass := call (predict rtrees row) in
         let* iPredicted := defined (float_to_int predictedClass) in
         ret (if iPredicted =? iClass then to_unsigned (good + 1) else good))
      0 in
  ret {| sampleCount := rc_size testSubset;
         goodGuess := good;
         ratio := float_div (float_of_Z good) (float_of_Z (rc_size testSubset)) |}.

Definition evaluate (features : Feature_Set) (testSubset : option ReferenceCloud)
    (metrics : AccuracyMetrics) (errorMessage : string)
  : M (bool * AccuracyMetrics * string) :=
  let metrics := zero_metrics in
  let* rtrees := get_rtrees in
  match rtrees with
  | None => ret (false, metrics, "Classifier hasn't been trained yet")
  | Some rtrees =>
  if negb (isTrained rtrees)
  then ret (false, metrics, "Classifier hasn't been trained yet")
  else
  match features with
  | [] => ret (false, metrics, "Training method called without any feature?!")
  | _ :: _ =>
  match testSubset with
  | None => ret (false, metrics, "No test subset provided")
  | Some testSubset =>
  let* cloud := dynamic_cast_cloud (rc_associatedCloud testSubset) in
  match cloud with
  | None =>
      ret (false, metrics,
           "Invalid test subset (associated point cloud is not a ccPointCloud)")
  | Some cloud =>
  let classifSFIdx := getScalarFieldIndexByName cloud LAS_CLASSIFICATION_NAME in
  if classifSFIdx =? 0
  then ret (false, metrics, "Missing 'Classification' field on input cloud")
  else
  match getScalarField cloud classifSFIdx with
  | None => ret (false, metrics, "Invalid 'Classification' field on input cloud")
  | Some classifSF =>
  if ScalarField_size classifSF <? cloud_size cloud
  then ret (false, metrics, "Invalid 'Classification' field on input cloud")
  else
  let testSampleCount := to_int (rc_size testSubset) in
  let attributesPerSample := to_int (Z.of_nat (length features)) in
  ccLog (Print ("[3DMASC] Testing data: " +:+ pretty testSampleCount +:+
                " samples with " +:+ pretty attributesPerSample +:+ " feature(s)")) ;;
  match Mat_create testSampleCount attributesPerSample with
  | inl msg => ret (false, metrics, msg)
  | inr test_data =>
  let* filled :=
    evaluate_fill_data features cloud testSubset attributesPerSample test_data
      errorMessage in
  match filled with
  | inl errorMessage => ret (false, metrics, errorMessage)
  | inr test_data =>
  let* metrics := evaluate_metrics rtrees classifSF testSubset test_data in
  ret (true, metrics, errorMessage)
  end end end end end end end.

(** ** Classifier::train *)

(** The global index of sample [i]:
    [trainSubset ? static_cast<int>(trainSubset->getPointGlobalIndex(i)) : i]. *)
Definition train_pointIndex (trainSubset : option ReferenceCloud) (i : Z) : option Z :=
  match trainSubset with
  | Some ts => to_int <$> getPointGlobalIndex ts (to_unsigned i)
  | None => Some i
  end.

(** "fill the classification labels vector". *)
Definition train_fill_labels (trainSubset : option ReferenceCloud)
    (classifSF : ScalarField) (sampleCount : Z) (train_labels : Mat) : M Mat :=
  for_each (range sampleCount)
    (fun i train_labels =>
       let* pointIndex := defined (train_pointIndex trainSubset i) in
       let* pointClass := defined (ScalarField_getValue classifSF pointIndex) in
       let* iClass := defined (float_to_int pointClass) in
       defined (Mat_set train_labels i 0 (float_of_Z (to_uchar iClass))))
    train_labels.

(** "fill the training data matrix": one column per feature, one row per
    sample.  [inl msg] is a [return false] with error message [msg]. *)
Definition train_fill_data (features : Feature_Set) (cloud_ptr : ptr)
    (cloud : ccPointCloud) (trainSubset : option ReferenceCloud)
    (sampleCount attributesPerSample : Z) (training_data : Mat) : M (string + Mat) :=
  for_each_ret (range attributesPerSample)
    (fun fIndex training_data =>
       let* f := defined (features !! Z.to_nat fIndex) in
       let* ft := defined f in
       if negb (bool_decide (f_cloud ft = cloud_ptr))
       then ret (inl ("Invalid feature (" +:+ f_toString ft +:+
                      "): associated cloud is different than the others"))
       else
         let* source := GetSource f cloud in
         if source_unusable source
         then ret (inl ("Internal error: invalid source '" +:+ f_sourceName ft +:+ "'"))
         else
           let* source := defined source in
           let* filled :=
             for_each (range sampleCount)
               (fun i training_data =>
                  let* pointIndex := defined (train_pointIndex trainSubset i) in
                  let* value := defined (pointValue source (to_unsigned pointIndex)) in
                  defined (Mat_set training_data i fIndex (double_to_float value)))
               training_data in
           ret (inr filled))
    training_data.

(** The freshly created forest with the hyper-parameters set. *)
Definition configure (params : RandomTreesParams) : RTrees :=
  let terminationCriteria :=
    {| tc_type := MAX_ITER;
       tc_maxCount := maxTreeCount params;
       tc_epsilon := double_epsilon |} in
  setTermCriteria terminationCriteria
    (setActiveVarCount (activeVarCount params)
       (setCalculateVarImportance (calcVarImportance params)
          (setMinSampleCount (minSampleCount params)
             (setMaxDepth (maxDepth params) RTrees_create)))).

(** From the creation of the forest to the end of [train]. *)
Definition train_run (params : RandomTreesParams) (training_data train_labels : Mat)
    (errorMessage : string) : M (bool * string) :=
  set_rtrees (Some (configure params)) ;;
  let '(raised, trained) := RTrees_train (configure params) training_data train_labels in
  set_rtrees (Some trained) ;;
  match raised with
  | Some (cv_Exception msg) => set_rtrees None ;; ret (false, msg)
  | Some (std_exception what) => ret (false, what)
  | Some other_exception => ret (false, "Unknown error")
  | None =>
      if negb (isTrained trained)
      then set_rtrees None ;; ret (false, "Training failed for an unknown reason...")
      else ret (true, errorMessage)
  end.

(** From the start of [train] to the filled matrices: [inl msg] is a
    [return false] with error message [msg], [inr (training_data, train_labels)]
    the matrices handed to the trainer. *)
Definition train_prepare (features : Feature_Set) (trainSubset : option ReferenceCloud)
  : M (string + Mat * Mat) :=
  match features with
  | [] => ret (inl "Training method called without any feature?!")
  | front :: _ =>
  match front ≫= f_cloud with
  | None => ret (inl "Invalid feature (no associated point cloud)")
  | Some a =>
  let cloud_ptr : ptr := Some a in
  if match trainSubset with
     | Some ts => negb (bool_decide (rc_associatedCloud ts = cloud_ptr))
     | None => false
     end
  then ret (inl "Invalid train subset (associated point cloud is different)")
  else
  let* cloud := deref_cloud a in
  let classifSFIdx := getScalarFieldIndexByName cloud LAS_CLASSIFICATION_NAME in
  if classifSFIdx =? 0
  then ret (inl "Missing 'Classification' field on input cloud")
  else
  match getScalarField cloud classifSFIdx with
  | None => ret (inl "Invalid 'Classification' field on input cloud")
  | Some classifSF =>
  if ScalarField_size classifSF <? cloud_size cloud
  then ret (inl "Invalid 'Classification' field on input cloud")
  else
  let sampleCount :=
    to_int (match trainSubset with Some ts => rc_size ts | None => cloud_size cloud end) in
  let attributesPerSample := to_int (Z.of_nat (length features)) in
  ccLog (Print ("[3DMASC] Training data: " +:+ pretty sampleCount +:+
                " samples with " +:+ pretty attributesPerSample +:+ " feature(s)")) ;;
  match Mat_create sampleCount attributesPerSample, Mat_create sampleCount 1 with
  | inl msg, _ => ret (inl msg)
  | inr _, inl msg => ret (inl msg)
  | inr training_data, inr train_labels =>
  let* train_labels := train_fill_labels trainSubset classifSF sampleCount train_labels in
  let* filled :=
    train_fill_data features cloud_ptr cloud trainSubset sampleCount attributesPerSample
      training_data in
  match filled with
  | inl msg => ret (inl msg)
  | inr training_data => ret (inr (training_data, train_labels))
  end end end end end.

Definition train (params : RandomTreesParams) (features : Feature_Set)
    (errorMessage : string) (trainSubset : option ReferenceCloud) : M (bool * string) :=
  let* prepared := train_prepare features trainSubset in
  match prepared with
  | inl msg => ret (false, msg)
  | inr (training_data, train_labels) =>
      train_run params training_data train_labels errorMessage
  end.

(** ** Classifier::toFile and Classifier::fromFile *)

Definition toFile (filename : string) : M bool :=
  let* rtrees := get_rtrees in
  match rtrees with
  | None => ccLog (Warning "Classifier hasn't been trained, can't save it") ;; ret false
  | Some rtrees =>
      let* fs := get_files in
      let* fs' := call (save rtrees filename fs) in
      set_files fs' ;;
      ccLog (Print ("Classifier file saved to: " +:+ filename)) ;;
      ret true
  end.

Definition fromFile (filename : string) : M bool :=
  let* fs := get_files in
  let* loaded := call (load filename fs) in
  set_rtrees loaded ;;
  let* rtrees := defined loaded in
  (if negb (isTrained rtrees)
   then ccLog (Warning "Loaded classifier doesn't seem to be trained")
   else ret tt) ;;
  ret true.

End Methods.

(** ** Rows, points and classes *)

(** The point index row [i] of a sample matrix stands for: the [i]-th index of
    the subset, or [i] itself when the whole cloud is taken. *)
Definition selected_index (subset : option ReferenceCloud) (i : Z) : option Z :=
  match subset with
  | Some rc => getPointGlobalIndex rc i
  | None => Some i
  end.

(** The number of rows: the size of the subset, or of the cloud. *)
Definition selected_count (subset : option ReferenceCloud) (cloud : ccPointCloud) : Z :=
  match subset with
  | Some rc => rc_size rc
  | None => cloud_size cloud
  end.

(** The class of the point of row [i]: the value of the classification field
    at its index, converted to [int]. *)
Definition sample_class (subset : option ReferenceCloud) (classifSF : ScalarField)
    (i : Z) : option Z :=
  pointIndex ← selected_index subset i;
  pointClass ← ScalarField_getValue classifSF pointIndex;
  float_to_int pointClass.

(** The colour table of a cloud, when there is one, has an entry per point. *)
Definition colors_cover_points (cloud : ccPointCloud) : Prop :=
  forall cols, cloud_colors cloud = Some cols ->
               length cols = length (cloud_points cloud).

(** The value of a source at a point as the matrices hold it:
    [static_cast<float>(source->pointValue(index))]. *)
Definition valueAt (w : IScalarFieldWrapper) (index : Z) : option float :=
  double_to_float <$> pointValue w index.

(** The number the cloud stores for a source at a point: the value of the
    scalar field, the coordinate, or the colour channel as a [float]. *)
Definition stored_value (w : IScalarFieldWrapper) (index : Z) : option float :=
  if index <? 0 then None else
  match w with
  | ScalarFieldWrapper _ sf => sf ← sf; ScalarField_getValue sf index
  | DimScalarFieldWrapper cloud d => coordinate d <$> cloud_points cloud !! Z.to_nat index
  | ColorScalarFieldWrapper cloud b =>
      cols ← cloud_colors cloud;
      (fun c => float_of_Z (channel b c)) <$> cols !! Z.to_nat index
  end.

(** The numbers a cloud stores are of their types: scalar values and
    coordinates are binary32 numbers, colour channels are bytes. *)
Definition cloud_values_valid (cloud : ccPointCloud) : Prop :=
  (forall sf v, sf ∈ cloud_scalarFields cloud -> v ∈ sf_values sf ->
                valid_float v = true) /\
  (forall P d, P ∈ cloud_points cloud -> valid_float (coordinate d P) = true) /\
  (forall cols c b, cloud_colors cloud = Some cols -> c ∈ cols ->
                    0 <= channel b c <= 255).

(** [m] is the sample matrix of the features over the selected points of the
    cloud: a row per selected point, a column per feature, and in cell (i,j)
    the value, converted to [float], that the source [GetSource] resolves
    feature j to returns for the point of row i. *)
Definition is_sample_matrix `{CV : OpenCV} (features : Feature_Set)
    (cloud : ccPointCloud) (subset : option ReferenceCloud) (st : State) (m : Mat)
  : Prop :=
  mat_rows m = selected_count subset cloud /\
  mat_cols m = Z.of_nat (length features) /\
  forall i j p f w log,
    0 <= i < selected_count subset cloud ->
    selected_index subset i = Some p ->
    features !! j = Some f ->
    GetSource f cloud st = Returns (Some w) st log ->
    is_Some (valueAt w p) /\ Mat_at m i (Z.of_nat j) = valueAt w p.

(** The columns before [k] of [m] are those of the sample matrix: the invariant
    of the loop over the features. *)
Definition filled_until `{CV : OpenCV} (features : Feature_Set)
    (cloud : ccPointCloud) (subset : option ReferenceCloud) (st : State)
    (k : Z) (m : Mat) : Prop :=
  Mat_wf m /\
  mat_rows m = selected_count subset cloud /\
  mat_cols m = Z.of_nat (length features) /\
  forall i j p f w log,
    0 <= i < selected_count subset cloud -> Z.of_nat j < k ->
    selected_index subset i = Some p ->
    features !! j = Some f ->
    GetSource f cloud st = Returns (Some w) st log ->
    exists v, pointValue w p = Some v /\
              Mat_at m i (Z.of_nat j) = Some (double_to_float v).

(** Two feature pointers that are both null, or whose features name the same
    source: they may differ in the cloud they are attached to. *)
Definition same_source (f1 f2 : Feature_Shared) : Prop :=
  match f1, f2 with
  | None, None => True
  | Some a, Some b => f_source a = f_source b /\ f_sourceName a = f_sourceName b
  | _, _ => False
  end.

(** ** Predicates on computations *)

Section Predicates.
Context `{CV : OpenCV}.

(** Every value the computation returns satisfies [Q]. *)
Definition post {A} (m : M A) (Q : A -> Prop) : Prop :=
  forall st a st' log, m st = Returns a st' log -> Q a.

(** The computation leaves the state as it found it, however it ends. *)
Definition readonly {A} (m : M A) : Prop :=
  forall st,
    match m st with
    | Returns _ st' _ | Throws _ st' _ => st' = st
    | Undefined => True
    end.

(** Two outcomes end the same way, with [R]-related values and equal heaps. *)
Definition related {A B} (R : A -> B -> Prop) (o1 : Outcome A) (o2 : Outcome B) : Prop :=
  match o1, o2 with
  | Returns a st1 _, Returns b st2 _ => R a b /\ heap st1 = heap st2
  | Throws e1 st1 _, Throws e2 st2 _ => e1 = e2 /\ heap st1 = heap st2
  | Undefined, Undefined => True
  | _, _ => False
  end.

(** Two computations that, run on states with equal heaps, end the same way. *)
Definition sim {A B} (R : A -> B -> Prop) (m1 : M A) (m2 : M B) : Prop :=
  forall st1 st2, heap st1 = heap st2 -> related R (m1 st1) (m2 st2).

(** The relation of two [return]-or-continue results of a loop. *)
Definition sum_rel {A1 A2 B1 B2} (RA : A1 -> A2 -> Prop) (RB : B1 -> B2 -> Prop)
    (x : A1 + B1) (y : A2 + B2) : Prop :=
  match x, y with
  | inl a1, inl a2 => RA a1 a2
  | inr b1, inr b2 => RB b1 b2
  | _, _ => False
  end.

(** The loop left the function with [return]. *)
Definition returned {R T} (r : R + T) : Prop :=
  match r with inl _ => True | inr _ => False end.

(** Two model pointers that are both null, or whose models answer
    [isTrained] and [predict] alike. *)
Definition models_agree (p1 p2 : option RTrees) : Prop :=
  match p1, p2 with
  | None, None => True
  | Some r1, Some r2 =>
      isTrained r1 = isTrained r2 /\ forall sample, predict r1 sample = predict r2 sample
  | _, _ => False
  end.

(** The success flag and the metrics of two [evaluate] results coincide, and
    their error messages are related by [RM]. *)
Definition same_verdict (RM : string -> string -> Prop)
    (r1 r2 : bool * AccuracyMetrics * string) : Prop :=
  fst r1 = fst r2 /\ RM (snd r1) (snd r2).

End Predicates.

(** ** A small executable instance of the OpenCV interface

    The forest memorises its training samples: [predict] answers the label of
    the first memorised sample equal to the query, and +0 when there is none.
    Files are a finite map from names to saved forests. *)

Record ToyForest := {
  toy_maxDepth : Z;
  toy_samples : list (list float * float)
}.

Definition row_eqb (r1 r2 : list float) : bool :=
  (length r1 =? length r2)%nat &&
  forallb (fun p => SFeqb (fst p) (snd p)) (zip r1 r2).

Definition toy_train (f : ToyForest) (data labels : Mat) : option Exception * ToyForest :=
  if mat_rows data =? 0 then (Some (cv_Exception "No training samples"), f)
  else if toy_maxDepth f <? 0 then (Some (std_exception "Invalid tree depth"), f)
  else (None, {| toy_maxDepth := toy_maxDepth f;
                 toy_samples := zip (mat_data data) (mjoin (mat_data labels)) |}).

Definition toy_predict (f : ToyForest) (sample : Mat) : Exception + float :=
  match mat_data sample with
  | [r] =>
      match List.find (fun s => row_eqb (fst s) r) (toy_samples f) with
      | Some s => inr (snd s)
      | None => inr (S754_zero false)
      end
  | _ => inl (cv_Exception "A single sample is expected")
  end.

Definition toy_save (f : ToyForest) (name : string) (fs : gmap string ToyForest)
  : Exception + gmap string ToyForest :=
  if String.eqb name "" then inl (cv_Exception "Can not open the file")
  else inr (<[name := f]> fs).

Definition toyCV : OpenCV := {|
  RTrees := ToyForest;
  FileSystem := gmap string ToyForest;
  RTrees_create := {| toy_maxDepth := 0; toy_samples := [] |};
  setMaxDepth := fun d f => {| toy_maxDepth := d; toy_samples := toy_samples f |};
  setMinSampleCount := fun _ f => f;
  setCalculateVarImportance := fun _ f => f;
  setActiveVarCount := fun _ f => f;
  setTermCriteria := fun _ f => f;
  RTrees_train := toy_train;
  isTrained := fun f => match toy_samples f with [] => false | _ => true end;
  predict := toy_predict;
  save := toy_save;
  load := fun name fs => inr (fs !! name);
  Mat_alloc_failure := fun rows cols =>
    if 1000000 <? rows * cols then Some "Failed to allocate memory" else None;
  Mat_negative_size := "Negative matrix size"
|}.

(** The cloud of the specification's scenario: ten points, a "Classification"
    field [0,0,0,1,1,1,1,0,0,1] and an "Intensity" field [1,1,1,9,9,9,9,1,1,9].
    The classification is the second field, so that its index is not 0. *)
Definition origin : CCVector3 :=
  {| vx := S754_zero false; vy := S754_zero false; vz := S754_zero false |}.

Definition demo_cloud : ccPointCloud := {|
  cloud_points := replicate 10 origin;
  cloud_colors := None;
  cloud_scalarFields :=
    [ {| sf_name := "Intensity";
         sf_values := float_of_Z <$> [1; 1; 1; 9; 9; 9; 9; 1; 1; 9] |};
      {| sf_name := "Classification";
         sf_values := float_of_Z <$> [0; 0; 0; 1; 1; 1; 1; 0; 0; 1] |} ]
|}.

Definition demo_heap : gmap nat CloudObject :=
  {[ 1%nat := IsPointCloud demo_cloud; 2%nat := IsPointCloud demo_cloud ]}.

Definition demo_feature (a : nat) : Feature := {|
  f_cloud := Some a;
  f_source := ScalarField_src;
  f_sourceName := "Intensity";
  f_toString := "Intensity"
|}.

Definition demo_subset : ReferenceCloud :=
  {| rc_associatedCloud := Some 1%nat; rc_indexes := range 10 |}.

Definition demo_params : RandomTreesParams := {|
  maxDepth := 25;
  minSampleCount := 1;
  calcVarImportance := false;
  activeVarCount := 0;
  maxTreeCount := 100
|}.

Definition demo_state (c : @Classifier toyCV) : @State toyCV :=
  {| this := c; heap := demo_heap; files := ∅ |}.

Definition final_state {CV : OpenCV} {A} (o : Outcome A) : option State :=
  match o with
  | Returns _ st _ | Throws _ st _ => Some st
  | Undefined => None
  end.

Definition result {CV : OpenCV} {A} (o : Outcome A) : option A :=
  match o with
  | Returns a _ _ => Some a
  | _ => None
  end.


(** The forest that training on [demo_subset] with the "Intensity" feature
    yields, and the state holding it. *)
Definition demo_forest : ToyForest := {|
  toy_maxDepth := 25;
  toy_samples :=
    zip ((fun v => [float_of_Z v]) <$> [1; 1; 1; 9; 9; 9; 9; 1; 1; 9])
        (float_of_Z <$> [0; 0; 0; 1; 1; 1; 1; 0; 0; 1])
|}.

Definition trained_state : @State toyCV :=
  demo_state (@Build_Classifier toyCV (Some demo_forest)).

(** A feature naming a scalar field the cloud does not have. *)
Definition absent_feature : Feature := {|
  f_cloud := Some 1%nat;
  f_source := ScalarField_src;
  f_sourceName := "Curvature";
  f_toString := "Curvature"
|}.

(** A test subset without any point. *)
Definition empty_subset : ReferenceCloud :=
  {| rc_associatedCloud := Some 1%nat; rc_indexes := [] |}.

(** A state whose file "untrained.yml" holds a forest that was never trained. *)
Definition untrained_file_state : @State toyCV :=
  {| this := Classifier_new;
     heap := demo_heap;
     files := {[ "untrained.yml" := @RTrees_create toyCV ]} |}.

(** A cloud whose first scalar field is the classification, and one without
    any classification. *)
Definition classification_first_cloud : ccPointCloud := {|
  cloud_points := replicate 3 origin;
  cloud_colors := None;
  cloud_scalarFields :=
    [ {| sf_name := "Classification"; sf_values := float_of_Z <$> [2; 5; 2] |};
      {| sf_name := "Intensity"; sf_values := float_of_Z <$> [1; 9; 1] |} ]
|}.

Definition unclassified_cloud : ccPointCloud := {|
  cloud_points := replicate 3 origin;
  cloud_colors := None;
  cloud_scalarFields :=
    [ {| sf_name := "Intensity"; sf_values := float_of_Z <$> [1; 9; 1] |} ]
|}.

Definition other_heap : gmap nat CloudObject :=
  {[ 1%nat := IsPointCloud classification_first_cloud;
     2%nat := IsPointCloud unclassified_cloud ]}.

Definition other_state : @State toyCV :=
  {| this := @Build_Classifier toyCV (Some demo_forest);
     heap := other_heap;
     files := ∅ |}.

Definition other_subset (a : nat) : ReferenceCloud :=
  {| rc_associatedCloud := Some a; rc_indexes := [0; 2] |}.

(** Two points of the demo cloud, and a cloud whose classes leave the range of
    an [unsigned char]. *)
Definition pair_subset : ReferenceCloud :=
  {| rc_associatedCloud := Some 1%nat; rc_indexes := [3; 7] |}.

Definition wide_cloud : ccPointCloud := {|
  cloud_points := replicate 3 origin;
  cloud_colors := None;
  cloud_scalarFields :=
    [ {| sf_name := "Intensity"; sf_values := float_of_Z <$> [1; 9; 5] |};
      {| sf_name := "Classification"; sf_values := float_of_Z <$> [300; -1; 2] |} ]
|}.

Definition wide_classification : ScalarField :=
  {| sf_name := "Classification"; sf_values := float_of_Z <$> [300; -1; 2] |}.

Definition wide_state : @State toyCV :=
  {| this := Classifier_new;
     heap := {[ 1%nat := IsPointCloud wide_cloud ]};
     files := ∅ |}.

(** ** Outcomes after a logged prefix *)

(** The outcome [o] of the rest of a call whose beginning wrote [log]. *)
Definition logged `{CV : OpenCV} {A} (log : list LogEntry) (o : Outcome A) : Outcome A :=
  match o with
  | Returns a st l => Returns a st (log ++ l)
  | Throws e st l => Throws e st (log ++ l)
  | Undefined => Undefined
  end.

(** ** Sizes beyond an [int], classes beyond a byte *)

(** The toy library on a machine whose memory never runs out. *)
Definition roomyCV : OpenCV := {|
  RTrees := ToyForest;
  FileSystem := gmap string ToyForest;
  RTrees_create := {| toy_maxDepth := 0; toy_samples := [] |};
  setMaxDepth := fun d f => {| toy_maxDepth := d; toy_samples := toy_samples f |};
  setMinSampleCount := fun _ f => f;
  setCalculateVarImportance := fun _ f => f;
  setActiveVarCount := fun _ f => f;
  setTermCriteria := fun _ f => f;
  RTrees_train := toy_train;
  isTrained := fun f => match toy_samples f with [] => false | _ => true end;
  predict := toy_predict;
  save := toy_save;
  load := fun name fs => inr (fs !! name);
  Mat_alloc_failure := fun _ _ => None;
  Mat_negative_size := "Negative matrix size"
|}.

Definition roomy_state (c : @Classifier roomyCV) : @State roomyCV :=
  {| this := c; heap := demo_heap; files := ∅ |}.

(** A subset that names the point 0 of the demo cloud [n] times, and the one
    that names it 2^31 times: one entry more than an [int] counts. *)
Definition repeated_subset (n : nat) : ReferenceCloud :=
  {| rc_associatedCloud := Some 1%nat; rc_indexes := replicate n 0 |}.

Definition crowded_subset : ReferenceCloud := repeated_subset (Z.to_nat (2 ^ 31)).

(** The three points of the wide cloud as a test subset, and the forest that
    training on that cloud with the "Intensity" feature yields. *)
Definition wide_subset : ReferenceCloud :=
  {| rc_associatedCloud := Some 1%nat; rc_indexes := [0; 1; 2] |}.

Definition wide_forest : ToyForest := {|
  toy_maxDepth := 25;
  toy_samples :=
    zip ((fun v => [float_of_Z v]) <$> [1; 9; 5]) (float_of_Z <$> [44; 255; 2])
|}.

Definition wide_trained_state : @State toyCV :=
  {| this := @Build_Classifier toyCV (Some wide_forest);
     heap := {[ 1%nat := IsPointCloud wide_cloud ]};
     files := ∅ |}.

(** ** What a feature needs of a cloud, and what a model predicts *)

(** The first scalar field of the cloud that is called [name], if there is
    one. *)
Definition field_named (cloud : ccPointCloud) (name : string) : option ScalarField :=
  snd <$> list_find (fun sf => sf_name sf = name) (cloud_scalarFields cloud).

(** The cloud can serve the feature: its first scalar field of that name is at
    least as long as the cloud, the feature reads a coordinate, or it reads a
    colour channel of a cloud that has colours. *)
Definition source_usable (ft : Feature) (cloud : ccPointCloud) : bool :=
  match f_source ft with
  | ScalarField_src =>
      match field_named cloud (f_sourceName ft) with
      | Some sf => cloud_size cloud <=? ScalarField_size sf
      | None => false
      end
  | DimX | DimY | DimZ => true
  | Red | Green | Blue => hasColors cloud
  end.

(** The class the model predicts for row [i] of a matrix: the answer of
    [predict] on that row, converted to [int]. *)
Definition predicted_class `{CV : OpenCV} (rtrees : RTrees) (test_data : Mat) (i : Z)
  : option Z :=
  row ← Mat_row test_data i;
  match predict rtrees row with
  | inr predictedClass => float_to_int predictedClass
  | inl _ => None
  end.

(** The number of points of the test subset whose predicted class is the class
    the classification field stores for them. *)
Definition good_guesses `{CV : OpenCV} (rtrees : RTrees) (testSubset : ReferenceCloud)
    (classifSF : ScalarField) (test_data : Mat) : Z :=
  Z.of_nat (length (filter
    (fun i => predicted_class rtrees test_data i
              = sample_class (Some testSubset) classifSF i)
    (range (rc_size testSubset)))).

(** ** The error messages *)

(** The messages of the checks [evaluate] makes before it builds the matrix. *)
Definition evaluate_precondition_messages : list string :=
  [ "Classifier hasn't been trained yet";
    "Training method called without any feature?!";
    "No test subset provided";
    "Invalid test subset (associated point cloud is not a ccPointCloud)";
    "Missing 'Classification' field on input cloud";
    "Invalid 'Classification' field on input cloud" ].

(** The messages of the checks [train] makes before it builds the matrices. *)
Definition train_precondition_messages : list string :=
  [ "Training method called without any feature?!";
    "Invalid feature (no associated point cloud)";
    "Invalid train subset (associated point cloud is different)";
    "Missing 'Classification' field on input cloud";
    "Invalid 'Classification' field on input cloud" ].

(** A message of the [cv::Exception] that [cv::Mat::create] throws. *)
Definition Mat_create_message `{CV : OpenCV} (msg : string) : Prop :=
  msg = Mat_negative_size \/ exists rows cols, Mat_alloc_failure rows cols = Some msg.

(** The message about a feature whose source is null or not valid. *)
Definition invalid_source_message (ft : Feature) : string :=
  "Internal error: invalid source '" +:+ f_sourceName ft +:+ "'".

(** The message about a feature attached to another cloud. *)
Definition other_cloud_message (ft : Feature) : string :=
  "Invalid feature (" +:+ f_toString ft +:+
  "): associated cloud is different than the others".

(** * The classification dialog (qClassify3DMASCDialog.cpp) *)

(** ** The database tree (qCC_db) *)

(** [CC_TYPES::POINT_CLOUD], that is [HIERARCHY_OBJECT | CC_CLOUD_BIT]. *)
Definition POINT_CLOUD : Z := 257.

(** An entity of the database tree: its class identifier (a set of bits), its
    unique identifier (an [unsigned]), its name and its children. *)
#[warnings="-register-all"] Inductive ccHObject :=
| HObject (classID : Z) (uniqueID : Z) (name : string) (children : list ccHObject).

Definition getClassID (o : ccHObject) : Z :=
  match o with HObject classID _ _ _ => classID end.

Definition getUniqueID (o : ccHObject) : Z :=
  match o with HObject _ uniqueID _ _ => uniqueID end.

Definition getName (o : ccHObject) : string :=
  match o with HObject _ _ name _ => name end.

(** [isA(type)]: the class is exactly [type]. *)
Definition isA (o : ccHObject) (type : Z) : bool := getClassID o =? type.

(** [isKindOf(type)]: the class has every bit of [type]. *)
Definition isKindOf (o : ccHObject) (type : Z) : bool :=
  Z.land (getClassID o) type =? type.

(** The entities below [o], each parent before its children and the children
    in their order: the order in which [filterChildren] (recursive) and [find]
    visit them. *)
Fixpoint descendants (o : ccHObject) : list ccHObject :=
  match o with
  | HObject _ _ _ children =>
      (fix over (cs : list ccHObject) : list ccHObject :=
         match cs with
         | [] => []
         | c :: cs => c :: descendants c ++ over cs
         end) children
  end.

(** [filterChildren(out, true, type)] on an empty container: the entities
    below [o] that are of kind [type], in the order of the tree. *)
Definition filterChildren (o : ccHObject) (type : Z) : list ccHObject :=
  filter (fun c => isKindOf c type = true) (descendants o).

(** [find(uniqueID)]: the first entity with this identifier among [o] and the
    entities below it, or null. *)
Definition ccHObject_find (o : ccHObject) (uniqueID : Z) : option ccHObject :=
  List.find (fun c => getUniqueID c =? uniqueID) (o :: descendants o).

(** The application, as far as the dialog uses it: [dbRootObject()] is the
    root of the database tree, or null. *)
Record ccMainAppInterface := { dbRootObject : option ccHObject }.

(** ** Widgets (Qt), as far as the dialog reads and writes them *)

(** A radio button: its text, and whether it is checked, enabled and shown. *)
Record QRadioButton := {
  radio_text : string;
  radio_isChecked : bool;
  radio_isEnabled : bool;
  radio_isVisible : bool
}.

(** The items of a combo box are a text and a user datum; the dialog stores
    [unsigned] data only.  [combo_currentIndex] is -1 when nothing is
    selected. *)
Record QComboBox := {
  combo_items : list (string * Z);
  combo_currentIndex : Z;
  combo_isEnabled : bool;
  combo_isVisible : bool
}.

Definition radio_setText (text : string) (b : QRadioButton) : QRadioButton :=
  {| radio_text := text; radio_isChecked := radio_isChecked b;
     radio_isEnabled := radio_isEnabled b; radio_isVisible := radio_isVisible b |}.

Definition radio_setChecked (checked : bool) (b : QRadioButton) : QRadioButton :=
  {| radio_text := radio_text b; radio_isChecked := checked;
     radio_isEnabled := radio_isEnabled b; radio_isVisible := radio_isVisible b |}.

Definition radio_setEnabled (enabled : bool) (b : QRadioButton) : QRadioButton :=
  {| radio_text := radio_text b; radio_isChecked := radio_isChecked b;
     radio_isEnabled := enabled; radio_isVisible := radio_isVisible b |}.

Definition radio_setVisible (visible : bool) (b : QRadioButton) : QRadioButton :=
  {| radio_text := radio_text b; radio_isChecked := radio_isChecked b;
     radio_isEnabled := radio_isEnabled b; radio_isVisible := visible |}.

Definition combo_setEnabled (enabled : bool) (c : QComboBox) : QComboBox :=
  {| combo_items := combo_items c; combo_currentIndex := combo_currentIndex c;
     combo_isEnabled := enabled; combo_isVisible := combo_isVisible c |}.

Definition combo_setVisible (visible : bool) (c : QComboBox) : QComboBox :=
  {| combo_items := combo_items c; combo_currentIndex := combo_currentIndex c;
     combo_isEnabled := combo_isEnabled c; combo_isVisible := visible |}.

(** [addItem(text, userData)]: the item is appended; an empty combo box selects
    it. *)
Definition addItem (text : string) (userData : Z) (c : QComboBox) : QComboBox :=
  {| combo_items := combo_items c ++ [(text, userData)];
     combo_currentIndex :=
       match combo_items c with [] => 0 | _ :: _ => combo_currentIndex c end;
     combo_isEnabled := combo_isEnabled c; combo_isVisible := combo_isVisible c |}.

(** [setCurrentIndex(index)]: an index that is no item's selects nothing. *)
Definition setCurrentIndex (index : Z) (c : QComboBox) : QComboBox :=
  {| combo_items := combo_items c;
     combo_currentIndex :=
       if (0 <=? index) && (index <? Z.of_nat (length (combo_items c)))
       then index else -1;
     combo_isEnabled := combo_isEnabled c; combo_isVisible := combo_isVisible c |}.

(** [itemData(index).toUInt()]: the datum of the item, and 0 for the invalid
    [QVariant] of an index that is no item's. *)
Definition itemData_toUInt (c : QComboBox) (index : Z) : Z :=
  if index <? 0 then 0
  else match combo_items c !! Z.to_nat index with
       | Some (_, userData) => userData
       | None => 0
       end.

(** The widgets [setupUi] creates ([Ui::Classify3DMASCDialog]).  The class is
    generated from the .ui file, which is not among the sources: the record
    holds the widgets that the functions of qClassify3DMASCDialog.cpp name,
    and of the button box the one property they write.
    [radioButtons_exclusive] tells whether Qt treats the three radio buttons as
    one exclusive group (auto-exclusive buttons of one parent widget), which
    the .ui file decides. *)
Record Ui_Classify3DMASCDialog := {
  cloud1RadioButton : QRadioButton;
  cloud2RadioButton : QRadioButton;
  cloud3RadioButton : QRadioButton;
  cloud1ComboBox : QComboBox;
  cloud2ComboBox : QComboBox;
  cloud3ComboBox : QComboBox;
  radioButtons_exclusive : bool;
  buttonBox_Ok_isEnabled : bool
}.

Definition with_radios (f1 f2 f3 : QRadioButton -> QRadioButton)
    (ui : Ui_Classify3DMASCDialog) : Ui_Classify3DMASCDialog :=
  {| cloud1RadioButton := f1 (cloud1RadioButton ui);
     cloud2RadioButton := f2 (cloud2RadioButton ui);
     cloud3RadioButton := f3 (cloud3RadioButton ui);
     cloud1ComboBox := cloud1ComboBox ui;
     cloud2ComboBox := cloud2ComboBox ui;
     cloud3ComboBox := cloud3ComboBox ui;
     radioButtons_exclusive := radioButtons_exclusive ui;
     buttonBox_Ok_isEnabled := buttonBox_Ok_isEnabled ui |}.

Definition with_combos (f1 f2 f3 : QComboBox -> QComboBox)
    (ui : Ui_Classify3DMASCDialog) : Ui_Classify3DMASCDialog :=
  {| cloud1RadioButton := cloud1RadioButton ui;
     cloud2RadioButton := cloud2RadioButton ui;
     cloud3RadioButton := cloud3RadioButton ui;
     cloud1ComboBox := f1 (cloud1ComboBox ui);
     cloud2ComboBox := f2 (cloud2ComboBox ui);
     cloud3ComboBox := f3 (cloud3ComboBox ui);
     radioButtons_exclusive := radioButtons_exclusive ui;
     buttonBox_Ok_isEnabled := buttonBox_Ok_isEnabled ui |}.

Definition buttonBox_Ok_setEnabled (enabled : bool)
    (ui : Ui_Classify3DMASCDialog) : Ui_Classify3DMASCDialog :=
  {| cloud1RadioButton := cloud1RadioButton ui;
     cloud2RadioButton := cloud2RadioButton ui;
     cloud3RadioButton := cloud3RadioButton ui;
     cloud1ComboBox := cloud1ComboBox ui;
     cloud2ComboBox := cloud2ComboBox ui;
     cloud3ComboBox := cloud3ComboBox ui;
     radioButtons_exclusive := radioButtons_exclusive ui;
     buttonBox_Ok_isEnabled := enabled |}.

(** [cloud1RadioButton->setChecked(true)]: the button is checked, and the
    other buttons of an exclusive group are unchecked. *)
Definition cloud1RadioButton_setChecked_true (ui : Ui_Classify3DMASCDialog)
  : Ui_Classify3DMASCDialog :=
  let others := if radioButtons_exclusive ui then radio_setChecked false else id in
  with_radios (radio_setChecked true) others others ui.

(** ** GetCloudFromCombo *)

Definition GetCloudFromCombo (comboBox : option QComboBox) (dbRoot : option ccHObject)
  : option ccHObject :=
  match comboBox, dbRoot with
  | Some comboBox, Some dbRoot =>
      let index := combo_currentIndex comboBox in
      if index <? 0 then None
      else
        let uniqueID := itemData_toUInt comboBox index in
        match ccHObject_find dbRoot uniqueID with
        | Some item => if isA item POINT_CLOUD then Some item else None
        | None => None
        end
  | _, _ => None
  end.

(** ** The dialog *)

(** The dialog: its widgets and whether [m_app] is not null.  The class is
    declared in qClassify3DMASCDialog.h, which is not among the sources; its
    members are those the functions of qClassify3DMASCDialog.cpp use.  The
    application [m_app] points to is an argument of the functions that read
    it.  [onCloudChanged] is the only slot the class defines: whatever signals
    the .ui file connects it to, a run of it writes the Ok button only, and
    writes there what the call that ends the constructor writes. *)
Record Classify3DMASCDialog := {
  ui : Ui_Classify3DMASCDialog;
  m_app : bool
}.

(** ** Classify3DMASCDialog::onCloudChanged *)

Definition onCloudChanged (dummy : Z) (ui : Ui_Classify3DMASCDialog)
  : Ui_Classify3DMASCDialog :=
  if negb (radio_isEnabled (cloud1RadioButton ui))
  then buttonBox_Ok_setEnabled false ui
  else buttonBox_Ok_setEnabled (0 <=? combo_currentIndex (cloud1ComboBox ui)) ui.

(** ** The constructor *)

(** The text and the datum of the item of a cloud:
    [getName() + QString(" [%1]").arg(getUniqueID())] and [getUniqueID()]. *)
Definition cloud_item (cloud : ccHObject) : string * Z :=
  (getName cloud +:+ " [" +:+ pretty (getUniqueID cloud) +:+ "]", getUniqueID cloud).

(** "add list of clouds to the combo-boxes": the loop over [clouds], with the
    counter [cloudCount]. *)
Definition add_clouds (clouds : list ccHObject) (ui : Ui_Classify3DMASCDialog)
  : Ui_Classify3DMASCDialog * Z :=
  foldl (fun '(ui, cloudCount) cloud =>
           if isA cloud POINT_CLOUD
           then
             let '(name, uniqueID) := cloud_item cloud in
             (with_combos (addItem name uniqueID) (addItem name uniqueID)
                (addItem name uniqueID) ui,
              to_unsigned (cloudCount + 1))
           else (ui, cloudCount))
        (ui, 0) clouds.

(** The constructor, from the widgets [setupUi] has created: the dialog and
    the error messages sent to the console. *)
Definition Classify3DMASCDialog_new (app : option ccMainAppInterface)
    (ui : Ui_Classify3DMASCDialog) : Classify3DMASCDialog * list string :=
  let '(ui, console) :=
    match app with
    | Some app =>
        let clouds :=
          match dbRootObject app with
          | Some root => filterChildren root POINT_CLOUD
          | None => []
          end in
        let '(ui, cloudCount) := add_clouds clouds ui in
        let ui :=
          with_combos
            (setCurrentIndex (if 0 <? cloudCount then (if 2 <? cloudCount then 1 else 0)
                              else -1))
            (setCurrentIndex (if 1 <? cloudCount then (if 2 <? cloudCount then 2 else 1)
                              else -1))
            (setCurrentIndex (if 2 <? cloudCount then 0 else -1))
            ui in
        (ui,
         if cloudCount =? 0
         then ["You need at least 1 loaded cloud to classify it..."]
         else [])
    | None => (ui, [])
    end in
  ({| ui := onCloudChanged 0 ui; m_app := bool_decide (is_Some app) |}, console).

(** ** Classify3DMASCDialog::setCloudRoles *)

(** [roles] lists the [QSet] in the order the loop visits it, which Qt leaves
    unspecified; the counter [index] cannot overflow, a [QSet] holding fewer
    than 2^31 elements. *)
Definition setCloudRoles (roles : list string) (ui : Ui_Classify3DMASCDialog)
  : Ui_Classify3DMASCDialog :=
  let '(ui, index) :=
    foldl (fun '(ui, index) role =>
             ((if index =? 0
               then cloud1RadioButton_setChecked_true
                      (with_radios (radio_setText role) id id ui)
               else if index =? 1 then with_radios id (radio_setText role) id ui
               else if index =? 2 then with_radios id id (radio_setText role) ui
               else ui),
              index + 1))
          (ui, 0) roles in
  let ui :=
    if index <? 1
    then with_combos (combo_setEnabled false) id id
           (with_radios (radio_setEnabled false) id id ui)
    else ui in
  let ui :=
    if index <? 2
    then with_combos id (combo_setVisible false) id
           (with_radios id (fun b => radio_setVisible false (radio_setEnabled false b)) id ui)
    else ui in
  if index <? 3
  then with_combos id id (combo_setVisible false)
         (with_radios id id (fun b => radio_setVisible false (radio_setEnabled false b)) ui)
  else ui.

(** ** Classify3DMASCDialog::getClouds *)

(** One of the three blocks of [getClouds]: the entry of a radio button that
    is enabled, and the main cloud when it is checked. *)
Definition getClouds_entry (dbRoot : option ccHObject)
    (radioButton : QRadioButton) (comboBox : QComboBox)
    (out : gmap string (option ccHObject) * string)
  : gmap string (option ccHObject) * string :=
  let '(clouds, mainCloud) := out in
  if radio_isEnabled radioButton
  then (<[radio_text radioButton := GetCloudFromCombo (Some comboBox) dbRoot]> clouds,
        if radio_isChecked radioButton then radio_text radioButton else mainCloud)
  else (clouds, mainCloud).

(** [app] is the application [m_app] points to when it is not null. *)
Definition getClouds (d : Classify3DMASCDialog) (app : ccMainAppInterface)
    (clouds : gmap string (option ccHObject)) (mainCloud : string)
  : gmap string (option ccHObject) * string :=
  if negb (m_app d) then (clouds, mainCloud)
  else
    let dbRoot := dbRootObject app in
    getClouds_entry dbRoot (cloud3RadioButton (ui d)) (cloud3ComboBox (ui d))
      (getClouds_entry dbRoot (cloud2RadioButton (ui d)) (cloud2ComboBox (ui d))
         (getClouds_entry dbRoot (cloud1RadioButton (ui d)) (cloud1ComboBox (ui d))
            (clouds, mainCloud))).

(** The point clouds of the database of the application, in the order of the
    tree. *)
Definition loaded_clouds (app : ccMainAppInterface) : list ccHObject :=
  match dbRootObject app with
  | Some root => filter (fun c => isA c POINT_CLOUD = true) (descendants root)
  | None => []
  end.

(** A database with three point clouds (one of them in a group), an entity
    that is of the kind of a point cloud without being one, and the widgets of
    a dialog none of whose combo boxes has an item yet. *)
Definition demo_root : ccHObject :=
  HObject 1 0 "DB Tree"
    [ HObject 257 10 "ground" [];
      HObject 5 11 "group"
        [ HObject 257 12 "core points" [];
          HObject 769 13 "sub-sampled" [] ];
      HObject 257 14 "vegetation" [] ].

Definition demo_app : ccMainAppInterface := {| dbRootObject := Some demo_root |}.

Definition demo_radio (text : string) : QRadioButton :=
  {| radio_text := text; radio_isChecked := false;
     radio_isEnabled := true; radio_isVisible := true |}.

Definition empty_combo : QComboBox :=
  {| combo_items := []; combo_currentIndex := -1;
     combo_isEnabled := true; combo_isVisible := true |}.

Definition demo_ui : Ui_Classify3DMASCDialog :=
  {| cloud1RadioButton := demo_radio "cloud 1";
     cloud2RadioButton := demo_radio "cloud 2";
     cloud3RadioButton := demo_radio "cloud 3";
     cloud1ComboBox := empty_combo;
     cloud2ComboBox := empty_combo;
     cloud3ComboBox := empty_combo;
     radioButtons_exclusive := true;
     buttonBox_Ok_isEnabled := true |}.

(** * Properties *)

Section Reasoning.
Context `{CV : OpenCV}.

(** ** The monad *)

Lemma bind_Returns {A B} (m : M A) (k : A -> M B) st b st2 log :
  bind m k st = Returns b st2 log ->
  exists a st1 l1 l2,
    m st = Returns a st1 l1 /\ k a st1 = Returns b st2 l2 /\ log = l1 ++ l2.
Proof.
  unfold bind. destruct (m st) as [a st1 l1 | |]; try discriminate.
  destruct (k a st1) as [b' st2' l2 | |] eqn:Hk; try discriminate.
  intros [= -> -> <-]. by exists a, st1, l1, l2.
Qed.

Lemma post_ret {A} (a : A) (Q : A -> Prop) : Q a -> post (ret a) Q.
Proof. intros HQ st a' st' log [= <- _ _]. exact HQ. Qed.

Lemma post_bind {A B} (m : M A) (k : A -> M B) (Q : B -> Prop) :
  (forall a, post (k a) Q) -> post (bind m k) Q.
Proof.
  intros Hk st b st' log Hrun.
  apply bind_Returns in Hrun as (a & st1 & l1 & l2 & _ & Hrun & _).
  exact (Hk a _ _ _ _ Hrun).
Qed.

Lemma post_bind_with {A B} (m : M A) (k : A -> M B) (P : A -> Prop) (Q : B -> Prop) :
  post m P -> (forall a, P a -> post (k a) Q) -> post (bind m k) Q.
Proof.
  intros Hm Hk st b st' log Hrun.
  apply bind_Returns in Hrun as (a & st1 & l1 & l2 & Ha & Hrun & _).
  exact (Hk a (Hm _ _ _ _ Ha) _ _ _ _ Hrun).
Qed.

Lemma post_throw {A} (e : Exception) (Q : A -> Prop) : post (throw e) Q.
Proof. intros st a st' log Hrun. discriminate Hrun. Qed.

Lemma post_undefined {A} (Q : A -> Prop) : post undefined Q.
Proof. intros st a st' log Hrun. discriminate Hrun. Qed.

(** ** Read-only computations *)

Lemma readonly_ret {A} (a : A) : readonly (ret a).
Proof. by intros st. Qed.

Lemma readonly_throw {A} (e : Exception) : readonly (throw (A := A) e).
Proof. by intros st. Qed.

Lemma readonly_undefined {A} : readonly (undefined (A := A)).
Proof. by intros st. Qed.

Lemma readonly_bind {A B} (m : M A) (k : A -> M B) :
  readonly m -> (forall a, readonly (k a)) -> readonly (bind m k).
Proof.
  intros Hm Hk st. unfold bind. specialize (Hm st).
  destruct (m st) as [a st1 l1 | e st1 l1 |]; try done. subst st1.
  specialize (Hk a st). by destruct (k a st).
Qed.

Lemma readonly_defined {A} (o : option A) : readonly (defined o).
Proof. destruct o; [apply readonly_ret | apply readonly_undefined]. Qed.

Lemma readonly_call {A} (r : Exception + A) : readonly (call r).
Proof. destruct r; [apply readonly_throw | apply readonly_ret]. Qed.

Lemma readonly_ccLog (e : LogEntry) : readonly (ccLog e).
Proof. by intros st. Qed.

Lemma readonly_get_rtrees : readonly get_rtrees.
Proof. by intros st. Qed.

Lemma readonly_get_files : readonly get_files.
Proof. by intros st. Qed.

Lemma readonly_deref_cloud (a : nat) : readonly (deref_cloud a).
Proof. intros st. unfold deref_cloud. by destruct (heap st !! a) as [[]|]. Qed.

Lemma readonly_dynamic_cast_cloud (p : ptr) : readonly (dynamic_cast_cloud p).
Proof.
  intros st. unfold dynamic_cast_cloud.
  destruct p as [a|]; [|done]. by destruct (heap st !! a) as [[]|].
Qed.

Lemma readonly_for_each {T} (idx : list Z) (body : Z -> T -> M T) (s : T) :
  (forall i s, readonly (body i s)) -> readonly (for_each idx body s).
Proof.
  intros Hbody. revert s.
  induction idx as [|i rest IH]; intros s; simpl.
  - apply readonly_ret.
  - apply readonly_bind; [apply Hbody | exact IH].
Qed.

Lemma readonly_for_each_ret {R T} (idx : list Z) (body : Z -> T -> M (R + T)) (s : T) :
  (forall i s, readonly (body i s)) -> readonly (for_each_ret idx body s).
Proof.
  intros Hbody. revert s.
  induction idx as [|i rest IH]; intros s; simpl.
  - apply readonly_ret.
  - apply readonly_bind; [apply Hbody |].
    intros [v | s']; [apply readonly_ret | apply IH].
Qed.

Ltac readonly_step :=
  first
    [ apply readonly_ret | apply readonly_throw | apply readonly_undefined
    | apply readonly_defined | apply readonly_call | apply readonly_ccLog
    | apply readonly_get_rtrees | apply readonly_get_files
    | apply readonly_deref_cloud | apply readonly_dynamic_cast_cloud
    | apply readonly_for_each; intros
    | apply readonly_for_each_ret; intros
    | apply readonly_bind; [| intros]
    | match goal with
      | |- readonly (match ?x with _ => _ end) => destruct x
      | |- readonly (if ?b then _ else _) => destruct b
      end ].

Lemma readonly_GetSource (f : Feature_Shared) (cloud : ccPointCloud) :
  readonly (GetSource f cloud).
Proof. unfold GetSource. repeat readonly_step. Qed.

Lemma readonly_evaluate_fill_data features cloud testSubset n test_data errorMessage :
  readonly (evaluate_fill_data features cloud testSubset n test_data errorMessage).
Proof.
  unfold evaluate_fill_data.
  repeat first [apply readonly_GetSource | readonly_step].
Qed.

Lemma readonly_evaluate_metrics rtrees classifSF testSubset test_data :
  readonly (evaluate_metrics rtrees classifSF testSubset test_data).
Proof. unfold evaluate_metrics. repeat readonly_step. Qed.

Lemma readonly_evaluate features testSubset metrics errorMessage :
  readonly (evaluate features testSubset metrics errorMessage).
Proof.
  unfold evaluate.
  repeat first
    [ apply readonly_evaluate_fill_data | apply readonly_evaluate_metrics | readonly_step ].
Qed.

Lemma readonly_train_fill_labels trainSubset classifSF n train_labels :
  readonly (train_fill_labels trainSubset classifSF n train_labels).
Proof. unfold train_fill_labels. repeat readonly_step. Qed.

Lemma readonly_train_fill_data features cloud_ptr cloud trainSubset n k training_data :
  readonly (train_fill_data features cloud_ptr cloud trainSubset n k training_data).
Proof.
  unfold train_fill_data.
  repeat first [apply readonly_GetSource | readonly_step].
Qed.

Lemma readonly_train_prepare features trainSubset :
  readonly (train_prepare features trainSubset).
Proof.
  unfold train_prepare.
  repeat first
    [ apply readonly_train_fill_labels | apply readonly_train_fill_data | readonly_step ].
Qed.

(** ** Computations that read the heap only *)

Lemma sim_ret {A B} (R : A -> B -> Prop) a b : R a b -> sim R (ret a) (ret b).
Proof. by intros HR st1 st2 Hheap. Qed.

Lemma sim_throw {A B} (R : A -> B -> Prop) e : sim R (throw e) (throw e).
Proof. by intros st1 st2 Hheap. Qed.

Lemma sim_undefined {A B} (R : A -> B -> Prop) : sim R undefined undefined.
Proof. by intros st1 st2 Hheap. Qed.

Lemma sim_bind {A1 A2 B1 B2} (R : A1 -> A2 -> Prop) (Q : B1 -> B2 -> Prop)
    (m1 : M A1) (m2 : M A2) (k1 : A1 -> M B1) (k2 : A2 -> M B2) :
  sim R m1 m2 -> (forall a1 a2, R a1 a2 -> sim Q (k1 a1) (k2 a2)) ->
  sim Q (bind m1 k1) (bind m2 k2).
Proof.
  intros Hm Hk st1 st2 Hheap. unfold bind.
  specialize (Hm st1 st2 Hheap). unfold related in Hm.
  destruct (m1 st1) as [a1 s1 l1 | e1 s1 l1 |], (m2 st2) as [a2 s2 l2 | e2 s2 l2 |];
    try done.
  destruct Hm as [Ha Hheap'].
  specialize (Hk a1 a2 Ha s1 s2 Hheap'). unfold related in Hk |- *.
  by destruct (k1 a1 s1), (k2 a2 s2).
Qed.

Lemma sim_defined {A} (o : option A) : sim eq (defined o) (defined o).
Proof. destruct o; [by apply sim_ret | apply sim_undefined]. Qed.

Lemma sim_call {A} (r : Exception + A) : sim eq (call r) (call r).
Proof. destruct r; [apply sim_throw | by apply sim_ret]. Qed.

Lemma sim_ccLog (e : LogEntry) : sim eq (ccLog e) (ccLog e).
Proof. by intros st1 st2 Hheap. Qed.

Lemma sim_dynamic_cast_cloud (p : ptr) :
  sim eq (dynamic_cast_cloud p) (dynamic_cast_cloud p).
Proof.
  intros st1 st2 Hheap. unfold dynamic_cast_cloud. destruct p as [a|]; [|done].
  rewrite Hheap. by destruct (heap st2 !! a) as [[]|].
Qed.

Lemma sim_for_each {S1 S2} (R : S1 -> S2 -> Prop) (idx : list Z)
    (body1 : Z -> S1 -> M S1) (body2 : Z -> S2 -> M S2) :
  (forall i s1 s2, R s1 s2 -> sim R (body1 i s1) (body2 i s2)) ->
  forall s1 s2, R s1 s2 -> sim R (for_each idx body1 s1) (for_each idx body2 s2).
Proof.
  intros Hbody. induction idx as [|i rest IH]; intros s1 s2 HR; simpl.
  - by apply sim_ret.
  - eapply sim_bind; [by apply Hbody | exact IH].
Qed.

Lemma sim_for_each_ret {R1 R2 S1 S2} (RR : R1 -> R2 -> Prop) (RS : S1 -> S2 -> Prop)
    (idx : list Z) (body1 : Z -> S1 -> M (R1 + S1)) (body2 : Z -> S2 -> M (R2 + S2)) :
  (forall i s1 s2, RS s1 s2 -> sim (sum_rel RR RS) (body1 i s1) (body2 i s2)) ->
  forall s1 s2, RS s1 s2 ->
    sim (sum_rel RR RS) (for_each_ret idx body1 s1) (for_each_ret idx body2 s2).
Proof.
  intros Hbody. induction idx as [|i rest IH]; intros s1 s2 HR; simpl.
  - by apply sim_ret.
  - eapply sim_bind; [by apply Hbody |].
    intros [v1 | s1'] [v2 | s2'] Hsum; simpl in Hsum; try contradiction.
    + by apply sim_ret.
    + by apply IH.
Qed.

Lemma same_source_refl (f : Feature_Shared) : same_source f f.
Proof. by destruct f. Qed.

Lemma same_sources_refl (features : Feature_Set) : Forall2 same_source features features.
Proof. induction features; constructor; [apply same_source_refl | done]. Qed.

Lemma sim_defined_related {A B} (R : A -> B -> Prop) (o1 : option A) (o2 : option B) :
  option_Forall2 R o1 o2 -> sim R (defined o1) (defined o2).
Proof. intros [a b HR |]; [by apply sim_ret | apply sim_undefined]. Qed.

Lemma sim_GetSource (f1 f2 : Feature_Shared) (cloud : ccPointCloud) :
  same_source f1 f2 -> sim eq (GetSource f1 cloud) (GetSource f2 cloud).
Proof.
  intros Hsame. unfold GetSource.
  destruct f1 as [ft1|], f2 as [ft2|]; simpl in Hsame; try contradiction.
  - destruct Hsame as [Hsource Hname].
    eapply sim_bind with (R := eq); [by apply sim_ret |]. intros _ _ _.
    eapply sim_bind with (R := fun a b => a = ft1 /\ b = ft2); [by apply sim_ret |].
    intros ? ? [-> ->]. rewrite Hsource, Hname.
    destruct (f_source ft2); try by apply sim_ret.
    case_match; [by apply sim_ret |].
    eapply sim_bind; [apply sim_ccLog | intros; by apply sim_ret].
  - eapply sim_bind; [apply sim_ccLog |]. intros _ _ _.
    eapply sim_bind with (R := fun _ _ => False); [apply sim_undefined | done].
Qed.

Lemma sim_evaluate_fill_data (RM : string -> string -> Prop)
    features1 features2 cloud testSubset n test_data msg1 msg2 :
  (forall msg, RM msg msg) -> RM msg1 msg2 ->
  Forall2 same_source features1 features2 ->
  sim (sum_rel RM eq)
    (evaluate_fill_data features1 cloud testSubset n test_data msg1)
    (evaluate_fill_data features2 cloud testSubset n test_data msg2).
Proof.
  intros HRM Hmsg Hsame. unfold evaluate_fill_data.
  apply sim_for_each_ret; [| done].
  intros fIndex m _ <-.
  eapply sim_bind.
  { apply sim_defined_related. by apply Forall2_lookup. }
  intros f1 f2 Hf.
  pose proof (sim_GetSource f1 f2 cloud Hf) as Hget.
  destruct f1 as [ft1|], f2 as [ft2|]; simpl in Hf; try contradiction;
    [| by apply sim_ret].
  destruct Hf as [_ Hname]. rewrite Hname.
  eapply sim_bind; [exact Hget |]. intros source _ <-.
  destruct (source_unusable source); [apply sim_ret, HRM |].
  eapply sim_bind; [apply sim_defined |]. intros w _ <-.
  eapply sim_bind with (R := eq); [| intros ? ? <-; by apply sim_ret].
  apply sim_for_each; [| done].
  intros i m1 _ <-.
  eapply sim_bind; [apply sim_defined |]. intros pointIndex _ <-.
  eapply sim_bind; [apply sim_defined |]. intros value _ <-.
  apply sim_defined.
Qed.

Lemma sim_evaluate_metrics rt1 rt2 classifSF testSubset test_data :
  (forall sample, predict rt1 sample = predict rt2 sample) ->
  sim eq (evaluate_metrics rt1 classifSF testSubset test_data)
         (evaluate_metrics rt2 classifSF testSubset test_data).
Proof.
  intros Hpredict. unfold evaluate_metrics.
  eapply sim_bind with (R := eq); [| intros ? ? <-; by apply sim_ret].
  apply sim_for_each; [| done].
  intros i good _ <-.
  eapply sim_bind; [apply sim_defined |]. intros pointIndex _ <-.
  eapply sim_bind; [apply sim_defined |]. intros pointClass _ <-.
  eapply sim_bind; [apply sim_defined |]. intros iClass _ <-.
  eapply sim_bind; [apply sim_defined |]. intros row _ <-.
  rewrite Hpredict.
  eapply sim_bind; [apply sim_call |]. intros predicted _ <-.
  eapply sim_bind; [apply sim_defined |]. intros iPredicted _ <-.
  by apply sim_ret.
Qed.

Lemma related_get_rtrees {A B} (R : A -> B -> Prop)
    (k1 : option RTrees -> M A) (k2 : option RTrees -> M B) st1 st2 :
  related R (k1 (m_rtrees (this st1)) st1) (k2 (m_rtrees (this st2)) st2) ->
  related R (bind get_rtrees k1 st1) (bind get_rtrees k2 st2).
Proof.
  unfold bind, get_rtrees, related.
  by destruct (k1 _ st1), (k2 _ st2).
Qed.

(** Two [evaluate] calls on states with equal heaps and agreeing models, for
    features that name the same sources, end the same way, with the same
    success flag and metrics, whatever the metrics and the error message they
    are handed. *)
Lemma evaluate_related (RM : string -> string -> Prop)
    features1 features2 testSubset metrics1 metrics2 msg1 msg2 st1 st2 :
  (forall msg, RM msg msg) -> RM msg1 msg2 ->
  Forall2 same_source features1 features2 ->
  heap st1 = heap st2 ->
  models_agree (m_rtrees (this st1)) (m_rtrees (this st2)) ->
  related (same_verdict RM)
    (evaluate features1 testSubset metrics1 msg1 st1)
    (evaluate features2 testSubset metrics2 msg2 st2).
Proof.
  intros HRM Hmsg Hsame Hheap Hmodels.
  unfold evaluate. apply related_get_rtrees.
  unfold models_agree in Hmodels.
  destruct (m_rtrees (this st1)) as [rt1|], (m_rtrees (this st2)) as [rt2|]; try done.
  destruct Hmodels as [Htrained Hpredict]. rewrite Htrained.
  match goal with
  | |- related _ (?body1 st1) (?body2 st2) =>
      cut (sim (same_verdict RM) body1 body2);
      [intros Hsim; exact (Hsim st1 st2 Hheap) |]
  end.
  destruct (negb (isTrained rt2)); [by apply sim_ret |].
  pose proof (Forall2_length _ _ _ Hsame) as Hlength.
  destruct Hsame as [| f1 f2 rest1 rest2 Hf Hrest]; [by apply sim_ret |].
  assert (Hsame : Forall2 same_source (f1 :: rest1) (f2 :: rest2)) by by constructor.
  rewrite Hlength.
  destruct testSubset as [testSubset|]; [| by apply sim_ret].
  eapply sim_bind; [apply sim_dynamic_cast_cloud |]. intros cloud _ <-.
  destruct cloud as [cloud|]; [| by apply sim_ret].
  case_match; [by apply sim_ret |].
  destruct (getScalarField _ _) as [classifSF|]; [| by apply sim_ret].
  case_match; [by apply sim_ret |].
  eapply sim_bind; [apply sim_ccLog |]. intros _ _ _.
  destruct (Mat_create _ _) as [msg | test_data]; [by apply sim_ret |].
  eapply sim_bind; [by apply sim_evaluate_fill_data |].
  intros [e1|m1] [e2|m2] Hsum; simpl in Hsum; try contradiction;
    [by apply sim_ret |].
  subst m2.
  eapply sim_bind; [by apply sim_evaluate_metrics |].
  intros metrics _ <-. by apply sim_ret.
Qed.

End Reasoning.

Ltac post_step :=
  first
    [ apply post_ret
    | apply post_throw
    | apply post_undefined
    | apply post_bind; intros
    | match goal with
      | |- post (match ?x with _ => _ end) _ => destruct x
      | |- post (if ?b then _ else _) _ => destruct b
      end ].

(** ** Machine integers and matrices *)

Lemma to_int_small (n : Z) : 0 <= n <= INT_MAX -> to_int n = n.
Proof.
  unfold INT_MAX, to_int. intros Hn.
  rewrite Z.mod_small by lia.
  destruct (n <? 2 ^ 31) eqn:Hlt; [done | lia].
Qed.

Lemma to_unsigned_small (n : Z) : 0 <= n <= INT_MAX -> to_unsigned n = n.
Proof. unfold INT_MAX, to_unsigned. intros Hn. apply Z.mod_small. lia. Qed.

Lemma to_uchar_small (n : Z) : 0 <= n <= 255 -> to_uchar n = n.
Proof. unfold to_uchar. intros Hn. apply Z.mod_small. lia. Qed.

Lemma Mat_fresh_wf (rows cols : Z) : 0 <= rows -> 0 <= cols -> Mat_wf (Mat_fresh rows cols).
Proof.
  intros Hr Hc. unfold Mat_wf, Mat_fresh. simpl.
  repeat split; try done.
  - by rewrite length_replicate.
  - apply Forall_replicate. by rewrite length_replicate.
Qed.

Lemma Mat_set_is_Some (m : Mat) (i j : Z) (v : float) :
  0 <= i < mat_rows m -> 0 <= j < mat_cols m -> is_Some (Mat_set m i j v).
Proof.
  intros Hi Hj. unfold Mat_set.
  assert (Hb : (0 <=? i) && (i <? mat_rows m) && (0 <=? j) && (j <? mat_cols m) = true).
  { repeat (apply andb_true_intro; split); lia. }
  rewrite Hb. by eexists.
Qed.

Lemma Mat_set_shape (m m' : Mat) (i j : Z) (v : float) :
  Mat_wf m -> Mat_set m i j v = Some m' ->
  Mat_wf m' /\ mat_rows m' = mat_rows m /\ mat_cols m' = mat_cols m.
Proof.
  intros (Hr & Hc & Hlen & Hrows). unfold Mat_set.
  case_match; [| discriminate]. intros [= <-]. unfold Mat_wf. simpl.
  repeat split; try done.
  - by rewrite length_alter.
  - apply Forall_alter; [done |]. intros row _ Hrow. by rewrite length_insert.
Qed.

Lemma Mat_at_set (m m' : Mat) (i j i' j' : Z) (v : float) :
  Mat_wf m -> Mat_set m i j v = Some m' -> 0 <= i' -> 0 <= j' ->
  Mat_at m' i' j' = if (i' =? i) && (j' =? j) then Some v else Mat_at m i' j'.
Proof.
  intros (Hr & Hc & Hlen & Hrows). unfold Mat_set.
  case_match eqn:Hb; [| discriminate]. intros [= <-] Hi' Hj'.
  apply andb_prop in Hb as [Hb Hj2]. apply andb_prop in Hb as [Hb Hj1].
  apply andb_prop in Hb as [Hi1 Hi2].
  unfold Mat_at. simpl.
  assert (Hpos : (0 <=? i') && (0 <=? j') = true) by (apply andb_true_intro; lia).
  rewrite Hpos.
  destruct (i' =? i) eqn:Hii; simpl.
  - assert (i' = i) as -> by lia.
    rewrite list_lookup_alter_eq.
    destruct (lookup_lt_is_Some_2 (mat_data m) (Z.to_nat i)) as [row Hrow]; [lia |].
    rewrite Hrow. simpl.
    assert (Hrowlen : length row = Z.to_nat (mat_cols m)).
    { by apply (Forall_lookup_1 _ _ _ _ Hrows Hrow). }
    destruct (j' =? j) eqn:Hjj.
    + assert (j' = j) as -> by lia. apply list_lookup_insert_eq. lia.
    + apply list_lookup_insert_ne. lia.
  - rewrite list_lookup_alter_ne by lia. done.
Qed.

(** ** Loops that run to completion *)

Section Loops.
Context `{CV : OpenCV}.

Lemma bind_ret_l {A B} (a : A) (k : A -> M B) st : bind (ret a) k st = k a st.
Proof. unfold bind, ret. by destruct (k a st). Qed.

Lemma bind_defined_Some {A B} (o : option A) (a : A) (k : A -> M B) st :
  o = Some a -> bind (defined o) k st = k a st.
Proof. intros ->. apply bind_ret_l. Qed.

Lemma for_each_seq_invariant {T} (body : Z -> T -> M T) (I : nat -> T -> Prop) st :
  forall (k a : nat) (s : T),
    I a s ->
    (forall i s, (a <= i < a + k)%nat -> I i s ->
       exists s' log, body (Z.of_nat i) s st = Returns s' st log /\ I (S i) s') ->
    exists s' log,
      for_each (Z.of_nat <$> seq a k) body s st = Returns s' st log /\ I (a + k)%nat s'.
Proof.
  induction k as [|k IH]; intros a s Hinv Hstep.
  - exists s, []. rewrite Nat.add_0_r. done.
  - destruct (Hstep a s ltac:(lia) Hinv) as (s1 & l1 & Hbody & Hinv1).
    destruct (IH (S a) s1 Hinv1) as (s2 & l2 & Hrest & Hinv2).
    { intros i s' Hi. apply Hstep. lia. }
    exists s2, (l1 ++ l2). cbn [seq fmap list_fmap for_each]. unfold bind.
    rewrite Hbody, Hrest. split; [done |].
    by replace (a + S k)%nat with (S a + k)%nat by lia.
Qed.

Lemma for_each_range_invariant {T} (n : Z) (body : Z -> T -> M T)
    (I : Z -> T -> Prop) (s0 : T) st :
  0 <= n -> I 0 s0 ->
  (forall i s, 0 <= i < n -> I i s ->
     exists s' log, body i s st = Returns s' st log /\ I (i + 1) s') ->
  exists s' log, for_each (range n) body s0 st = Returns s' st log /\ I n s'.
Proof.
  intros Hn Hinv Hstep. unfold range.
  destruct (for_each_seq_invariant body (fun k s => I (Z.of_nat k) s) st
              (Z.to_nat n) 0%nat s0 Hinv) as (s' & log & Hrun & Hfinal).
  { intros i s Hi HI. destruct (Hstep (Z.of_nat i) s ltac:(lia) HI) as (s1 & l1 & Hb & H1).
    exists s1, l1. split; [done |]. by replace (Z.of_nat (S i)) with (Z.of_nat i + 1) by lia. }
  exists s', log. split; [done |].
  by replace (Z.of_nat (0 + Z.to_nat n)) with n in Hfinal by lia.
Qed.

Lemma for_each_ret_seq_invariant {R T} (body : Z -> T -> M (R + T))
    (I : nat -> T -> Prop) st :
  forall (k a : nat) (s : T),
    I a s ->
    (forall i s, (a <= i < a + k)%nat -> I i s ->
       exists s' log, body (Z.of_nat i) s st = Returns (inr s') st log /\ I (S i) s') ->
    exists s' log,
      for_each_ret (Z.of_nat <$> seq a k) body s st = Returns (inr s') st log /\
      I (a + k)%nat s'.
Proof.
  induction k as [|k IH]; intros a s Hinv Hstep.
  - exists s, []. rewrite Nat.add_0_r. done.
  - destruct (Hstep a s ltac:(lia) Hinv) as (s1 & l1 & Hbody & Hinv1).
    destruct (IH (S a) s1 Hinv1) as (s2 & l2 & Hrest & Hinv2).
    { intros i s' Hi. apply Hstep. lia. }
    exists s2, (l1 ++ l2). cbn [seq fmap list_fmap for_each_ret]. unfold bind.
    rewrite Hbody, Hrest. split; [done |].
    by replace (a + S k)%nat with (S a + k)%nat by lia.
Qed.

Lemma for_each_ret_range_invariant {R T} (n : Z) (body : Z -> T -> M (R + T))
    (I : Z -> T -> Prop) (s0 : T) st :
  0 <= n -> I 0 s0 ->
  (forall i s, 0 <= i < n -> I i s ->
     exists s' log, body i s st = Returns (inr s') st log /\ I (i + 1) s') ->
  exists s' log, for_each_ret (range n) body s0 st = Returns (inr s') st log /\ I n s'.
Proof.
  intros Hn Hinv Hstep. unfold range.
  destruct (for_each_ret_seq_invariant body (fun k s => I (Z.of_nat k) s) st
              (Z.to_nat n) 0%nat s0 Hinv) as (s' & log & Hrun & Hfinal).
  { intros i s Hi HI. destruct (Hstep (Z.of_nat i) s ltac:(lia) HI) as (s1 & l1 & Hb & H1).
    exists s1, l1. split; [done |]. by replace (Z.of_nat (S i)) with (Z.of_nat i + 1) by lia. }
  exists s', log. split; [done |].
  by replace (Z.of_nat (0 + Z.to_nat n)) with n in Hfinal by lia.
Qed.

(** A loop that writes [value i] at row [i] of column [j], for every row:
    afterwards column [j] holds these values and the other columns are as
    before. *)
Lemma fill_column (body : Z -> Mat -> M Mat) (value : Z -> option float)
    (j : Z) (m0 : Mat) st :
  Mat_wf m0 -> 0 <= j < mat_cols m0 ->
  (forall i m, 0 <= i < mat_rows m0 ->
     exists v, value i = Some v /\ body i m st = defined (Mat_set m i j v) st) ->
  exists m log,
    for_each (range (mat_rows m0)) body m0 st = Returns m st log /\
    Mat_wf m /\ mat_rows m = mat_rows m0 /\ mat_cols m = mat_cols m0 /\
    (forall i, 0 <= i < mat_rows m0 -> Mat_at m i j = value i) /\
    (forall i j', 0 <= i -> 0 <= j' -> j' <> j -> Mat_at m i j' = Mat_at m0 i j').
Proof.
  intros Hwf Hj Hbody.
  destruct (for_each_range_invariant (mat_rows m0) body
    (fun k m =>
       Mat_wf m /\ mat_rows m = mat_rows m0 /\ mat_cols m = mat_cols m0 /\
       (forall i, 0 <= i < k -> Mat_at m i j = value i) /\
       (forall i j', 0 <= i -> 0 <= j' -> j' <> j -> Mat_at m i j' = Mat_at m0 i j'))
    m0 st) as (m & log & Hrun & Hinv).
  - apply Hwf.
  - split_and!; try done. intros i Hi. lia.
  - intros k m Hk (Hwfm & Hrows & Hcols & Hdone & Hother).
    destruct (Hbody k m Hk) as (v & Hv & ->).
    destruct (Mat_set_is_Some m k j v) as [m1 Hset]; [lia | lia |].
    destruct (Mat_set_shape _ _ _ _ _ Hwfm Hset) as (Hwf1 & Hrows1 & Hcols1).
    exists m1, []. rewrite Hset. split; [done |].
    split_and!; try congruence.
    + intros i Hi. rewrite (Mat_at_set _ _ _ _ _ _ _ Hwfm Hset) by lia.
      destruct (i =? k) eqn:Hik; simpl.
      * rewrite Z.eqb_refl. assert (i = k) as -> by lia. done.
      * apply Hdone. lia.
    + intros i j' Hi Hj' Hne. rewrite (Mat_at_set _ _ _ _ _ _ _ Hwfm Hset) by lia.
      assert ((j' =? j) = false) as -> by lia. rewrite andb_false_r. by apply Hother.
  - by exists m, log.
Qed.

Lemma bind_Returns_intro {A B} (m : M A) (k : A -> M B) st a l1 b st' l2 :
  m st = Returns a st l1 -> k a st = Returns b st' l2 ->
  bind m k st = Returns b st' (l1 ++ l2).
Proof. intros Hm Hk. unfold bind. by rewrite Hm, Hk. Qed.

Lemma train_pointIndex_selected trainSubset i p :
  0 <= i <= INT_MAX -> 0 <= p <= INT_MAX ->
  selected_index trainSubset i = Some p ->
  train_pointIndex trainSubset i = Some p.
Proof.
  intros Hi Hp. unfold selected_index, train_pointIndex.
  destruct trainSubset as [ts|]; [| done].
  rewrite to_unsigned_small by done. intros ->. simpl. by rewrite to_int_small.
Qed.

Lemma selected_index_is_Some subset cloud i :
  0 <= i < selected_count subset cloud -> is_Some (selected_index subset i).
Proof.
  unfold selected_count, selected_index, rc_size, getPointGlobalIndex.
  destruct subset as [rc|]; [| by eexists]. intros Hi.
  assert ((i <? 0) = false) as -> by lia.
  apply lookup_lt_is_Some_2. lia.
Qed.

(** A source that [GetSource] resolved and that is valid can be read at every
    point of the cloud. *)
Lemma GetSource_valid_reads f cloud st w st' log p :
  GetSource f cloud st = Returns (Some w) st' log ->
  wrapper_isValid w = true ->
  colors_cover_points cloud ->
  0 <= p < cloud_size cloud ->
  is_Some (pointValue w p).
Proof.
  intros Hget Hvalid Hcover Hp.
  assert (Hw : (exists sf, w = ScalarFieldWrapper cloud sf) \/
               (exists d, w = DimScalarFieldWrapper cloud d) \/
               (exists b, w = ColorScalarFieldWrapper cloud b)).
  { destruct f as [ft|]; [| discriminate Hget].
    unfold GetSource in Hget. rewrite bind_ret_l in Hget.
    rewrite (bind_defined_Some _ ft) in Hget by done.
    destruct (f_source ft); try (injection Hget as <- _ _; eauto).
    case_match; [injection Hget as <- _ _; eauto |].
    apply bind_Returns in Hget as (? & ? & ? & ? & _ & Hret & _). discriminate Hret. }
  unfold pointValue. assert ((p <? 0) = false) as -> by lia.
  unfold cloud_size in Hp.
  destruct Hw as [[sf ->] | [[d ->] | [b ->]]]; simpl in Hvalid |- *.
  - destruct sf as [sf|]; [| discriminate Hvalid]. simpl.
    unfold ScalarField_getValue, ScalarField_size, cloud_size in *.
    assert ((p <? 0) = false) as -> by lia.
    destruct (lookup_lt_is_Some_2 (sf_values sf) (Z.to_nat p)) as [v ->]; [lia |].
    by eexists.
  - destruct (lookup_lt_is_Some_2 (cloud_points cloud) (Z.to_nat p)) as [P ->]; [lia |].
    by eexists.
  - unfold hasColors in Hvalid.
    destruct (cloud_colors cloud) as [cols|] eqn:Hcols; [| discriminate Hvalid]. simpl.
    specialize (Hcover cols Hcols).
    destruct (lookup_lt_is_Some_2 cols (Z.to_nat p)) as [c ->]; [lia |].
    by eexists.
Qed.

(** The inner loop of the matrix builders: column [k] receives the values of
    source [w] at the selected points. *)
Lemma fill_source_column (inner : Z -> Mat -> M Mat) subset cloud w k m0 st :
  Mat_wf m0 -> mat_rows m0 = selected_count subset cloud -> 0 <= k < mat_cols m0 ->
  (forall i p, 0 <= i < selected_count subset cloud ->
     selected_index subset i = Some p -> is_Some (pointValue w p)) ->
  (forall i m p v, 0 <= i < selected_count subset cloud ->
     selected_index subset i = Some p -> pointValue w p = Some v ->
     inner i m st = defined (Mat_set m i k (double_to_float v)) st) ->
  exists m log,
    for_each (range (selected_count subset cloud)) inner m0 st = Returns m st log /\
    Mat_wf m /\ mat_rows m = mat_rows m0 /\ mat_cols m = mat_cols m0 /\
    (forall i p, 0 <= i < selected_count subset cloud ->
       selected_index subset i = Some p ->
       exists v, pointValue w p = Some v /\ Mat_at m i k = Some (double_to_float v)) /\
    (forall i j', 0 <= i -> 0 <= j' -> j' <> k -> Mat_at m i j' = Mat_at m0 i j').
Proof.
  intros Hwf Hrows Hk Hreads Hinner.
  destruct (fill_column inner
              (fun i => p ← selected_index subset i;
                        v ← pointValue w p; Some (double_to_float v))
              k m0 st Hwf Hk) as (m & log & Hrun & Hwfm & Hr & Hc & Hcol & Hother).
  { intros i m Hi. rewrite Hrows in Hi.
    destruct (selected_index_is_Some subset cloud i Hi) as [p Hp].
    destruct (Hreads i p Hi Hp) as [v Hv].
    exists (double_to_float v). rewrite Hp. simpl. rewrite Hv. simpl.
    split; [done |]. by apply (Hinner i m p v). }
  rewrite Hrows in Hrun, Hcol.
  exists m, log. split_and!; try done.
  intros i p Hi Hp. destruct (Hreads i p Hi Hp) as [v Hv].
  exists v. split; [done |]. rewrite Hcol by done.
  rewrite Hp. simpl. by rewrite Hv.
Qed.

End Loops.

(** ** Casts that lose nothing *)

Lemma digits2_pos_iter_xO (m d : positive) :
  digits2_pos (Pos.iter xO m d) = (digits2_pos m + d)%positive.
Proof.
  induction d as [|d IH] using Pos.peano_ind.
  - simpl. lia.
  - rewrite Pos.iter_succ. simpl. rewrite IH. lia.
Qed.

Lemma iter_pos_swap {A} (f : A -> A) (p : positive) (x : A) :
  SpecFloat.iter_pos f p (f x) = f (SpecFloat.iter_pos f p x).
Proof.
  revert x. induction p as [p IH | p IH |]; intros x; simpl.
  - by rewrite !IH.
  - by rewrite !IH.
  - done.
Qed.

Lemma iter_pos_succ {A} (f : A -> A) (p : positive) (x : A) :
  SpecFloat.iter_pos f (Pos.succ p) x = f (SpecFloat.iter_pos f p x).
Proof.
  revert x. induction p as [p IH | p IH |]; intros x; simpl.
  - rewrite !IH. by rewrite !iter_pos_swap.
  - by rewrite !iter_pos_swap.
  - done.
Qed.

Lemma iter_pos_shr_1_exact (m d : positive) :
  SpecFloat.iter_pos shr_1 d {| shr_m := Z.pos (Pos.iter xO m d); shr_r := false; shr_s := false |}
  = {| shr_m := Z.pos m; shr_r := false; shr_s := false |}.
Proof.
  induction d as [|d IH] using Pos.peano_ind.
  - reflexivity.
  - rewrite iter_pos_succ, Pos.iter_succ.
    rewrite <- iter_pos_swap. simpl. exact IH.
Qed.

Lemma shl_align_shift (mx : positive) (ex ex' : Z) :
  ex' < ex -> shl_align mx ex ex' = (Pos.iter xO mx (Z.to_pos (ex - ex')), ex').
Proof.
  intros Hlt. unfold shl_align. destruct (ex' - ex) as [|p|p] eqn:Hd; try lia.
  replace (ex - ex') with (Z.pos p) by lia. reflexivity.
Qed.

Lemma shl_align_keep (mx : positive) (ex ex' : Z) :
  ex <= ex' -> shl_align mx ex ex' = (mx, ex).
Proof.
  intros Hle. unfold shl_align. destruct (ex' - ex) as [|p|p] eqn:Hd; try done. lia.
Qed.

Lemma shr_fexp_canonical (prec emax : Z) (m : positive) (e : Z) :
  fexp prec emax (Z.pos (digits2_pos m) + e) = e ->
  shr_fexp prec emax (Z.pos m) e loc_Exact
  = ({| shr_m := Z.pos m; shr_r := false; shr_s := false |}, e).
Proof.
  intros Hcan. unfold shr_fexp. simpl Zdigits2. rewrite Hcan, Z.sub_diag. reflexivity.
Qed.

Lemma binary_round_aux_canonical (prec emax : Z) (s : bool) (m : positive) (e : Z) :
  fexp prec emax (Z.pos (digits2_pos m) + e) = e -> e <= emax - prec ->
  binary_round_aux prec emax s (Z.pos m) e loc_Exact = S754_finite s m e.
Proof.
  intros Hcan Hmax. unfold binary_round_aux.
  rewrite shr_fexp_canonical by done. simpl.
  rewrite shr_fexp_canonical by done. simpl.
  by rewrite (proj2 (Z.leb_le _ _) Hmax).
Qed.

Lemma binary_round_aux_shifted (prec emax : Z) (s : bool) (m d : positive) (e : Z) :
  fexp prec emax (Z.pos (digits2_pos m) + e) = e -> e <= emax - prec ->
  binary_round_aux prec emax s (Z.pos (Pos.iter xO m d)) (e - Z.pos d) loc_Exact
  = S754_finite s m e.
Proof.
  intros Hcan Hmax. unfold binary_round_aux.
  assert (Hshift : shr_fexp prec emax (Z.pos (Pos.iter xO m d)) (e - Z.pos d) loc_Exact
                   = ({| shr_m := Z.pos m; shr_r := false; shr_s := false |}, e)).
  { unfold shr_fexp. simpl Zdigits2. rewrite digits2_pos_iter_xO.
    replace (Z.pos (digits2_pos m + d) + (e - Z.pos d))
      with (Z.pos (digits2_pos m) + e) by lia.
    rewrite Hcan. replace (e - (e - Z.pos d)) with (Z.pos d) by lia.
    unfold shr. simpl shr_record_of_loc. rewrite iter_pos_shr_1_exact.
    f_equal. lia. }
  rewrite Hshift. simpl.
  rewrite shr_fexp_canonical by done. simpl.
  by rewrite (proj2 (Z.leb_le _ _) Hmax).
Qed.

Lemma float_double_roundtrip (s : bool) (m : positive) (e : Z) :
  bounded 24 128 m e = true ->
  binary_round 53 1024 s m e
    = S754_finite s (Pos.iter xO m (Z.to_pos (53 - Z.pos (digits2_pos m))))
        (Z.pos (digits2_pos m) + e - 53) /\
  binary_round 24 128 s (Pos.iter xO m (Z.to_pos (53 - Z.pos (digits2_pos m))))
        (Z.pos (digits2_pos m) + e - 53)
    = S754_finite s m e.
Proof.
  unfold bounded, canonical_mantissa. intros Hb.
  apply andb_prop in Hb as [Hcan Hmax].
  apply Z.eqb_eq in Hcan. apply Z.leb_le in Hmax.
  set (D := Z.pos (digits2_pos m)) in *.
  assert (HD : 1 <= D) by (subst D; lia).
  assert (Hcan' := Hcan). unfold fexp, emin in Hcan'.
  assert (HD24 : D <= 24) by lia.
  assert (He : -149 <= e) by lia.
  assert (Hd : Z.pos (Z.to_pos (53 - D)) = 53 - D) by (apply Z2Pos.id; lia).
  assert (Hfexp53 : fexp 53 1024 (D + e) = D + e - 53) by (unfold fexp, emin; lia).
  split.
  - unfold binary_round. fold D. rewrite Hfexp53.
    rewrite shl_align_shift by lia.
    replace (e - (D + e - 53)) with (53 - D) by lia.
    apply binary_round_aux_canonical; [| lia].
    rewrite digits2_pos_iter_xO, Pos2Z.inj_add, Hd. fold D.
    replace (D + (53 - D) + (D + e - 53)) with (D + e) by lia. done.
  - unfold binary_round. rewrite digits2_pos_iter_xO, Pos2Z.inj_add, Hd. fold D.
    replace (D + (53 - D) + (D + e - 53)) with (D + e) by lia.
    rewrite Hcan. rewrite shl_align_keep by lia.
    replace (D + e - 53) with (e - Z.pos (Z.to_pos (53 - D))) by lia.
    by apply binary_round_aux_shifted.
Qed.

(** A [float] widened to [double] and narrowed again is the same [float]. *)
Lemma double_to_float_of_float (x : float) :
  valid_float x = true -> double_to_float (float_to_double x) = x.
Proof.
  destruct x as [s | s | | s m e]; try done.
  unfold valid_float, float_prec, float_emax. simpl. intros Hb.
  destruct (float_double_roundtrip s m e Hb) as [Hwiden Hnarrow].
  unfold float_to_double, double_prec, double_emax. rewrite Hwiden.
  unfold double_to_float, float_prec, float_emax. exact Hnarrow.
Qed.

(** A byte converted to [double] and narrowed to [float] is the byte
    converted to [float]. *)
Lemma double_to_float_of_byte (c : Z) :
  0 <= c <= 255 -> double_to_float (double_of_Z c) = float_of_Z c.
Proof.
  intros Hc.
  assert (Hall : Forall (fun c => double_to_float (double_of_Z c) = float_of_Z c)
                   (seqZ 0 256)).
  { apply (bool_decide_unpack _). vm_compute. exact I. }
  rewrite Forall_forall in Hall. apply Hall. apply elem_of_seqZ. lia.
Qed.

(** What [GetSource] can resolve a feature to. *)
Lemma GetSource_Some_inv `{CV : OpenCV} f cloud st w st' log :
  GetSource f cloud st = Returns (Some w) st' log ->
  (exists sfIdx, w = ScalarFieldWrapper cloud (getScalarField cloud sfIdx)) \/
  (exists d, w = DimScalarFieldWrapper cloud d) \/
  (exists b, w = ColorScalarFieldWrapper cloud b).
Proof.
  intros Hget. destruct f as [ft|]; [| discriminate Hget].
  unfold GetSource in Hget. rewrite bind_ret_l in Hget.
  rewrite (bind_defined_Some _ ft) in Hget by done.
  destruct (f_source ft); try (injection Hget as <- _ _; eauto).
  case_match; [injection Hget as <- _ _; eauto |].
  apply bind_Returns in Hget as (? & ? & ? & ? & _ & Hret & _). discriminate Hret.
Qed.

(** On a cloud that stores numbers of the right types, the value a resolved
    source returns, taken as a [float], is the number the cloud stores. *)
Lemma valueAt_stored `{CV : OpenCV} f cloud st w st' log p :
  GetSource f cloud st = Returns (Some w) st' log ->
  cloud_values_valid cloud ->
  valueAt w p = stored_value w p.
Proof.
  intros Hget (Hfields & Hpoints & Hcolors).
  unfold valueAt, stored_value, pointValue.
  destruct (p <? 0); [done |].
  apply GetSource_Some_inv in Hget as [[sfIdx ->] | [[d ->] | [b ->]]].
  - destruct (getScalarField cloud sfIdx) as [sf|] eqn:Hsf; [| done]. simpl.
    destruct (ScalarField_getValue sf p) as [v|] eqn:Hv; [| done]. simpl.
    f_equal. apply double_to_float_of_float.
    apply (Hfields sf v).
    + unfold getScalarField in Hsf. case_match; [| discriminate Hsf].
      by eapply list_elem_of_lookup_2.
    + unfold ScalarField_getValue in Hv. case_match; [discriminate Hv |].
      by eapply list_elem_of_lookup_2.
  - destruct (cloud_points cloud !! Z.to_nat p) as [P|] eqn:HP; [| done]. simpl.
    f_equal. apply double_to_float_of_float.
    apply Hpoints. by eapply list_elem_of_lookup_2.
  - destruct (cloud_colors cloud) as [cols|] eqn:Hcols; [| done]. simpl.
    destruct (cols !! Z.to_nat p) as [c|] eqn:Hc; [| done]. simpl.
    f_equal. apply double_to_float_of_byte.
    apply (Hcolors cols c b); [done |]. by eapply list_elem_of_lookup_2.
Qed.

(** ** The sample matrix *)

Lemma selected_count_nonneg subset cloud : 0 <= selected_count subset cloud.
Proof. unfold selected_count, rc_size, cloud_size. destruct subset; lia. Qed.

Section Builders.
Context `{CV : OpenCV}.
Variables (features : Feature_Set) (cloud : ccPointCloud) (st : State).
Variable subset : option ReferenceCloud.

Hypothesis rows_fit : selected_count subset cloud <= INT_MAX.
Hypothesis cols_fit : Z.of_nat (length features) <= INT_MAX.
Hypothesis colors_ok : colors_cover_points cloud.
Hypothesis indexes_ok :
  forall i p, 0 <= i < selected_count subset cloud ->
              selected_index subset i = Some p ->
              0 <= p < cloud_size cloud.
Hypothesis sources_ok :
  forall j f, features !! j = Some f ->
    exists w log, GetSource f cloud st = Returns (Some w) st log /\
                  wrapper_isValid w = true.

Lemma filled_until_start :
  filled_until features cloud subset st 0
    (Mat_fresh (selected_count subset cloud) (Z.of_nat (length features))).
Proof.
  pose proof (selected_count_nonneg subset cloud).
  unfold filled_until. split_and!; try done; [apply Mat_fresh_wf; lia | lia].
Qed.

Lemma filled_until_end m :
  filled_until features cloud subset st (Z.of_nat (length features)) m ->
  is_sample_matrix features cloud subset st m.
Proof.
  intros (_ & Hr & Hc & Hcells). split_and!; try done.
  intros i j p f w log Hi Hp Hf Hget.
  destruct (Hcells i j p f w log) as (v & Hv & Hcell); try done.
  { apply lookup_lt_Some in Hf. lia. }
  unfold valueAt. rewrite Hv. simpl. split; [by eexists | done].
Qed.

(** One more column: the step of the loop over the features, given what its
    inner loop does. *)
Lemma filled_until_step k m m' f w log :
  0 <= k < Z.of_nat (length features) ->
  filled_until features cloud subset st k m ->
  features !! Z.to_nat k = Some f ->
  GetSource f cloud st = Returns (Some w) st log ->
  Mat_wf m' -> mat_rows m' = mat_rows m -> mat_cols m' = mat_cols m ->
  (forall i p, 0 <= i < selected_count subset cloud ->
     selected_index subset i = Some p ->
     exists v, pointValue w p = Some v /\ Mat_at m' i k = Some (double_to_float v)) ->
  (forall i j', 0 <= i -> 0 <= j' -> j' <> k -> Mat_at m' i j' = Mat_at m i j') ->
  filled_until features cloud subset st (k + 1) m'.
Proof.
  intros Hk (Hwf & Hr & Hc & Hcells) Hf Hget Hwf' Hr' Hc' Hcol Hother.
  unfold filled_until. split_and!; try congruence.
  intros i j p f' w' log' Hi Hj Hp Hf' Hget'.
  destruct (decide (Z.of_nat j = k)) as [<- | Hne].
  - rewrite Nat2Z.id in Hf. assert (f' = f) as -> by congruence.
    assert (w' = w) as -> by congruence. by apply Hcol.
  - rewrite Hother by lia. apply (Hcells i j p f' w' log'); try done. lia.
Qed.

Lemma train_fill_data_builds cloud_ptr :
  (forall i p, 0 <= i < selected_count subset cloud ->
     selected_index subset i = Some p -> p <= INT_MAX) ->
  (forall j f, features !! j = Some f ->
     exists ft, f = Some ft /\ f_cloud ft = cloud_ptr) ->
  exists m log,
    train_fill_data features cloud_ptr cloud subset
        (selected_count subset cloud) (Z.of_nat (length features))
        (Mat_fresh (selected_count subset cloud) (Z.of_nat (length features))) st
      = Returns (inr m) st log /\
    is_sample_matrix features cloud subset st m.
Proof.
  intros Hfit Hclouds. pose proof (selected_count_nonneg subset cloud) as Hrows.
  unfold train_fill_data.
  match goal with |- context [for_each_ret _ ?b _] => set (body := b) end.
  destruct (for_each_ret_range_invariant (R := string) (Z.of_nat (length features))
              body (filled_until features cloud subset st)
              (Mat_fresh (selected_count subset cloud) (Z.of_nat (length features))) st)
    as (m & log & Hrun & Hfilled).
  - lia.
  - apply filled_until_start.
  - intros k m Hk Hinv.
    destruct (lookup_lt_is_Some_2 features (Z.to_nat k)) as [f Hf]; [lia |].
    destruct (Hclouds _ _ Hf) as (ft & -> & Hptr).
    destruct (sources_ok _ _ Hf) as (w & lg & Hget & Hvalid).
    pose proof Hinv as (Hwf & Hr & Hc & _).
    edestruct (fill_source_column
                 (fun i training_data =>
                    let* pointIndex := defined (train_pointIndex subset i) in
                    let* value := defined (pointValue w (to_unsigned pointIndex)) in
                    defined (Mat_set training_data i k (double_to_float value)))
                 subset cloud w k m st)
      as (m' & l' & Hinner & Hwf' & Hr' & Hc' & Hcol & Hother); [done | done | lia | ..].
    { intros i p Hi Hp.
      eapply GetSource_valid_reads; eauto. }
    { intros i m1 p v Hi Hp Hv. pose proof (indexes_ok i p Hi Hp) as Hrange.
      pose proof (Hfit i p Hi Hp) as Hint.
      rewrite (bind_defined_Some _ p)
        by (apply train_pointIndex_selected; [lia | lia | done]).
      rewrite to_unsigned_small by lia.
      by rewrite (bind_defined_Some _ v). }
    exists m'. eexists. split.
    + subst body. cbv beta.
      rewrite (bind_defined_Some _ (Some ft)) by done.
      rewrite (bind_defined_Some _ ft) by done.
      rewrite bool_decide_true by done. cbn [negb].
      eapply bind_Returns_intro; [exact Hget |].
      unfold source_unusable. rewrite Hvalid. cbn [negb].
      rewrite (bind_defined_Some _ w) by done.
      eapply bind_Returns_intro; [exact Hinner | reflexivity].
    + eapply filled_until_step; eauto.
  - exists m, log. split; [done |]. by apply filled_until_end.
Qed.

Lemma evaluate_fill_data_builds testSubset errorMessage :
  subset = Some testSubset ->
  exists m log,
    evaluate_fill_data features cloud testSubset (Z.of_nat (length features))
        (Mat_fresh (selected_count subset cloud) (Z.of_nat (length features)))
        errorMessage st
      = Returns (inr m) st log /\
    is_sample_matrix features cloud subset st m.
Proof.
  intros Hsubset. pose proof (selected_count_nonneg subset cloud) as Hrows.
  unfold evaluate_fill_data.
  match goal with |- context [for_each_ret _ ?b _] => set (body := b) end.
  destruct (for_each_ret_range_invariant (R := string) (Z.of_nat (length features))
              body (filled_until features cloud subset st)
              (Mat_fresh (selected_count subset cloud) (Z.of_nat (length features))) st)
    as (m & log & Hrun & Hfilled).
  - lia.
  - apply filled_until_start.
  - intros k m Hk Hinv.
    destruct (lookup_lt_is_Some_2 features (Z.to_nat k)) as [f Hf]; [lia |].
    destruct (sources_ok _ _ Hf) as (w & lg & Hget & Hvalid).
    assert (exists ft, f = Some ft) as [ft ->].
    { destruct f; [by eexists | discriminate Hget]. }
    pose proof Hinv as (Hwf & Hr & Hc & _).
    edestruct (fill_source_column
                 (fun i test_data =>
                    let* pointIndex := defined (getPointGlobalIndex testSubset i) in
                    let* value := defined (pointValue w pointIndex) in
                    defined (Mat_set test_data (to_int i) k (double_to_float value)))
                 subset cloud w k m st)
      as (m' & l' & Hinner & Hwf' & Hr' & Hc' & Hcol & Hother); [done | done | lia | ..].
    { intros i p Hi Hp.
      eapply GetSource_valid_reads; eauto. }
    { intros i m1 p v Hi Hp Hv. rewrite Hsubset in Hp. simpl in Hp.
      rewrite (bind_defined_Some _ p) by done.
      rewrite (bind_defined_Some _ v) by done.
      rewrite to_int_small by lia. done. }
    exists m'. eexists. split.
    + subst body. cbv beta.
      rewrite (bind_defined_Some _ (Some ft)) by done.
      eapply bind_Returns_intro; [exact Hget |].
      unfold source_unusable. rewrite Hvalid. cbn [negb].
      rewrite (bind_defined_Some _ w) by done.
      assert (Hcount : rc_size testSubset = selected_count subset cloud)
        by (by rewrite Hsubset).
      rewrite Hcount.
      eapply bind_Returns_intro; [exact Hinner | reflexivity].
    + eapply filled_until_step; eauto.
  - exists m, log. split; [done |]. by apply filled_until_end.
Qed.

End Builders.

(** ** Training and the model field *)

Section TrainFacts.
Context `{CV : OpenCV}.

(** What [train_run] does, by the way the trainer ends. *)
Lemma train_run_unfold params training_data train_labels errorMessage st :
  let with_model p := {| this := {| m_rtrees := p |}; heap := heap st; files := files st |} in
  train_run params training_data train_labels errorMessage st =
    match RTrees_train (configure params) training_data train_labels with
    | (Some (cv_Exception msg), _) => Returns (false, msg) (with_model None) []
    | (Some (std_exception what), trained) =>
        Returns (false, what) (with_model (Some trained)) []
    | (Some other_exception, trained) =>
        Returns (false, "Unknown error") (with_model (Some trained)) []
    | (None, trained) =>
        if isTrained trained
        then Returns (true, errorMessage) (with_model (Some trained)) []
        else Returns (false, "Training failed for an unknown reason...")
               (with_model None) []
    end.
Proof.
  unfold train_run, bind, set_rtrees, ret.
  destruct (RTrees_train _ _ _) as [[[msg | what |] |] trained]; simpl; try reflexivity.
  by destruct (isTrained trained).
Qed.

(** [train] is [train_prepare] followed, when the matrices were built, by
    [train_run]; the preparation changes nothing. *)
Lemma train_Returns params features errorMessage trainSubset st r st' log :
  train params features errorMessage trainSubset st = Returns r st' log ->
  (exists msg, train_prepare features trainSubset st = Returns (inl msg) st log /\
               r = (false, msg) /\ st' = st) \/
  (exists data labels log1,
     train_prepare features trainSubset st = Returns (inr (data, labels)) st log1 /\
     train_run params data labels errorMessage st = Returns r st' []).
Proof.
  unfold train. intros Hrun.
  apply bind_Returns in Hrun as (prepared & st1 & l1 & l2 & Hprep & Hrest & ->).
  pose proof (readonly_train_prepare features trainSubset st) as Hro.
  rewrite Hprep in Hro. subst st1.
  destruct prepared as [msg | [data labels]].
  - injection Hrest as <- <- <-. left. exists msg. by rewrite app_nil_r.
  - right. exists data, labels, l1. split; [done |].
    pose proof (train_run_unfold params data labels errorMessage st) as Hunfold.
    simpl in Hunfold. rewrite Hunfold in Hrest |- *.
    destruct (RTrees_train _ _ _) as [[[? | ? |] |] trained];
      try destruct (isTrained trained); by injection Hrest as <- <- <-.
Qed.

Lemma train_success_valid params features errorMessage trainSubset st msg st' log :
  train params features errorMessage trainSubset st = Returns (true, msg) st' log ->
  isValid (this st') = true /\ heap st' = heap st /\ files st' = files st.
Proof.
  intros Hrun.
  apply train_Returns in Hrun as [(msg' & _ & Hr & _) | (data & labels & l1 & _ & Hrun)];
    [discriminate Hr |].
  pose proof (train_run_unfold params data labels errorMessage st) as Hunfold.
  simpl in Hunfold. rewrite Hunfold in Hrun.
  destruct (RTrees_train _ _ _) as [[[? | ? |] |] trained]; try discriminate Hrun.
  destruct (isTrained trained) eqn:Htrained; [| discriminate Hrun].
  injection Hrun as _ <-. unfold isValid. simpl. by rewrite Htrained.
Qed.

Lemma toFile_Returns_true filename st st1 log :
  toFile filename st = Returns true st1 log ->
  exists rtrees fs',
    m_rtrees (this st) = Some rtrees /\
    save rtrees filename (files st) = inr fs' /\
    st1 = {| this := this st; heap := heap st; files := fs' |}.
Proof.
  unfold toFile, bind, get_rtrees, get_files, call, set_files, ccLog, ret.
  destruct (m_rtrees (this st)) as [rtrees|]; simpl; [| discriminate].
  destruct (save rtrees filename (files st)) as [e | fs'] eqn:Hsave; simpl;
    [discriminate |].
  intros [= <- _]. by exists rtrees, fs'.
Qed.

Lemma fromFile_loaded filename st rtrees :
  load filename (files st) = inr (Some rtrees) ->
  fromFile filename st
    = Returns true
        {| this := {| m_rtrees := Some rtrees |}; heap := heap st; files := files st |}
        (if isTrained rtrees then []
         else [Warning "Loaded classifier doesn't seem to be trained"]).
Proof.
  intros Hload. unfold fromFile, bind, get_files. rewrite Hload. simpl.
  by destruct (isTrained rtrees).
Qed.

End TrainFacts.

(** C2 (amended).  A [train] call that fails before the trainer is
    invoked (a violated precondition, a failed allocation, a feature that
    cannot be read) leaves the state, and so a previously trained model,
    untouched.  A [train] call that fails because the trainer raised a
    [cv::Exception], or because the model it produced reports itself
    untrained, leaves the classifier without a model, so that [isValid]
    answers false. *)
Theorem train_failure_state `{CV : OpenCV}
    params features errorMessage trainSubset st msg st' log :
  train params features errorMessage trainSubset st = Returns (false, msg) st' log ->
  (train_prepare features trainSubset st = Returns (inl msg) st log /\ st' = st) \/
  (exists data labels log1,
     train_prepare features trainSubset st = Returns (inr (data, labels)) st log1 /\
     heap st' = heap st /\ files st' = files st /\
     match RTrees_train (configure params) data labels with
     | (Some (cv_Exception _), _) =>
         m_rtrees (this st') = None /\ isValid (this st') = false
     | (None, trained) =>
         isTrained trained = false /\
         m_rtrees (this st') = None /\ isValid (this st') = false
     | _ => True
     end).
Proof.
  intros Hrun.
  apply train_Returns in Hrun
    as [(msg' & Hprep & [= <-] & ->) | (data & labels & l1 & Hprep & Hrun)];
    [by left |].
  right. exists data, labels, l1. split; [done |].
  pose proof (train_run_unfold params data labels errorMessage st) as Hunfold.
  simpl in Hunfold. rewrite Hunfold in Hrun.
  destruct (RTrees_train _ _ _) as [[[? | ? |] |] trained].
  - by injection Hrun as _ <-.
  - by injection Hrun as _ <-.
  - by injection Hrun as _ <-.
  - destruct (isTrained trained); [discriminate Hrun |]. by injection Hrun as _ <-.
Qed.

(** An instance: retraining on an empty subset, where the trainer throws. *)
Lemma train_failure_state_witness :
  train (CV := toyCV) demo_params [Some (demo_feature 1)] "" (Some empty_subset)
      trained_state
    = Returns (false, "No training samples") (demo_state Classifier_new)
        [Print "[3DMASC] Training data: 0 samples with 1 feature(s)"]
  /\ isValid (this (demo_state Classifier_new)) = false.
Proof.
  assert (Hrun : train (CV := toyCV) demo_params [Some (demo_feature 1)] ""
                   (Some empty_subset) trained_state
                 = Returns (false, "No training samples") (demo_state Classifier_new)
                     [Print "[3DMASC] Training data: 0 samples with 1 feature(s)"])
    by (vm_compute; reflexivity).
  split; [exact Hrun |].
  assert (Hprepared :
    train_prepare (CV := toyCV) [Some (demo_feature 1)] (Some empty_subset) trained_state
    = Returns (inr (Mat_fresh 0 1, Mat_fresh 0 1)) trained_state
        [Print "[3DMASC] Training data: 0 samples with 1 feature(s)"])
    by (vm_compute; reflexivity).
  destruct (train_failure_state _ _ _ _ _ _ _ _ Hrun)
    as [[Hprep _] | (data & labels & l1 & Hprep & _ & _ & Hmodel)].
  - rewrite Hprepared in Hprep. discriminate Hprep.
  - rewrite Hprepared in Hprep. injection Hprep as <- <- _.
    exact (proj2 Hmodel).
Defined.

(** C2 (counterexample).  A trained classifier asked to train on an empty
    feature set reports failure and is as valid as before: a failed [train]
    does not always leave [isValid] false. *)
Lemma failed_train_keeps_previous_model :
  isValid (this trained_state) = true /\
  train (CV := toyCV) demo_params [] "" None trained_state
    = Returns (false, "Training method called without any feature?!") trained_state []
  /\ ~ (forall params features errorMessage trainSubset (st : @State toyCV) msg st' log,
          train params features errorMessage trainSubset st
            = Returns (false, msg) st' log ->
          isValid (this st') = false).
Proof.
  split; [vm_compute; reflexivity |].
  split; [vm_compute; reflexivity |].
  intros Hclaim.
  specialize (Hclaim demo_params [] "" None trained_state
                "Training method called without any feature?!" trained_state []
                ltac:(vm_compute; reflexivity)).
  vm_compute in Hclaim. discriminate Hclaim.
Qed.

(** ** The accuracy ratio *)

Lemma post_weaken `{CV : OpenCV} {A} (m : M A) (P Q : A -> Prop) :
  post m P -> (forall a, P a -> Q a) -> post m Q.
Proof. intros Hm HPQ st a st' log Hrun. exact (HPQ a (Hm _ _ _ _ Hrun)). Qed.

(** A loop that adds at most one to a counter at each turn. *)
Lemma post_for_each_count `{CV : OpenCV} (idx : list Z) (body : Z -> Z -> M Z) :
  (forall i s, post (body i s) (fun s' => 0 <= s -> 0 <= s' <= s + 1)) ->
  forall s,
    post (for_each idx body s)
      (fun s' => 0 <= s -> 0 <= s' <= s + Z.of_nat (length idx)).
Proof.
  intros Hbody. induction idx as [|i rest IH]; intros s; simpl.
  - apply post_ret. lia.
  - eapply post_bind_with; [apply Hbody |]. intros s1 Hs1. cbv beta in Hs1.
    eapply post_weaken; [apply IH |]. intros s2 Hs2 Hs. cbv beta in Hs2. lia.
Qed.

Lemma length_range (n : Z) : Z.of_nat (length (range n)) = Z.max 0 n.
Proof. unfold range. rewrite length_fmap, length_seq. lia. Qed.

(** The metrics [evaluate] computes: the sample count is the size of the test
    subset, the good guesses are at most as many, and the ratio is the
    quotient of the two, as [float]s. *)
Lemma evaluate_metrics_shape `{CV : OpenCV} rtrees classifSF testSubset test_data :
  post (evaluate_metrics rtrees classifSF testSubset test_data)
    (fun metrics =>
       sampleCount metrics = rc_size testSubset /\
       0 <= goodGuess metrics <= sampleCount metrics /\
       ratio metrics
       = float_div (float_of_Z (goodGuess metrics)) (float_of_Z (sampleCount metrics))).
Proof.
  unfold evaluate_metrics.
  eapply post_bind_with with (P := fun good => 0 <= good <= rc_size testSubset).
  - eapply post_weaken; [apply post_for_each_count |].
    + intros i good. repeat post_step. intros Hgood.
      destruct (_ =? _); [| lia].
      unfold to_unsigned. pose proof (Z.mod_pos_bound (good + 1) (2 ^ 32)).
      pose proof (Z.mod_le (good + 1) (2 ^ 32)). lia.
    + intros good Hgood. cbv beta in Hgood. rewrite length_range in Hgood.
      unfold rc_size in *. lia.
  - intros good Hgood. apply post_ret. simpl. done.
Qed.

Lemma evaluate_metrics_empty `{CV : OpenCV} rtrees classifSF testSubset test_data st :
  rc_indexes testSubset = [] ->
  evaluate_metrics rtrees classifSF testSubset test_data st
    = Returns {| sampleCount := 0; goodGuess := 0; ratio := S754_nan |} st [].
Proof.
  intros Hempty. unfold evaluate_metrics, rc_size. rewrite Hempty. reflexivity.
Qed.

(** C3 (defect of the code).  When [evaluate] succeeds, the sample
    count is the size of the test subset, the good guesses are at most as
    many, and the ratio is the quotient of the good guesses by the sample
    count, as [float]s; but the division is not guarded: on a test subset
    without points the ratio is the quotient 0/0, a NaN, not 0. *)
Theorem evaluate_ratio_unguarded `{CV : OpenCV}
    features testSubset metrics errorMessage st metrics' msg st' log :
  evaluate features (Some testSubset) metrics errorMessage st
    = Returns (true, metrics', msg) st' log ->
  sampleCount metrics' = rc_size testSubset /\
  0 <= goodGuess metrics' <= sampleCount metrics' /\
  ratio metrics'
  = float_div (float_of_Z (goodGuess metrics')) (float_of_Z (sampleCount metrics')) /\
  (rc_indexes testSubset = [] ->
   metrics' = {| sampleCount := 0; goodGuess := 0; ratio := S754_nan |}).
Proof.
  intros Hrun.
  assert (Hpost : post (evaluate features (Some testSubset) metrics errorMessage)
            (fun r => fst (fst r) = true ->
               (sampleCount (snd (fst r)) = rc_size testSubset /\
                0 <= goodGuess (snd (fst r)) <= sampleCount (snd (fst r)) /\
                ratio (snd (fst r))
                = float_div (float_of_Z (goodGuess (snd (fst r))))
                    (float_of_Z (sampleCount (snd (fst r))))) /\
               (rc_indexes testSubset = [] ->
                snd (fst r) = {| sampleCount := 0; goodGuess := 0;
                                 ratio := S754_nan |}))).
  { unfold evaluate. lazy beta iota.
    repeat first
      [ eapply post_bind_with
          with (P := fun m =>
            (sampleCount m = rc_size testSubset /\
             0 <= goodGuess m <= sampleCount m /\
             ratio m = float_div (float_of_Z (goodGuess m))
                         (float_of_Z (sampleCount m))) /\
            (rc_indexes testSubset = [] ->
             m = {| sampleCount := 0; goodGuess := 0; ratio := S754_nan |}));
        [ intros ? ? ? ? Hmetrics; split;
          [ exact (evaluate_metrics_shape _ _ _ _ _ _ _ _ Hmetrics)
          | intros Hempty;
            rewrite (evaluate_metrics_empty _ _ _ _ _ Hempty) in Hmetrics;
            by injection Hmetrics as <- _ _ ]
        | intros ? Hm; apply post_ret; intros _; exact Hm ]
      | post_step ];
      simpl; done. }
  destruct (Hpost _ _ _ _ Hrun eq_refl) as [(Hcount & Hgood & Hratio) Hempty].
  simpl in Hcount, Hgood, Hratio, Hempty.
  exact (conj Hcount (conj Hgood (conj Hratio Hempty))).
Qed.

(** An instance: the evaluation of a trained classifier on an empty subset. *)
Lemma evaluate_ratio_unguarded_witness :
  evaluate (CV := toyCV) [Some (demo_feature 1)] (Some empty_subset) zero_metrics ""
      trained_state
    = Returns (true, {| sampleCount := 0; goodGuess := 0; ratio := S754_nan |}, "")
        trained_state
        [Print "[3DMASC] Testing data: 0 samples with 1 feature(s)"]
  /\ ratio {| sampleCount := 0; goodGuess := 0; ratio := S754_nan |} <> S754_zero false.
Proof.
  assert (Hrun : exists metrics',
    evaluate (CV := toyCV) [Some (demo_feature 1)] (Some empty_subset) zero_metrics ""
        trained_state
      = Returns (true, metrics', "") trained_state
          [Print "[3DMASC] Testing data: 0 samples with 1 feature(s)"])
    by (eexists; vm_compute; reflexivity).
  destruct Hrun as [metrics' Hrun].
  rewrite Hrun.
  destruct (evaluate_ratio_unguarded (CV := toyCV) _ _ _ _ _ _ _ _ _ Hrun)
    as (_ & _ & _ & Hempty).
  rewrite (Hempty eq_refl).
  split; [reflexivity | discriminate].
Defined.

(** ** The label vector *)

(** [m] is the label vector of the selected points: a row per point, one
    column, and at row i the class of the point converted to [unsigned char]. *)
Lemma train_fill_labels_builds `{CV : OpenCV} trainSubset cloud classifSF st :
  let count := selected_count trainSubset cloud in
  count <= INT_MAX ->
  (forall i p, 0 <= i < count -> selected_index trainSubset i = Some p ->
               0 <= p <= INT_MAX) ->
  (forall i, 0 <= i < count -> is_Some (sample_class trainSubset classifSF i)) ->
  exists labels log,
    train_fill_labels trainSubset classifSF count (Mat_fresh count 1) st
      = Returns labels st log /\
    mat_rows labels = count /\ mat_cols labels = 1 /\
    forall i, 0 <= i < count ->
      Mat_at labels i 0
      = (fun c => float_of_Z (to_uchar c)) <$> sample_class trainSubset classifSF i.
Proof.
  intros count Hcount Hindexes Hclasses.
  assert (Hpos : 0 <= count) by apply selected_count_nonneg.
  unfold train_fill_labels.
  match goal with |- context [for_each _ ?b _] => set (body := b) end.
  destruct (fill_column body
              (fun i => (fun c => float_of_Z (to_uchar c))
                          <$> sample_class trainSubset classifSF i)
              0 (Mat_fresh count 1) st)
    as (labels & log & Hrun & _ & Hr & Hc & Hcol & _).
  - apply Mat_fresh_wf; lia.
  - simpl. lia.
  - intros i m Hi. simpl in Hi.
    destruct (Hclasses i Hi) as [c Hc]. rewrite Hc. simpl.
    exists (float_of_Z (to_uchar c)). split; [done |].
    unfold sample_class in Hc.
    destruct (selected_index trainSubset i) as [p|] eqn:Hp; [| discriminate Hc].
    simpl in Hc.
    destruct (ScalarField_getValue classifSF p) as [v|] eqn:Hv; [| discriminate Hc].
    simpl in Hc. subst body. cbv beta.
    rewrite (bind_defined_Some _ p)
      by (apply train_pointIndex_selected; [lia | by eapply Hindexes | done]).
    rewrite (bind_defined_Some _ v) by done.
    by rewrite (bind_defined_Some _ c).
  - exists labels, log. simpl in Hrun, Hr, Hc, Hcol. by split_and!.
Qed.

(** ** What the trainer is handed *)

(** Once every precondition of [train] holds, the preparation runs to
    completion and hands the trainer the sample matrix and the label vector of
    the selected points. *)
Lemma train_prepare_builds_fit `{CV : OpenCV} f0 rest a cloud subset classifSF st :
  let features := Some f0 :: rest in
  let rows := selected_count subset cloud in
  let cols := Z.of_nat (length features) in
  let classifSFIdx := getScalarFieldIndexByName cloud LAS_CLASSIFICATION_NAME in
  f_cloud f0 = Some a ->
  heap st !! a = Some (IsPointCloud cloud) ->
  (forall ts, subset = Some ts -> rc_associatedCloud ts = Some a) ->
  classifSFIdx <> 0 ->
  getScalarField cloud classifSFIdx = Some classifSF ->
  cloud_size cloud <= ScalarField_size classifSF ->
  rows <= INT_MAX -> cols <= INT_MAX ->
  Mat_alloc_failure rows cols = None -> Mat_alloc_failure rows 1 = None ->
  colors_cover_points cloud ->
  (forall i p, 0 <= i < rows -> selected_index subset i = Some p ->
               0 <= p < cloud_size cloud) ->
  (forall i p, 0 <= i < rows -> selected_index subset i = Some p -> p <= INT_MAX) ->
  (forall i, 0 <= i < rows -> is_Some (sample_class subset classifSF i)) ->
  (forall j f, features !! j = Some f ->
     (exists ft, f = Some ft /\ f_cloud ft = Some a) /\
     exists w log, GetSource f cloud st = Returns (Some w) st log /\
                   wrapper_isValid w = true) ->
  exists training_data train_labels log,
    train_prepare features subset st
      = Returns (inr (training_data, train_labels)) st log /\
    is_sample_matrix features cloud subset st training_data /\
    mat_rows train_labels = rows /\ mat_cols train_labels = 1 /\
    forall i, 0 <= i < rows ->
      Mat_at train_labels i 0
      = (fun c => float_of_Z (to_uchar c)) <$> sample_class subset classifSF i.
Proof.
  intros features rows cols classifSFIdx Hptr Hheap Hsubset Hidx Hfield Hlong
    Hrows Hcols Halloc1 Halloc2 Hcolors Hindexes Hfit Hclasses Hfeatures.
  assert (Hrows0 : 0 <= rows) by apply selected_count_nonneg.
  assert (Hcols0 : 0 <= cols) by (subst cols; lia).
  destruct (train_fill_labels_builds subset cloud classifSF st)
    as (labels & l1 & Hlabels & Hlr & Hlc & Hlcells); [done | | done |].
  { intros i p Hi Hp. specialize (Hindexes i p Hi Hp). specialize (Hfit i p Hi Hp). lia. }
  destruct (train_fill_data_builds features cloud st subset Hrows Hcolors
              Hindexes) with (cloud_ptr := Some a) as (data & l2 & Hdata & Hmatrix).
  { intros j f Hf. by destruct (Hfeatures j f Hf). }
  { exact Hfit. }
  { intros j f Hf. by destruct (Hfeatures j f Hf). }
  exists data, labels. eexists. split; [| by split_and!].
  unfold train_prepare. subst features. cbn [mbind option_bind]. rewrite Hptr.
  assert (Hcheck : match subset with
                   | Some ts => negb (bool_decide (rc_associatedCloud ts = Some a))
                   | None => false
                   end = false).
  { destruct subset as [ts|]; [| done]. by rewrite bool_decide_true by eauto. }
  rewrite Hcheck.
  eapply bind_Returns_intro.
  { unfold deref_cloud. by rewrite Hheap. }
  fold classifSFIdx. assert ((classifSFIdx =? 0) = false) as -> by lia.
  rewrite Hfield.
  assert ((ScalarField_size classifSF <? cloud_size cloud) = false) as -> by lia.
  eapply bind_Returns_intro; [reflexivity |].
  change (match subset with Some ts => rc_size ts | None => cloud_size cloud end)
    with rows.
  change (Z.of_nat (length (Some f0 :: rest))) with cols.
  rewrite !to_int_small by lia.
  unfold Mat_create.
  assert ((rows <? 0) = false) as -> by lia.
  assert ((cols <? 0) = false) as -> by lia.
  cbn [orb]. rewrite Halloc1, Halloc2.
  eapply bind_Returns_intro; [exact Hlabels |].
  eapply bind_Returns_intro; [exact Hdata | reflexivity].
Qed.

(** The same for a cloud whose point count fits an [int]. *)
Lemma train_prepare_builds `{CV : OpenCV} f0 rest a cloud subset classifSF st :
  let features := Some f0 :: rest in
  let rows := selected_count subset cloud in
  let cols := Z.of_nat (length features) in
  let classifSFIdx := getScalarFieldIndexByName cloud LAS_CLASSIFICATION_NAME in
  f_cloud f0 = Some a ->
  heap st !! a = Some (IsPointCloud cloud) ->
  (forall ts, subset = Some ts -> rc_associatedCloud ts = Some a) ->
  classifSFIdx <> 0 ->
  getScalarField cloud classifSFIdx = Some classifSF ->
  cloud_size cloud <= ScalarField_size classifSF ->
  rows <= INT_MAX -> cols <= INT_MAX -> cloud_size cloud <= INT_MAX ->
  Mat_alloc_failure rows cols = None -> Mat_alloc_failure rows 1 = None ->
  colors_cover_points cloud ->
  (forall i p, 0 <= i < rows -> selected_index subset i = Some p ->
               0 <= p < cloud_size cloud) ->
  (forall i, 0 <= i < rows -> is_Some (sample_class subset classifSF i)) ->
  (forall j f, features !! j = Some f ->
     (exists ft, f = Some ft /\ f_cloud ft = Some a) /\
     exists w log, GetSource f cloud st = Returns (Some w) st log /\
                   wrapper_isValid w = true) ->
  exists training_data train_labels log,
    train_prepare features subset st
      = Returns (inr (training_data, train_labels)) st log /\
    is_sample_matrix features cloud subset st training_data /\
    mat_rows train_labels = rows /\ mat_cols train_labels = 1 /\
    forall i, 0 <= i < rows ->
      Mat_at train_labels i 0
      = (fun c => float_of_Z (to_uchar c)) <$> sample_class subset classifSF i.
Proof.
  intros features rows cols classifSFIdx Hptr Hheap Hsubset Hidx Hfield Hlong
    Hrows Hcols Hcloud Halloc1 Halloc2 Hcolors Hindexes Hclasses Hfeatures.
  apply (train_prepare_builds_fit f0 rest a cloud subset classifSF st); try done.
  intros i p Hi Hp. specialize (Hindexes i p Hi Hp). lia.
Qed.

(** ** The matrices of [train] and [evaluate] *)

Lemma logged_nil `{CV : OpenCV} {A} (o : Outcome A) : logged [] o = o.
Proof. by destruct o. Qed.

(** A call that starts with a step that returns goes on as the rest of it
    does, after the log of that step. *)
Lemma bind_logged `{CV : OpenCV} {A B} (m : M A) (k : A -> M B) st a st' l1 l2
    (o : Outcome B) :
  m st = Returns a st' l1 -> k a st' = logged l2 o ->
  bind m k st = logged (l1 ++ l2) o.
Proof.
  intros Hm Hk. unfold bind. rewrite Hm, Hk.
  destruct o; simpl; by rewrite ?app_assoc.
Qed.

(** [train] is its preparation followed by the run of the trainer on the
    matrices the preparation built. *)
Lemma train_logged `{CV : OpenCV} params features errorMessage subset st data labels log :
  train_prepare features subset st = Returns (inr (data, labels)) st log ->
  train params features errorMessage subset st
    = logged log (train_run params data labels errorMessage st).
Proof.
  intros Hprep. unfold train.
  rewrite <- (app_nil_r log).
  eapply bind_logged; [exact Hprep |]. cbv iota beta. symmetry. apply logged_nil.
Qed.

(** Once its preconditions hold, [evaluate] builds the sample matrix of the
    test subset and goes on with the comparison loop on that matrix. *)
Lemma evaluate_builds `{CV : OpenCV}
    rtrees f0 rest ts a cloud classifSF metrics errorMessage st :
  let features := f0 :: rest in
  let rows := rc_size ts in
  let cols := Z.of_nat (length features) in
  let classifSFIdx := getScalarFieldIndexByName cloud LAS_CLASSIFICATION_NAME in
  m_rtrees (this st) = Some rtrees -> isTrained rtrees = true ->
  rc_associatedCloud ts = Some a ->
  heap st !! a = Some (IsPointCloud cloud) ->
  classifSFIdx <> 0 ->
  getScalarField cloud classifSFIdx = Some classifSF ->
  cloud_size cloud <= ScalarField_size classifSF ->
  rows <= INT_MAX -> cols <= INT_MAX ->
  Mat_alloc_failure rows cols = None ->
  colors_cover_points cloud ->
  (forall i p, 0 <= i < rows -> getPointGlobalIndex ts i = Some p ->
               0 <= p < cloud_size cloud) ->
  (forall j f, features !! j = Some f ->
     exists w log, GetSource f cloud st = Returns (Some w) st log /\
                   wrapper_isValid w = true) ->
  exists test_data log,
    is_sample_matrix features cloud (Some ts) st test_data /\
    evaluate features (Some ts) metrics errorMessage st
    = logged log
        ((let* m := evaluate_metrics rtrees classifSF ts test_data in
          ret (true, m, errorMessage)) st).
Proof.
  intros features rows cols classifSFIdx Hmodel Htrained Hptr Hheap Hidx Hfield Hlong
    Hrows Hcols Halloc Hcolors Hindexes Hsources.
  assert (Hrows0 : 0 <= rows) by (unfold rows, rc_size; lia).
  assert (Hcols0 : 0 <= cols) by (subst cols; lia).
  destruct (evaluate_fill_data_builds features cloud st (Some ts) Hrows Hcolors)
    with (testSubset := ts) (errorMessage := errorMessage)
    as (test_data & l1 & Hfill & Hmatrix); [exact Hindexes | exact Hsources | done |].
  exists test_data. eexists. split; [exact Hmatrix |].
  unfold evaluate. eapply bind_logged; [reflexivity |].
  rewrite Hmodel, Htrained. cbn [negb]. subst features. cbv iota.
  eapply bind_logged.
  { unfold dynamic_cast_cloud. by rewrite Hptr, Hheap. }
  cbv iota. fold classifSFIdx. assert ((classifSFIdx =? 0) = false) as -> by lia.
  rewrite Hfield.
  assert ((ScalarField_size classifSF <? cloud_size cloud) = false) as -> by lia.
  eapply bind_logged; [reflexivity |].
  change (Z.of_nat (length (f0 :: rest))) with cols.
  fold rows. rewrite !to_int_small by lia.
  unfold Mat_create.
  assert ((rows <? 0) = false) as -> by lia.
  assert ((cols <? 0) = false) as -> by lia.
  cbn [orb]. rewrite Halloc.
  eapply bind_logged; [exact Hfill |].
  cbv iota beta. symmetry. apply logged_nil.
Qed.

(** C1 (amended).  Take a non-empty feature set whose features are attached
    to the cloud of the build and resolve to valid sources on it, and a
    selection of points (a subset of that cloud, or the whole cloud when
    [train] is given none) whose indexes are below the point count.  Let the
    checks that precede the build pass: the "Classification" field exists at an
    index other than 0 and covers the cloud, and the colour table, if any,
    covers it too.  Let the row count and the column count fit an [int] and
    the matrix be allocated.  Then

    - [train] (when moreover the selected indexes fit an [int], the label
      vector is allocated and every selected class converts to [int])
      completes its preparation with the sample matrix, and goes on as the run
      of the trainer on that very matrix;
    - [evaluate] (on a trained classifier, given the subset) goes on as its
      comparison loop on the sample matrix;

    the sample matrix having one row per selected point, one column per
    feature, and in cell (i,j) the value that the source [GetSource] resolves
    feature j to returns for the point of row i, as a [float].  On a cloud
    that stores binary32 numbers and byte colours that value is the stored
    number itself. *)
Theorem sample_matrix_of_train_and_evaluate `{CV : OpenCV}
    params f0 rest a cloud subset classifSF metrics errorMessage st :
  let features := Some f0 :: rest in
  let rows := selected_count subset cloud in
  let cols := Z.of_nat (length features) in
  let classifSFIdx := getScalarFieldIndexByName cloud LAS_CLASSIFICATION_NAME in
  f_cloud f0 = Some a ->
  heap st !! a = Some (IsPointCloud cloud) ->
  (forall ts, subset = Some ts -> rc_associatedCloud ts = Some a) ->
  classifSFIdx <> 0 ->
  getScalarField cloud classifSFIdx = Some classifSF ->
  cloud_size cloud <= ScalarField_size classifSF ->
  colors_cover_points cloud ->
  (forall i p, 0 <= i < rows -> selected_index subset i = Some p ->
               0 <= p < cloud_size cloud) ->
  (forall j f, features !! j = Some f ->
     (exists ft, f = Some ft /\ f_cloud ft = Some a) /\
     exists w log, GetSource f cloud st = Returns (Some w) st log /\
                   wrapper_isValid w = true) ->
  rows <= INT_MAX -> cols <= INT_MAX ->
  Mat_alloc_failure rows cols = None ->
  ((forall i p, 0 <= i < rows -> selected_index subset i = Some p -> p <= INT_MAX) ->
   Mat_alloc_failure rows 1 = None ->
   (forall i, 0 <= i < rows -> is_Some (sample_class subset classifSF i)) ->
   exists training_data train_labels log,
     is_sample_matrix features cloud subset st training_data /\
     train_prepare features subset st
       = Returns (inr (training_data, train_labels)) st log /\
     train params features errorMessage subset st
       = logged log (train_run params training_data train_labels errorMessage st)) /\
  (forall ts rtrees,
   subset = Some ts ->
   m_rtrees (this st) = Some rtrees -> isTrained rtrees = true ->
   exists test_data log,
     is_sample_matrix features cloud subset st test_data /\
     evaluate features subset metrics errorMessage st
       = logged log
           ((let* m := evaluate_metrics rtrees classifSF ts test_data in
             ret (true, m, errorMessage)) st)) /\
  (cloud_values_valid cloud ->
   forall j f w log p,
     features !! j = Some f ->
     GetSource f cloud st = Returns (Some w) st log ->
     valueAt w p = stored_value w p).
Proof.
  intros features rows cols classifSFIdx Hptr Hheap Hsubset Hidx Hfield Hlong
    Hcolors Hindexes Hfeatures Hrows Hcols Halloc.
  split_and!.
  - intros Hfit Halloc1 Hclasses.
    destruct (train_prepare_builds_fit f0 rest a cloud subset classifSF st)
      as (data & labels & log & Hprep & Hmatrix & _); try done.
    exists data, labels, log. split_and!; try done.
    by apply train_logged.
  - intros ts rtrees -> Hmodel Htrained.
    apply (evaluate_builds rtrees (Some f0) rest ts a cloud classifSF); try done.
    + by apply Hsubset.
    + intros j f Hf. by destruct (Hfeatures j f Hf).
  - intros Hvalid j f w log p _ Hget. by eapply valueAt_stored.
Qed.

(** An instance: the "Intensity" column of points 3 and 7 of the demo cloud,
    which holds 9 and 1. *)
Lemma sample_matrix_of_train_and_evaluate_witness :
  (exists training_data train_labels log,
     is_sample_matrix [Some (demo_feature 1)] demo_cloud (Some pair_subset)
       trained_state training_data /\
     train_prepare (CV := toyCV) [Some (demo_feature 1)] (Some pair_subset) trained_state
       = Returns (inr (training_data, train_labels)) trained_state log /\
     train (CV := toyCV) demo_params [Some (demo_feature 1)] "" (Some pair_subset)
         trained_state
       = logged log (train_run demo_params training_data train_labels "" trained_state) /\
     Mat_at training_data 0 0 = Some (float_of_Z 9) /\
     Mat_at training_data 1 0 = Some (float_of_Z 1)) /\
  (exists test_data log,
     is_sample_matrix [Some (demo_feature 1)] demo_cloud (Some pair_subset)
       trained_state test_data /\
     evaluate (CV := toyCV) [Some (demo_feature 1)] (Some pair_subset) zero_metrics ""
         trained_state
       = logged log
           ((let* m := evaluate_metrics (CV := toyCV) demo_forest
                         {| sf_name := "Classification";
                            sf_values := float_of_Z <$> [0; 0; 0; 1; 1; 1; 1; 0; 0; 1] |}
                         pair_subset test_data in
             ret (true, m, "")) trained_state)).
Proof.
  destruct (sample_matrix_of_train_and_evaluate (CV := toyCV) demo_params
              (demo_feature 1) [] 1%nat demo_cloud (Some pair_subset)
              {| sf_name := "Classification";
                 sf_values := float_of_Z <$> [0; 0; 0; 1; 1; 1; 1; 0; 0; 1] |}
              zero_metrics "" trained_state)
    as (Htrain & Hevaluate & _).
  - reflexivity.
  - vm_compute. reflexivity.
  - intros ts [= <-]. reflexivity.
  - vm_compute. discriminate.
  - vm_compute. reflexivity.
  - vm_compute. discriminate.
  - intros cols Hcols. discriminate Hcols.
  - intros i p Hi. assert (i = 0 \/ i = 1) as [-> | ->] by (change (0 <= i < 2) in Hi; lia);
      intros [= <-]; vm_compute; (split; [discriminate | reflexivity]).
  - intros j f Hf. destruct j as [|j]; [| by destruct j].
    injection Hf as <-. split; [by exists (demo_feature 1) |].
    eexists _, _. split; vm_compute; reflexivity.
  - vm_compute. discriminate.
  - vm_compute. discriminate.
  - vm_compute. reflexivity.
  - split.
    + destruct Htrain as (data & labels & log & Hmatrix & Hprep & Htrain).
      * intros i p Hi.
        assert (i = 0 \/ i = 1) as [-> | ->] by (change (0 <= i < 2) in Hi; lia);
          intros [= <-]; vm_compute; discriminate.
      * vm_compute. reflexivity.
      * intros i Hi.
        assert (i = 0 \/ i = 1) as [-> | ->] by (change (0 <= i < 2) in Hi; lia);
          vm_compute; by eexists.
      * exists data, labels, log. split_and!; try done.
        -- assert (Hc : train_prepare (CV := toyCV) [Some (demo_feature 1)]
                          (Some pair_subset) trained_state
                        = Returns (inr ({| mat_rows := 2; mat_cols := 1;
                                           mat_data := [[float_of_Z 9]; [float_of_Z 1]] |},
                                        {| mat_rows := 2; mat_cols := 1;
                                           mat_data := [[float_of_Z 1]; [float_of_Z 0]] |}))
                            trained_state
                            [Print "[3DMASC] Training data: 2 samples with 1 feature(s)"])
             by (vm_compute; reflexivity).
           pose proof (eq_trans (eq_sym Hprep) Hc) as Heq.
           injection Heq as -> _ _. reflexivity.
        -- assert (Hc : train_prepare (CV := toyCV) [Some (demo_feature 1)]
                          (Some pair_subset) trained_state
                        = Returns (inr ({| mat_rows := 2; mat_cols := 1;
                                           mat_data := [[float_of_Z 9]; [float_of_Z 1]] |},
                                        {| mat_rows := 2; mat_cols := 1;
                                           mat_data := [[float_of_Z 1]; [float_of_Z 0]] |}))
                            trained_state
                            [Print "[3DMASC] Training data: 2 samples with 1 feature(s)"])
             by (vm_compute; reflexivity).
           pose proof (eq_trans (eq_sym Hprep) Hc) as Heq.
           injection Heq as -> _ _. reflexivity.
    + by apply (Hevaluate pair_subset demo_forest).
Defined.

(** ** Counts that do not fit an [int] *)

Lemma to_int_beyond (n : Z) : INT_MAX < n < 2 ^ 32 -> to_int n = n - 2 ^ 32.
Proof.
  unfold INT_MAX, to_int. intros Hn.
  rewrite Z.mod_small by lia.
  destruct (n <? 2 ^ 31) eqn:Hlt; [lia | done].
Qed.

(** More rows than an [int] counts: the count wraps to a negative number,
    [cv::Mat::create] throws, and [train] reports the message of OpenCV. *)
Lemma train_prepare_too_many_rows `{CV : OpenCV} f0 rest a cloud subset classifSF st :
  let classifSFIdx := getScalarFieldIndexByName cloud LAS_CLASSIFICATION_NAME in
  f_cloud f0 = Some a ->
  heap st !! a = Some (IsPointCloud cloud) ->
  (forall ts, subset = Some ts -> rc_associatedCloud ts = Some a) ->
  classifSFIdx <> 0 ->
  getScalarField cloud classifSFIdx = Some classifSF ->
  cloud_size cloud <= ScalarField_size classifSF ->
  INT_MAX < selected_count subset cloud < 2 ^ 32 ->
  exists log,
    train_prepare (Some f0 :: rest) subset st = Returns (inl Mat_negative_size) st log.
Proof.
  intros classifSFIdx Hptr Hheap Hsubset Hidx Hfield Hlong Hrows.
  eexists. unfold train_prepare. cbn [mbind option_bind]. rewrite Hptr.
  assert (Hcheck : match subset with
                   | Some ts => negb (bool_decide (rc_associatedCloud ts = Some a))
                   | None => false
                   end = false).
  { destruct subset as [ts|]; [| done]. by rewrite bool_decide_true by eauto. }
  rewrite Hcheck.
  eapply bind_Returns_intro.
  { unfold deref_cloud. by rewrite Hheap. }
  fold classifSFIdx. assert ((classifSFIdx =? 0) = false) as -> by lia.
  rewrite Hfield.
  assert ((ScalarField_size classifSF <? cloud_size cloud) = false) as -> by lia.
  eapply bind_Returns_intro; [reflexivity |].
  change (match subset with Some ts => rc_size ts | None => cloud_size cloud end)
    with (selected_count subset cloud).
  rewrite (to_int_beyond (selected_count subset cloud)) by done.
  unfold Mat_create.
  assert ((selected_count subset cloud - 2 ^ 32 <? 0) = true) as -> by lia.
  cbn [orb]. reflexivity.
Qed.

(** The same on the side of [evaluate]. *)
Lemma evaluate_too_many_rows `{CV : OpenCV}
    rtrees f0 rest ts a cloud classifSF metrics errorMessage st :
  let classifSFIdx := getScalarFieldIndexByName cloud LAS_CLASSIFICATION_NAME in
  m_rtrees (this st) = Some rtrees -> isTrained rtrees = true ->
  rc_associatedCloud ts = Some a ->
  heap st !! a = Some (IsPointCloud cloud) ->
  classifSFIdx <> 0 ->
  getScalarField cloud classifSFIdx = Some classifSF ->
  cloud_size cloud <= ScalarField_size classifSF ->
  INT_MAX < rc_size ts < 2 ^ 32 ->
  exists log,
    evaluate (f0 :: rest) (Some ts) metrics errorMessage st
      = Returns (false, zero_metrics, Mat_negative_size) st log.
Proof.
  intros classifSFIdx Hmodel Htrained Hptr Hheap Hidx Hfield Hlong Hrows.
  eexists. unfold evaluate. eapply bind_Returns_intro; [reflexivity |].
  rewrite Hmodel, Htrained. cbn [negb]. cbv iota.
  eapply bind_Returns_intro.
  { unfold dynamic_cast_cloud. by rewrite Hptr, Hheap. }
  cbv iota. fold classifSFIdx. assert ((classifSFIdx =? 0) = false) as -> by lia.
  rewrite Hfield.
  assert ((ScalarField_size classifSF <? cloud_size cloud) = false) as -> by lia.
  eapply bind_Returns_intro; [reflexivity |].
  rewrite (to_int_beyond (rc_size ts)) by done.
  unfold Mat_create.
  assert ((rc_size ts - 2 ^ 32 <? 0) = true) as -> by lia.
  cbn [orb]. reflexivity.
Qed.

(** An index of the subset that an [int] does not hold reaches the
    classification field of [train] as a negative number, where no value is:
    [evaluate] keeps such an index in an [unsigned]. *)
Lemma train_pointIndex_beyond_int ts i p classifSF :
  0 <= i <= INT_MAX ->
  getPointGlobalIndex ts i = Some p ->
  INT_MAX < p < 2 ^ 32 ->
  train_pointIndex (Some ts) i = Some (p - 2 ^ 32) /\
  ScalarField_getValue classifSF (p - 2 ^ 32) = None.
Proof.
  intros Hi Hp Hbig. unfold train_pointIndex, ScalarField_getValue.
  rewrite to_unsigned_small by done. rewrite Hp. simpl.
  rewrite to_int_beyond by done.
  assert ((p - 2 ^ 32 <? 0) = true) as -> by lia. done.
Qed.

Lemma repeated_subset_size n : rc_size (repeated_subset n) = Z.of_nat n.
Proof. unfold rc_size, repeated_subset. simpl. by rewrite length_replicate. Qed.

Lemma repeated_subset_index n i p :
  getPointGlobalIndex (repeated_subset n) i = Some p -> p = 0.
Proof.
  unfold getPointGlobalIndex, repeated_subset. simpl.
  destruct (i <? 0); [discriminate |].
  intros Hp. by apply lookup_replicate in Hp as [-> _].
Qed.

Lemma repeated_subset_lookup n i :
  0 <= i < Z.of_nat n -> getPointGlobalIndex (repeated_subset n) i = Some 0.
Proof.
  intros Hi. unfold getPointGlobalIndex, repeated_subset. simpl.
  assert ((i <? 0) = false) as -> by lia.
  apply lookup_replicate_2. lia.
Qed.

(** A subset of 2^31 entries makes [train] and [evaluate] report the
    exception of [cv::Mat::create], whatever the memory of the machine; so the
    sample matrix is not built for every subset of points of the cloud. *)
Lemma rows_beyond_int (n : nat) :
  Z.of_nat n = 2 ^ 31 ->
  rc_size (repeated_subset n) = 2 ^ 31 /\
  (forall i p, getPointGlobalIndex (repeated_subset n) i = Some p ->
               0 <= p < cloud_size demo_cloud) /\
  (exists log,
     train_prepare (CV := roomyCV) [Some (demo_feature 1)] (Some (repeated_subset n))
         (roomy_state Classifier_new)
       = Returns (inl "Negative matrix size") (roomy_state Classifier_new) log) /\
  (exists log,
     evaluate (CV := roomyCV) [Some (demo_feature 1)] (Some (repeated_subset n))
         zero_metrics "" (roomy_state (@Build_Classifier roomyCV (Some demo_forest)))
       = Returns (false, zero_metrics, "Negative matrix size")
           (roomy_state (@Build_Classifier roomyCV (Some demo_forest))) log) /\
  ~ (forall (CV : OpenCV) params f0 rest a cloud subset classifSF metrics errorMessage
            (st : State),
       let features := Some f0 :: rest in
       let rows := selected_count subset cloud in
       let cols := Z.of_nat (length features) in
       let classifSFIdx := getScalarFieldIndexByName cloud LAS_CLASSIFICATION_NAME in
       f_cloud f0 = Some a ->
       heap st !! a = Some (IsPointCloud cloud) ->
       (forall ts, subset = Some ts -> rc_associatedCloud ts = Some a) ->
       classifSFIdx <> 0 ->
       getScalarField cloud classifSFIdx = Some classifSF ->
       cloud_size cloud <= ScalarField_size classifSF ->
       colors_cover_points cloud ->
       (forall i p, 0 <= i < rows -> selected_index subset i = Some p ->
                    0 <= p < cloud_size cloud) ->
       (forall j f, features !! j = Some f ->
          (exists ft, f = Some ft /\ f_cloud ft = Some a) /\
          exists w log, GetSource f cloud st = Returns (Some w) st log /\
                        wrapper_isValid w = true) ->
       Mat_alloc_failure rows cols = None ->
       (Mat_alloc_failure rows 1 = None ->
        (forall i, 0 <= i < rows -> is_Some (sample_class subset classifSF i)) ->
        exists training_data train_labels log,
          is_sample_matrix features cloud subset st training_data /\
          train_prepare features subset st
            = Returns (inr (training_data, train_labels)) st log /\
          train params features errorMessage subset st
            = logged log (train_run params training_data train_labels errorMessage st)) /\
       (forall ts rtrees,
        subset = Some ts ->
        m_rtrees (this st) = Some rtrees -> isTrained rtrees = true ->
        exists test_data log,
          is_sample_matrix features cloud subset st test_data /\
          evaluate features subset metrics errorMessage st
            = logged log
                ((let* m := evaluate_metrics rtrees classifSF ts test_data in
                  ret (true, m, errorMessage)) st))).
Proof.
  intros Hn.
  set (classifSF := {| sf_name := "Classification";
                       sf_values := float_of_Z <$> [0; 0; 0; 1; 1; 1; 1; 0; 0; 1] |}).
  assert (Hheap : forall c, heap (roomy_state c) !! 1%nat = Some (IsPointCloud demo_cloud))
    by (intros c; vm_compute; reflexivity).
  assert (Hidx : getScalarFieldIndexByName demo_cloud LAS_CLASSIFICATION_NAME <> 0)
    by (vm_compute; discriminate).
  assert (Hfield : getScalarField demo_cloud
                     (getScalarFieldIndexByName demo_cloud LAS_CLASSIFICATION_NAME)
                   = Some classifSF) by (vm_compute; reflexivity).
  assert (Hlong : cloud_size demo_cloud <= ScalarField_size classifSF)
    by (vm_compute; discriminate).
  assert (Hcolors : colors_cover_points demo_cloud)
    by (intros cols Hcols; discriminate Hcols).
  assert (Hfirst : 0 <= 0 < cloud_size demo_cloud) by (by vm_compute).
  assert (Hclass : is_Some (ScalarField_getValue classifSF 0 ≫= float_to_int))
    by (vm_compute; by eexists).
  assert (Hfeatures : forall j f, [Some (demo_feature 1)] !! j = Some f ->
            (exists ft, f = Some ft /\ f_cloud ft = Some 1%nat) /\
            exists w log,
              GetSource (CV := roomyCV) f demo_cloud (roomy_state Classifier_new)
                = Returns (Some w) (roomy_state Classifier_new) log /\
              wrapper_isValid w = true).
  { intros j f Hf. destruct j as [|j]; [| by destruct j].
    injection Hf as <-. split; [by exists (demo_feature 1) |].
    eexists _, _. split; vm_compute; reflexivity. }
  assert (Hsubset : forall ts, Some (repeated_subset n) = Some ts ->
                               rc_associatedCloud ts = Some 1%nat).
  { intros ts Hts. injection Hts as <-. reflexivity. }
  pose proof (repeated_subset_size n) as Hsize. rewrite Hn in Hsize.
  assert (Hcount : INT_MAX < rc_size (repeated_subset n) < 2 ^ 32).
  { rewrite Hsize. unfold INT_MAX. lia. }
  pose proof (train_prepare_too_many_rows (CV := roomyCV) (demo_feature 1) [] 1%nat
                demo_cloud (Some (repeated_subset n)) classifSF (roomy_state Classifier_new)
                eq_refl (Hheap _) Hsubset Hidx Hfield Hlong Hcount) as Hprep.
  split; [exact Hsize |].
  split.
  { intros i p Hp. apply repeated_subset_index in Hp. rewrite Hp. exact Hfirst. }
  split; [exact Hprep |].
  split.
  { exact (evaluate_too_many_rows (CV := roomyCV) demo_forest (Some (demo_feature 1)) []
             (repeated_subset n) 1%nat demo_cloud classifSF zero_metrics ""
             (roomy_state (@Build_Classifier roomyCV (Some demo_forest)))
             eq_refl eq_refl eq_refl (Hheap _) Hidx Hfield Hlong Hcount). }
  intros Hclaim.
  destruct (Hclaim roomyCV demo_params (demo_feature 1) [] 1%nat demo_cloud
              (Some (repeated_subset n)) classifSF zero_metrics ""
              (roomy_state Classifier_new) eq_refl (Hheap _) Hsubset Hidx Hfield Hlong
              Hcolors)
    as [Htrain _].
  - intros i p _ Hp. apply repeated_subset_index in Hp. rewrite Hp. exact Hfirst.
  - exact Hfeatures.
  - reflexivity.
  - destruct Htrain as (data & labels & log & _ & Hbuilt & _).
    + reflexivity.
    + intros i Hi. change (0 <= i < rc_size (repeated_subset n)) in Hi.
      rewrite Hsize, <- Hn in Hi.
      unfold sample_class, selected_index.
      rewrite (repeated_subset_lookup n i Hi). exact Hclass.
    + destruct Hprep as [log' Hprep]. rewrite Hprep in Hbuilt. discriminate Hbuilt.
Qed.

(** C1 (counterexample).  A subset that names the point 0 of the demo cloud
    2^31 times satisfies what the claim asks (a non-empty feature set over the
    cloud, indexes below the point count), on a machine that never runs out of
    memory.  Its size, cast to [int], is negative: [train] and [evaluate]
    report the exception of [cv::Mat::create] and build no matrix at all, so
    the sample matrix does not exist for every such input. *)
Lemma sample_matrix_needs_int_sizes :
  rc_size crowded_subset = 2 ^ 31 /\
  (forall i p, getPointGlobalIndex crowded_subset i = Some p ->
               0 <= p < cloud_size demo_cloud) /\
  (exists log,
     train_prepare (CV := roomyCV) [Some (demo_feature 1)] (Some crowded_subset)
         (roomy_state Classifier_new)
       = Returns (inl "Negative matrix size") (roomy_state Classifier_new) log) /\
  (exists log,
     evaluate (CV := roomyCV) [Some (demo_feature 1)] (Some crowded_subset)
         zero_metrics "" (roomy_state (@Build_Classifier roomyCV (Some demo_forest)))
       = Returns (false, zero_metrics, "Negative matrix size")
           (roomy_state (@Build_Classifier roomyCV (Some demo_forest))) log) /\
  ~ (forall (CV : OpenCV) params f0 rest a cloud subset classifSF metrics errorMessage
            (st : State),
       let features := Some f0 :: rest in
       let rows := selected_count subset cloud in
       let cols := Z.of_nat (length features) in
       let classifSFIdx := getScalarFieldIndexByName cloud LAS_CLASSIFICATION_NAME in
       f_cloud f0 = Some a ->
       heap st !! a = Some (IsPointCloud cloud) ->
       (forall ts, subset = Some ts -> rc_associatedCloud ts = Some a) ->
       classifSFIdx <> 0 ->
       getScalarField cloud classifSFIdx = Some classifSF ->
       cloud_size cloud <= ScalarField_size classifSF ->
       colors_cover_points cloud ->
       (forall i p, 0 <= i < rows -> selected_index subset i = Some p ->
                    0 <= p < cloud_size cloud) ->
       (forall j f, features !! j = Some f ->
          (exists ft, f = Some ft /\ f_cloud ft = Some a) /\
          exists w log, GetSource f cloud st = Returns (Some w) st log /\
                        wrapper_isValid w = true) ->
       Mat_alloc_failure rows cols = None ->
       (Mat_alloc_failure rows 1 = None ->
        (forall i, 0 <= i < rows -> is_Some (sample_class subset classifSF i)) ->
        exists training_data train_labels log,
          is_sample_matrix features cloud subset st training_data /\
          train_prepare features subset st
            = Returns (inr (training_data, train_labels)) st log /\
          train params features errorMessage subset st
            = logged log (train_run params training_data train_labels errorMessage st)) /\
       (forall ts rtrees,
        subset = Some ts ->
        m_rtrees (this st) = Some rtrees -> isTrained rtrees = true ->
        exists test_data log,
          is_sample_matrix features cloud subset st test_data /\
          evaluate features subset metrics errorMessage st
            = logged log
                ((let* m := evaluate_metrics rtrees classifSF ts test_data in
                  ret (true, m, errorMessage)) st))).
Proof.
  apply (rows_beyond_int (Z.to_nat (2 ^ 31))). apply Z2Nat.id. lia.
Qed.

(** ** The label vector of [train] *)

Lemma to_uchar_fixes (c : Z) : to_uchar c = c <-> 0 <= c <= 255.
Proof.
  unfold to_uchar. split.
  - intros <-. pose proof (Z.mod_pos_bound c 256). lia.
  - intros Hc. apply Z.mod_small. lia.
Qed.

(** C4 (defect of the code).  Once the preconditions of [train] hold, its
    preparation completes and [train] goes on as the run of the trainer on the
    matrices built: the sample matrix, and a label vector with a row per
    selected point, in the order of the rows of the sample matrix, that holds
    at row i the class of that point (the value of the "Classification" field
    converted to [int]) converted to [unsigned char].  That byte is the class exactly when the
    class lies in [0,255]: any other class reaches the trainer reduced modulo
    256. *)
Theorem train_labels_are_bytes `{CV : OpenCV}
    params f0 rest a cloud subset classifSF errorMessage st :
  let features := Some f0 :: rest in
  let rows := selected_count subset cloud in
  let cols := Z.of_nat (length features) in
  let classifSFIdx := getScalarFieldIndexByName cloud LAS_CLASSIFICATION_NAME in
  f_cloud f0 = Some a ->
  heap st !! a = Some (IsPointCloud cloud) ->
  (forall ts, subset = Some ts -> rc_associatedCloud ts = Some a) ->
  classifSFIdx <> 0 ->
  getScalarField cloud classifSFIdx = Some classifSF ->
  cloud_size cloud <= ScalarField_size classifSF ->
  rows <= INT_MAX -> cols <= INT_MAX ->
  Mat_alloc_failure rows cols = None -> Mat_alloc_failure rows 1 = None ->
  colors_cover_points cloud ->
  (forall i p, 0 <= i < rows -> selected_index subset i = Some p ->
               0 <= p < cloud_size cloud) ->
  (forall i p, 0 <= i < rows -> selected_index subset i = Some p -> p <= INT_MAX) ->
  (forall i, 0 <= i < rows -> is_Some (sample_class subset classifSF i)) ->
  (forall j f, features !! j = Some f ->
     (exists ft, f = Some ft /\ f_cloud ft = Some a) /\
     exists w log, GetSource f cloud st = Returns (Some w) st log /\
                   wrapper_isValid w = true) ->
  exists training_data train_labels log,
    train_prepare features subset st
      = Returns (inr (training_data, train_labels)) st log /\
    train params features errorMessage subset st
      = logged log (train_run params training_data train_labels errorMessage st) /\
    is_sample_matrix features cloud subset st training_data /\
    mat_rows train_labels = rows /\ mat_cols train_labels = 1 /\
    forall i c, 0 <= i < rows ->
      sample_class subset classifSF i = Some c ->
      Mat_at train_labels i 0 = Some (float_of_Z (to_uchar c)) /\
      (to_uchar c = c <-> 0 <= c <= 255).
Proof.
  intros features rows cols classifSFIdx Hptr Hheap Hsubset Hidx Hfield Hlong
    Hrows Hcols Halloc1 Halloc2 Hcolors Hindexes Hfit Hclasses Hfeatures.
  destruct (train_prepare_builds_fit f0 rest a cloud subset classifSF st)
    as (data & labels & log & Hprep & Hmatrix & Hlr & Hlc & Hcells); try done.
  exists data, labels, log. split_and!; try done.
  - by apply train_logged.
  - intros i c Hi Hclass. split; [| apply to_uchar_fixes].
    rewrite Hcells by done. by rewrite Hclass.
Qed.

(** The failing input: a cloud whose classes are 300, -1 and 2.  [train]
    hands the trainer the labels 44, 255 and 2, and succeeds; [evaluate], run
    with the model so trained on the very points it was trained on, compares
    the predictions 44, 255 and 2 with the classes 300, -1 and 2 and counts one
    good guess out of three. *)
Lemma train_labels_are_bytes_witness :
  (exists training_data train_labels log,
     train_prepare (CV := toyCV) [Some (demo_feature 1)] None wide_state
       = Returns (inr (training_data, train_labels)) wide_state log /\
     sample_class None wide_classification 0 = Some 300 /\
     Mat_at train_labels 0 0 = Some (float_of_Z 44) /\
     Mat_at train_labels 0 0 <> Some (float_of_Z 300) /\
     sample_class None wide_classification 1 = Some (-1) /\
     Mat_at train_labels 1 0 = Some (float_of_Z 255) /\
     Mat_at train_labels 1 0 <> Some (float_of_Z (-1)) /\
     sample_class None wide_classification 2 = Some 2 /\
     Mat_at train_labels 2 0 = Some (float_of_Z 2)) /\
  train (CV := toyCV) demo_params [Some (demo_feature 1)] "" None wide_state
    = Returns (true, "") wide_trained_state
        [Print "[3DMASC] Training data: 3 samples with 1 feature(s)"] /\
  evaluate (CV := toyCV) [Some (demo_feature 1)] (Some wide_subset) zero_metrics ""
      wide_trained_state
    = Returns (true,
               {| sampleCount := 3; goodGuess := 1;
                  ratio := float_div (float_of_Z 1) (float_of_Z 3) |},
               "")
        wide_trained_state
        [Print "[3DMASC] Testing data: 3 samples with 1 feature(s)"].
Proof.
  destruct (train_labels_are_bytes (CV := toyCV) demo_params (demo_feature 1) [] 1%nat
              wide_cloud None wide_classification "" wide_state)
    as (data & labels & log & Hprep & _ & _ & _ & _ & Hcells).
  - reflexivity.
  - vm_compute. reflexivity.
  - intros ts Hts. discriminate Hts.
  - vm_compute. discriminate.
  - vm_compute. reflexivity.
  - vm_compute. discriminate.
  - vm_compute. discriminate.
  - vm_compute. discriminate.
  - vm_compute. reflexivity.
  - vm_compute. reflexivity.
  - intros cols Hcols. discriminate Hcols.
  - intros i p Hi [= <-]. exact Hi.
  - intros i p Hi [= <-]. change (0 <= i < 3) in Hi. unfold INT_MAX. lia.
  - intros i Hi.
    assert (i = 0 \/ i = 1 \/ i = 2) as [-> | [-> | ->]]
      by (change (0 <= i < 3) in Hi; lia);
      vm_compute; by eexists.
  - intros j f Hf. destruct j as [|j]; [| by destruct j].
    injection Hf as <-. split; [by exists (demo_feature 1) |].
    eexists _, _. split; vm_compute; reflexivity.
  - assert (H300 : sample_class None wide_classification 0 = Some 300)
      by (vm_compute; reflexivity).
    assert (Hminus : sample_class None wide_classification 1 = Some (-1))
      by (vm_compute; reflexivity).
    assert (H2 : sample_class None wide_classification 2 = Some 2)
      by (vm_compute; reflexivity).
    assert (Hr0 : 0 <= 0 < selected_count None wide_cloud) by (by vm_compute).
    assert (Hr1 : 0 <= 1 < selected_count None wide_cloud) by (by vm_compute).
    assert (Hr2 : 0 <= 2 < selected_count None wide_cloud) by (by vm_compute).
    destruct (Hcells 0 300 Hr0 H300) as [Hl0 _].
    destruct (Hcells 1 (-1) Hr1 Hminus) as [Hl1 _].
    destruct (Hcells 2 2 Hr2 H2) as [Hl2 _].
    split_and!.
    + exists data, labels, log. split_and!; try done.
      * rewrite Hl0. vm_compute. discriminate.
      * rewrite Hl1. vm_compute. discriminate.
    + vm_compute. reflexivity.
    + vm_compute. reflexivity.
Defined.

(** ** The presence check of the classification field *)

(** C5.  Once the earlier checks of [train] and [evaluate] are passed, a cloud
    whose "Classification" field has index 0 makes both fail with the
    missing-field message, whereas a cloud without such a field (index -1)
    passes that test and is stopped by the next one, with the invalid-field
    message. *)
Theorem classification_index_zero_is_missing `{CV : OpenCV}
    params f0 rest a cloud ts metrics errorMessage st :
  f_cloud f0 = Some a ->
  heap st !! a = Some (IsPointCloud cloud) ->
  rc_associatedCloud ts = Some a ->
  let features := Some f0 :: rest in
  let classifSFIdx := getScalarFieldIndexByName cloud LAS_CLASSIFICATION_NAME in
  let missing := "Missing 'Classification' field on input cloud" in
  let invalid := "Invalid 'Classification' field on input cloud" in
  (classifSFIdx = 0 ->
     train params features errorMessage None st = Returns (false, missing) st [] /\
     train params features errorMessage (Some ts) st = Returns (false, missing) st [] /\
     (isValid (this st) = true ->
      evaluate features (Some ts) metrics errorMessage st
        = Returns (false, zero_metrics, missing) st [])) /\
  (classifSFIdx = -1 ->
     train params features errorMessage None st = Returns (false, invalid) st [] /\
     train params features errorMessage (Some ts) st = Returns (false, invalid) st [] /\
     (isValid (this st) = true ->
      evaluate features (Some ts) metrics errorMessage st
        = Returns (false, zero_metrics, invalid) st [])).
Proof.
  intros Hptr Hheap Hts features classifSFIdx missing invalid.
  subst features classifSFIdx missing invalid.
  assert (Htrain : forall trainSubset msg,
    (trainSubset = None \/ trainSubset = Some ts) ->
    (let classifSFIdx := getScalarFieldIndexByName cloud LAS_CLASSIFICATION_NAME in
     if classifSFIdx =? 0 then msg = "Missing 'Classification' field on input cloud"
     else getScalarField cloud classifSFIdx = None /\
          msg = "Invalid 'Classification' field on input cloud") ->
    train params (Some f0 :: rest) errorMessage trainSubset st
      = Returns (false, msg) st []).
  { intros trainSubset msg Hsubset Hmsg.
    unfold train, train_prepare, bind. simpl. rewrite Hptr. simpl.
    assert (Hcheck : match trainSubset with
                     | Some ts0 => negb (bool_decide (rc_associatedCloud ts0 = Some a))
                     | None => false
                     end = false).
    { destruct Hsubset as [-> | ->]; [done |]. by rewrite bool_decide_true. }
    rewrite Hcheck. unfold deref_cloud. rewrite Hheap. simpl in Hmsg.
    destruct (getScalarFieldIndexByName cloud LAS_CLASSIFICATION_NAME =? 0).
    - by subst msg.
    - destruct Hmsg as [-> ->]. reflexivity. }
  assert (Hevaluate : forall msg,
    isValid (this st) = true ->
    (let classifSFIdx := getScalarFieldIndexByName cloud LAS_CLASSIFICATION_NAME in
     if classifSFIdx =? 0 then msg = "Missing 'Classification' field on input cloud"
     else getScalarField cloud classifSFIdx = None /\
          msg = "Invalid 'Classification' field on input cloud") ->
    evaluate (Some f0 :: rest) (Some ts) metrics errorMessage st
      = Returns (false, zero_metrics, msg) st []).
  { intros msg Hvalid Hmsg. unfold isValid in Hvalid.
    unfold evaluate, bind, get_rtrees. simpl.
    destruct (m_rtrees (this st)) as [rtrees|]; [| discriminate Hvalid].
    rewrite Hvalid. simpl. unfold dynamic_cast_cloud. rewrite Hts, Hheap.
    simpl in Hmsg.
    destruct (getScalarFieldIndexByName cloud LAS_CLASSIFICATION_NAME =? 0).
    - by subst msg.
    - destruct Hmsg as [-> ->]. reflexivity. }
  split; intros Hidx.
  - repeat split; intros; [apply Htrain | apply Htrain | apply Hevaluate];
      try tauto; simpl; by rewrite Hidx.
  - repeat split; intros; [apply Htrain | apply Htrain | apply Hevaluate];
      try tauto; simpl; by rewrite Hidx.
Qed.

(** An instance: a cloud whose first scalar field is the classification. *)
Lemma classification_index_zero_is_missing_witness :
  getScalarFieldIndexByName classification_first_cloud LAS_CLASSIFICATION_NAME = 0 /\
  train (CV := toyCV) demo_params [Some (demo_feature 1)] "" (Some (other_subset 1))
      other_state
    = Returns (false, "Missing 'Classification' field on input cloud") other_state [] /\
  evaluate (CV := toyCV) [Some (demo_feature 1)] (Some (other_subset 1)) zero_metrics ""
      other_state
    = Returns (false, zero_metrics, "Missing 'Classification' field on input cloud")
        other_state [].
Proof.
  destruct (classification_index_zero_is_missing (CV := toyCV)
              demo_params (demo_feature 1) [] 1%nat classification_first_cloud
              (other_subset 1) zero_metrics "" other_state
              eq_refl eq_refl eq_refl) as [Hzero _].
  destruct (Hzero eq_refl) as (_ & Htrain & Hevaluate).
  split; [reflexivity |]. split; [exact Htrain |].
  apply Hevaluate. vm_compute. reflexivity.
Defined.

(** ** Features of another cloud *)

Lemma related_result `{CV : OpenCV}
    (o1 o2 : Outcome (bool * AccuracyMetrics * string)) :
  related (same_verdict eq) o1 o2 -> result o1 = result o2.
Proof.
  unfold related, same_verdict.
  destruct o1 as [[r1 m1] ? ? | |], o2 as [[r2 m2] ? ? | |]; simpl; try done.
  by intros [[-> ->] _].
Qed.

(** [evaluate] does not look at the clouds the features are attached to: two
    feature sets that name the same sources are evaluated alike. *)
Lemma evaluate_ignores_feature_clouds `{CV : OpenCV}
    features1 features2 testSubset metrics errorMessage st :
  Forall2 same_source features1 features2 ->
  result (evaluate features1 testSubset metrics errorMessage st)
  = result (evaluate features2 testSubset metrics errorMessage st).
Proof.
  intros Hsame. apply related_result.
  apply evaluate_related; try done.
  unfold models_agree. by destruct (m_rtrees (this st)).
Qed.

Lemma for_each_ret_returns_early `{CV : OpenCV} {R T}
    (idx : list Z) (body : Z -> T -> M (R + T)) (j : Z) :
  j ∈ idx -> (forall s, post (body j s) returned) ->
  forall s, post (for_each_ret idx body s) returned.
Proof.
  intros Hj Hbody. induction idx as [|i rest IH]; intros s; [by inversion Hj |].
  simpl. destruct (decide (i = j)) as [-> | Hne].
  - eapply post_bind_with; [apply Hbody |].
    intros [v | s'] Hr; [by apply post_ret | contradiction].
  - apply post_bind. intros [v | s']; [by apply post_ret |].
    apply IH. apply elem_of_cons in Hj as [-> | Hj]; [done | exact Hj].
Qed.

Lemma elem_of_range (n i : Z) : 0 <= i < n -> i ∈ range n.
Proof.
  intros Hi. unfold range. apply list_elem_of_fmap.
  exists (Z.to_nat i). split; [lia |]. apply elem_of_seq. lia.
Qed.

(** The loop that fills the training matrix stops at a feature of another
    cloud, if not before. *)
Lemma train_fill_data_rejects `{CV : OpenCV}
    features cloud_ptr cloud trainSubset rows training_data j ft :
  features !! j = Some (Some ft) -> f_cloud ft <> cloud_ptr ->
  post (train_fill_data features cloud_ptr cloud trainSubset rows
          (Z.of_nat (length features)) training_data) returned.
Proof.
  intros Hf Hcloud. unfold train_fill_data.
  apply for_each_ret_returns_early with (j := Z.of_nat j).
  - apply elem_of_range. apply lookup_lt_Some in Hf.
    unfold Feature_Set, Feature_Shared in *. lia.
  - intros m st r st' log. rewrite Nat2Z.id.
    rewrite (bind_defined_Some _ (Some ft)) by done.
    rewrite (bind_defined_Some _ ft) by done.
    rewrite bool_decide_false by done. cbn [negb].
    by intros [= <- _ _].
Qed.

(** [train] never succeeds, and changes nothing, when some feature is attached
    to another cloud than the first one. *)
Lemma train_rejects_feature_of_another_cloud `{CV : OpenCV}
    params f0 rest a j ft errorMessage trainSubset st r st' log :
  let features := Some f0 :: rest in
  f_cloud f0 = Some a ->
  features !! j = Some (Some ft) -> f_cloud ft <> Some a ->
  Z.of_nat (length features) <= INT_MAX ->
  train params features errorMessage trainSubset st = Returns r st' log ->
  fst r = false /\ st' = st.
Proof.
  intros features Hptr Hf Hcloud Hlen Hrun.
  apply train_Returns in Hrun
    as [(msg & _ & -> & ->) | (data & labels & l1 & Hprep & _)]; [done |].
  exfalso.
  assert (Hpost : post (train_prepare features trainSubset) returned).
  { unfold train_prepare. subst features. cbn [mbind option_bind]. rewrite Hptr.
    unfold Feature_Set, Feature_Shared in *.
    rewrite (to_int_small (Z.of_nat _)) by lia.
    repeat first
      [ eapply post_bind_with with (P := returned);
        [ by eapply train_fill_data_rejects
        | intros [? | ?] Hr; [by apply post_ret | contradiction] ]
      | post_step ];
      done. }
  exact (Hpost _ _ _ _ Hprep).
Qed.

(** C6 (defect of the code).  [train] refuses a feature attached to
    another cloud than the one of the build, but [evaluate] never compares the
    cloud of a feature with the cloud of the test subset: a feature attached to
    the cloud at address 2 is read from the cloud at address 1 the subset
    refers to, and the evaluation succeeds. *)
Theorem evaluate_accepts_feature_of_another_cloud :
  f_cloud (demo_feature 2) <> rc_associatedCloud demo_subset /\
  train (CV := toyCV) demo_params [Some (demo_feature 1); Some (demo_feature 2)] ""
      (Some demo_subset) (demo_state Classifier_new)
    = Returns (false,
               "Invalid feature (Intensity): associated cloud is different than the others")
        (demo_state Classifier_new)
        [Print "[3DMASC] Training data: 10 samples with 2 feature(s)"] /\
  evaluate (CV := toyCV) [Some (demo_feature 2)] (Some demo_subset) zero_metrics ""
      trained_state
    = Returns (true,
               {| sampleCount := 10; goodGuess := 10; ratio := float_of_Z 1 |}, "")
        trained_state
        [Print "[3DMASC] Testing data: 10 samples with 1 feature(s)"] /\
  exists st log,
    train (CV := toyCV) demo_params [Some (demo_feature 1); Some (demo_feature 1)] ""
        (Some demo_subset) (demo_state Classifier_new)
      = Returns (true, "") st log /\
    evaluate [Some (demo_feature 1); Some (demo_feature 2)] (Some demo_subset)
        zero_metrics "" st
      = Returns (true,
                 {| sampleCount := 10; goodGuess := 10; ratio := float_of_Z 1 |}, "")
          st [Print "[3DMASC] Testing data: 10 samples with 2 feature(s)"].
Proof.
  split; [discriminate |].
  split; [vm_compute; reflexivity |].
  split; [vm_compute; reflexivity |].
  eexists _, _. split; [vm_compute; reflexivity |].
  vm_compute. reflexivity.
Qed.

(** ** Saving and loading *)

(** C7.  Let [train] succeed, let [toFile] save the classifier, and let the
    file be loaded into a fresh classifier with [fromFile].  Provided OpenCV's
    [load] gives back, for what its [save] wrote, a model that answers
    [isTrained] and [predict] as the saved one does, the loaded classifier is
    valid and [evaluate] returns for it, on any features and test subset, the
    very result (success flag, metrics, error message) it returns for the
    original classifier. *)
Theorem save_load_roundtrip `{CV : OpenCV}
    params features0 errorMessage0 trainSubset st0 msg0 st log0 filename st1 log1 :
  train params features0 errorMessage0 trainSubset st0 = Returns (true, msg0) st log0 ->
  toFile filename st = Returns true st1 log1 ->
  (forall rtrees fs',
      m_rtrees (this st) = Some rtrees ->
      save rtrees filename (files st) = inr fs' ->
      exists loaded,
        load filename fs' = inr (Some loaded) /\
        isTrained loaded = isTrained rtrees /\
        forall sample, predict loaded sample = predict rtrees sample) ->
  exists st2 log2,
    fromFile filename {| this := Classifier_new; heap := heap st1; files := files st1 |}
      = Returns true st2 log2 /\
    isValid (this st2) = true /\
    forall features testSubset metrics errorMessage,
      result (evaluate features testSubset metrics errorMessage st2)
      = result (evaluate features testSubset metrics errorMessage st).
Proof.
  intros Htrain Hsave Hlibrary.
  apply train_success_valid in Htrain as (Hvalid & _ & _).
  apply toFile_Returns_true in Hsave as (rtrees & fs' & Hmodel & Hsave & ->).
  destruct (Hlibrary rtrees fs' Hmodel Hsave) as (loaded & Hload & Htrained & Hpredict).
  simpl.
  assert (Hload' : load filename
            (files {| this := Classifier_new; heap := heap st; files := fs' |})
          = inr (Some loaded)) by exact Hload.
  pose proof (fromFile_loaded _ _ _ Hload') as Hrun.
  simpl in Hrun.
  eexists _, _. split; [exact Hrun |].
  unfold isValid in Hvalid |- *. rewrite Hmodel in Hvalid.
  split; [simpl; congruence |].
  intros features testSubset metrics errorMessage.
  match goal with
  | |- result (evaluate _ _ _ _ ?s2) = _ =>
      pose proof (evaluate_related eq features features testSubset metrics metrics
                    errorMessage errorMessage s2 st
                    (fun _ => eq_refl) eq_refl (same_sources_refl features) eq_refl)
        as Hrel
  end.
  simpl in Hrel. rewrite Hmodel in Hrel. specialize (Hrel (conj Htrained Hpredict)).
  unfold related, same_verdict in Hrel.
  destruct (evaluate features testSubset metrics errorMessage _) as [[r1 m1] ? ? | |],
           (evaluate features testSubset metrics errorMessage st) as [[r2 m2] ? ? | |];
    simpl in *; try done.
  destruct Hrel as [[-> ->] _]. reflexivity.
Qed.

(** An instance: the demo forest saved to and loaded from "forest.yml". *)
Lemma save_load_roundtrip_witness :
  exists st2 log2,
    fromFile (CV := toyCV) "forest.yml"
        {| this := Classifier_new;
           heap := demo_heap;
           files := {[ "forest.yml" := demo_forest ]} |}
      = Returns true st2 log2 /\
    isValid (this st2) = true /\
    result (evaluate [Some (demo_feature 1)] (Some demo_subset) zero_metrics "" st2)
      = Some (true,
              {| sampleCount := 10; goodGuess := 10; ratio := float_of_Z 1 |}, "").
Proof.
  assert (Htrain : train (CV := toyCV) demo_params [Some (demo_feature 1)] ""
                     (Some demo_subset) (demo_state Classifier_new)
                   = Returns (true, "") trained_state
                       [Print "[3DMASC] Training data: 10 samples with 1 feature(s)"])
    by (vm_compute; reflexivity).
  assert (Hsave : toFile (CV := toyCV) "forest.yml" trained_state
                  = Returns true
                      {| this := @Build_Classifier toyCV (Some demo_forest);
                         heap := demo_heap;
                         files := {[ "forest.yml" := demo_forest ]} |}
                      [Print "Classifier file saved to: forest.yml"])
    by (vm_compute; reflexivity).
  destruct (save_load_roundtrip _ _ _ _ _ _ _ _ _ _ _ Htrain Hsave)
    as (st2 & log2 & Hrun & Hvalid & Heval).
  { intros rtrees fs' Hmodel Hsaved.
    change (Some demo_forest = Some rtrees) in Hmodel. injection Hmodel as <-.
    change (@inr Exception (gmap string ToyForest)
              (<["forest.yml" := demo_forest]> (files trained_state)) = inr fs')
      in Hsaved.
    injection Hsaved as <-.
    exists demo_forest. split; [| split; reflexivity].
    vm_compute. reflexivity. }
  exists st2, log2. split; [exact Hrun |]. split; [exact Hvalid |].
  rewrite Heval. vm_compute. reflexivity.
Defined.

(** ** Loading *)

(** C8.  When the file parses as a model, [fromFile] returns success whether or
    not that model is trained; an untrained one only adds a warning to the log,
    and [isValid] then answers what the loaded model says of itself. *)
Theorem fromFile_success_independent_of_training `{CV : OpenCV} filename st rtrees :
  load filename (files st) = inr (Some rtrees) ->
  let st' := {| this := {| m_rtrees := Some rtrees |};
                heap := heap st; files := files st |} in
  fromFile filename st
    = Returns true st'
        (if isTrained rtrees then []
         else [Warning "Loaded classifier doesn't seem to be trained"]) /\
  isValid (this st') = isTrained rtrees /\
  (isTrained rtrees = false -> isValid (this st') = false).
Proof.
  intros Hload st'. subst st'.
  split; [by apply fromFile_loaded |].
  unfold isValid. simpl. done.
Qed.

(** An instance: a file that holds a forest that was never trained. *)
Lemma fromFile_success_independent_of_training_witness :
  fromFile (CV := toyCV) "untrained.yml" untrained_file_state
    = Returns true
        {| this := @Build_Classifier toyCV (Some (@RTrees_create toyCV));
           heap := demo_heap;
           files := {[ "untrained.yml" := @RTrees_create toyCV ]} |}
        [Warning "Loaded classifier doesn't seem to be trained"]
  /\ isValid (@Build_Classifier toyCV (Some (@RTrees_create toyCV))) = false.
Proof.
  assert (Hload : load (OpenCV := toyCV) "untrained.yml" (files untrained_file_state)
                  = inr (Some (@RTrees_create toyCV))) by (vm_compute; reflexivity).
  destruct (fromFile_success_independent_of_training _ _ _ Hload) as (Hrun & _ & Hvalid).
  split; [exact Hrun | by apply Hvalid].
Defined.

(** ** Evaluation is an observation *)

(** C9.  However an [evaluate] call ends, it leaves the state (so the model
    field of the classifier) exactly as it found it; and when it returns, a
    second call with the same features and test subset returns the same
    success flag and the same metrics, whatever the metrics variable and the
    error message it is handed hold. *)
Theorem evaluate_never_mutates_and_repeats `{CV : OpenCV}
    features testSubset metrics errorMessage st st' :
  final_state (evaluate features testSubset metrics errorMessage st) = Some st' ->
  st' = st /\
  m_rtrees (this st') = m_rtrees (this st) /\
  forall b metrics' msg log,
    evaluate features testSubset metrics errorMessage st
      = Returns (b, metrics', msg) st' log ->
    forall metrics2 errorMessage2, exists msg2 log2,
      evaluate features testSubset metrics2 errorMessage2 st'
        = Returns (b, metrics', msg2) st' log2.
Proof.
  intros Hfinal.
  assert (Hsame : st' = st).
  { pose proof (readonly_evaluate features testSubset metrics errorMessage st) as Hro.
    destruct (evaluate features testSubset metrics errorMessage st);
      simpl in Hfinal; congruence. }
  subst st'. repeat split.
  intros b metrics' msg log Hrun metrics2 errorMessage2.
  pose proof (evaluate_related (fun _ _ => True) features features testSubset
                metrics metrics2 errorMessage errorMessage2 st st
                (fun _ => I) I (same_sources_refl features) eq_refl) as Hrel.
  assert (Hagree : models_agree (m_rtrees (this st)) (m_rtrees (this st))).
  { unfold models_agree. by destruct (m_rtrees (this st)). }
  specialize (Hrel Hagree). rewrite Hrun in Hrel. unfold related in Hrel.
  pose proof (readonly_evaluate features testSubset metrics2 errorMessage2 st) as Hro.
  destruct (evaluate features testSubset metrics2 errorMessage2 st)
    as [[[b2 m2] msg2] st2 log2 | |]; try contradiction.
  destruct Hrel as [[Hverdict _] _]. simpl in Hverdict.
  injection Hverdict as <- <-. subst st2. by exists msg2, log2.
Qed.

(** An instance: two evaluations of the demo forest on the demo subset. *)
Lemma evaluate_never_mutates_and_repeats_witness :
  final_state (evaluate (CV := toyCV) [Some (demo_feature 1)] (Some demo_subset)
                 zero_metrics "" trained_state) = Some trained_state
  /\ m_rtrees (this trained_state) = Some demo_forest
  /\ exists msg2 log2,
       evaluate (CV := toyCV) [Some (demo_feature 1)] (Some demo_subset)
           {| sampleCount := 3; goodGuess := 2; ratio := S754_nan |} "stale" trained_state
         = Returns (true,
                    {| sampleCount := 10; goodGuess := 10; ratio := float_of_Z 1 |},
                    msg2) trained_state log2.
Proof.
  assert (Hfinal : final_state (evaluate (CV := toyCV) [Some (demo_feature 1)]
                      (Some demo_subset) zero_metrics "" trained_state)
                   = Some trained_state) by (vm_compute; reflexivity).
  destruct (evaluate_never_mutates_and_repeats _ _ _ _ _ _ Hfinal) as (_ & _ & Hagain).
  split; [exact Hfinal |]. split; [reflexivity |].
  eapply Hagain. vm_compute. reflexivity.
Defined.

(** ** Failed evaluations *)



(** * Further properties of the classifier *)

(** [find_sf] is a search for the first field of that name. *)
Lemma find_sf_list_find (name : string) (sfs : list ScalarField) (i : Z) :
  find_sf name sfs i
  = match list_find (fun sf => sf_name sf = name) sfs with
    | Some (k, _) => i + Z.of_nat k
    | None => -1
    end.
Proof.
  revert i. induction sfs as [|sf rest IH]; intros i; [done |].
  cbn [find_sf list_find]. destruct (String.eqb_spec (sf_name sf) name) as [Heq | Hne].
  - rewrite decide_True by done. simpl. lia.
  - rewrite decide_False by done. rewrite IH.
    destruct (list_find _ rest) as [[k sf'] |]; simpl; lia.
Qed.

(** The index [getScalarFieldIndexByName] answers is -1 when no field has the
    name; otherwise it is not negative and [getScalarField] gives, at that
    index, the first field of that name. *)
Lemma getScalarField_named (cloud : ccPointCloud) (name : string) :
  let sfIdx := getScalarFieldIndexByName cloud name in
  match field_named cloud name with
  | Some sf => 0 <= sfIdx /\ getScalarField cloud sfIdx = Some sf
  | None => sfIdx = -1
  end.
Proof.
  unfold getScalarFieldIndexByName, field_named, getScalarField.
  rewrite find_sf_list_find.
  destruct (list_find _ _) as [[k sf] |] eqn:Hfind; simpl; [| done].
  apply list_find_Some in Hfind as (Hk & _ & _).
  rewrite Z.add_0_l. split; [lia |].
  pose proof (lookup_lt_Some _ _ _ Hk) as Hlt.
  assert (Hb : (0 <=? Z.of_nat k) && (Z.of_nat k <? Z.of_nat (length (cloud_scalarFields cloud)))
               = true) by (apply andb_true_intro; lia).
  rewrite Hb, Nat2Z.id. done.
Qed.

(** X1.  For a feature that reads a scalar field, [GetSource] looks the field up
    by name: when the cloud has fields of that name it returns a source around
    the first of them, without a word in the log; when it has none it returns
    the null source and logs the warning about the unknown scalar field.  The
    state is left alone either way. *)
Theorem GetSource_named_field `{CV : OpenCV} ft cloud st :
  f_source ft = ScalarField_src ->
  GetSource (Some ft) cloud st
  = match field_named cloud (f_sourceName ft) with
    | Some sf => Returns (Some (ScalarFieldWrapper cloud (Some sf))) st []
    | None =>
        Returns None st
          [Warning ("Internal error: unknwon scalar field '" +:+ f_sourceName ft +:+ "'")]
    end.
Proof.
  intros Hsource. unfold GetSource. rewrite bind_ret_l.
  rewrite (bind_defined_Some _ ft) by done. rewrite Hsource.
  pose proof (getScalarField_named cloud (f_sourceName ft)) as Hnamed. simpl in Hnamed.
  destruct (field_named cloud (f_sourceName ft)) as [sf|].
  - destruct Hnamed as [Hidx ->].
    assert ((0 <=? getScalarFieldIndexByName cloud (f_sourceName ft)) = true) as -> by lia.
    reflexivity.
  - rewrite Hnamed. reflexivity.
Qed.

(** An instance: a field the demo cloud has and one it has not. *)
Lemma GetSource_named_field_witness :
  GetSource (CV := toyCV) (Some (demo_feature 1)) demo_cloud trained_state
    = Returns
        (Some (ScalarFieldWrapper demo_cloud
                 (Some {| sf_name := "Intensity";
                          sf_values := float_of_Z <$> [1; 1; 1; 9; 9; 9; 9; 1; 1; 9] |})))
        trained_state [] /\
  GetSource (CV := toyCV) (Some absent_feature) demo_cloud trained_state
    = Returns None trained_state
        [Warning "Internal error: unknwon scalar field 'Curvature'"].
Proof.
  split.
  - exact (GetSource_named_field (CV := toyCV) (demo_feature 1) demo_cloud trained_state
             eq_refl).
  - exact (GetSource_named_field (CV := toyCV) absent_feature demo_cloud trained_state
             eq_refl).
Defined.

(** What [GetSource] answers for a feature that is not null: it returns,
    leaves the state alone, and the source passes the test of [train] and
    [evaluate] exactly when the cloud can serve the feature. *)
Lemma GetSource_usable `{CV : OpenCV} ft cloud st :
  exists source log,
    GetSource (Some ft) cloud st = Returns source st log /\
    source_unusable source = negb (source_usable ft cloud).
Proof.
  destruct (f_source ft) eqn:Hsource.
  { rewrite GetSource_named_field by done. unfold source_usable. rewrite Hsource.
    destruct (field_named cloud (f_sourceName ft)) as [sf|]; eexists _, _; split; done. }
  all: eexists _, _; unfold GetSource; rewrite bind_ret_l;
    rewrite (bind_defined_Some _ ft) by done; rewrite Hsource; split; [done |];
    unfold source_usable; by rewrite Hsource.
Qed.

Ltac readonly_auto :=
  repeat first
    [ apply readonly_GetSource
    | apply readonly_ret | apply readonly_throw | apply readonly_undefined
    | apply readonly_defined | apply readonly_call | apply readonly_ccLog
    | apply readonly_for_each; intros
    | apply readonly_bind; [| intros]
    | match goal with
      | |- readonly (match ?x with _ => _ end) => destruct x
      | |- readonly (if ?b then _ else _) => destruct b
      end ].

(** A read-only computation that returns does so in the state it started in. *)
Lemma readonly_Returns `{CV : OpenCV} {A} (m : M A) st a st' log :
  readonly m -> m st = Returns a st' log -> st' = st.
Proof. intros Hro Hrun. specialize (Hro st). by rewrite Hrun in Hro. Qed.

(** A loop that ran to its end ran every turn to its end. *)
Lemma for_each_ret_inr_all `{CV : OpenCV} {R T}
    (idx : list Z) (body : Z -> T -> M (R + T)) :
  (forall i s, readonly (body i s)) ->
  forall s st s' st' log,
    for_each_ret idx body s st = Returns (inr s') st' log ->
    forall j, j ∈ idx -> exists s1 s2 l, body j s1 st = Returns (inr s2) st l.
Proof.
  intros Hro. induction idx as [|i rest IH]; intros s st s' st' log Hrun j Hj;
    [by inversion Hj |].
  simpl in Hrun. apply bind_Returns in Hrun as (r & st1 & l1 & l2 & Hbody & Hrest & ->).
  pose proof (Hro i s st) as Hst. rewrite Hbody in Hst. subst st1.
  destruct r as [v | s1]; [discriminate Hrest |].
  apply elem_of_cons in Hj as [-> | Hj]; [by exists s, s1, l1 |].
  by eapply IH.
Qed.

(** When the loop of [train] over the features runs to its end, every feature
    is attached to the cloud of the build and has a usable source. *)
Lemma train_fill_data_inr `{CV : OpenCV}
    features cloud_ptr cloud trainSubset rows cols m0 st data st' log :
  train_fill_data features cloud_ptr cloud trainSubset rows cols m0 st
    = Returns (inr data) st' log ->
  forall j, 0 <= j < cols ->
    exists ft, features !! Z.to_nat j = Some (Some ft) /\
               f_cloud ft = cloud_ptr /\ source_usable ft cloud = true.
Proof.
  intros Hrun j Hj. unfold train_fill_data in Hrun.
  eapply for_each_ret_inr_all with (j := j) in Hrun as (m1 & m2 & l & Hbody);
    [| | by apply elem_of_range].
  2: { intros i m. readonly_auto. }
  apply bind_Returns in Hbody as (f & st1 & l1 & l2 & Hf & Hbody & _).
  destruct (features !! Z.to_nat j) as [f'|]; [| discriminate Hf].
  injection Hf as <- <- _.
  apply bind_Returns in Hbody as (ft & st1 & l3 & l4 & Hft & Hbody & _).
  destruct f' as [ft'|]; [| discriminate Hft]. injection Hft as <- <- _.
  exists ft'. split; [done |].
  destruct (decide (f_cloud ft' = cloud_ptr)) as [Hcloud | Hcloud].
  2: { rewrite bool_decide_false in Hbody by done. discriminate Hbody. }
  split; [done |]. rewrite bool_decide_true in Hbody by done. cbn [negb] in Hbody.
  apply bind_Returns in Hbody as (source & st1 & l5 & l6 & Hsource & Hbody & _).
  destruct (GetSource_usable ft' cloud st) as (source' & log' & Hget & Husable).
  rewrite Hget in Hsource. injection Hsource as <- <- _.
  destruct (source_usable ft' cloud); [done |].
  simpl in Husable. rewrite Husable in Hbody. discriminate Hbody.
Qed.

(** What a preparation that reaches the trainer has checked. *)
Lemma train_prepare_inr `{CV : OpenCV} features trainSubset st data labels st' log :
  train_prepare features trainSubset st = Returns (inr (data, labels)) st' log ->
  exists f0 rest a cloud classifSF l1 l2,
    let classifSFIdx := getScalarFieldIndexByName cloud LAS_CLASSIFICATION_NAME in
    let sampleCount := to_int (selected_count trainSubset cloud) in
    let attributesPerSample := to_int (Z.of_nat (length features)) in
    features = Some f0 :: rest /\ f_cloud f0 = Some a /\
    (forall ts, trainSubset = Some ts -> rc_associatedCloud ts = Some a) /\
    heap st !! a = Some (IsPointCloud cloud) /\
    classifSFIdx <> 0 /\
    getScalarField cloud classifSFIdx = Some classifSF /\
    cloud_size cloud <= ScalarField_size classifSF /\
    0 <= sampleCount /\ 0 <= attributesPerSample /\
    train_fill_labels trainSubset classifSF sampleCount (Mat_fresh sampleCount 1) st
      = Returns labels st l1 /\
    train_fill_data features (Some a) cloud trainSubset sampleCount attributesPerSample
      (Mat_fresh sampleCount attributesPerSample) st
      = Returns (inr data) st l2.
Proof.
  intros Hrun. unfold train_prepare in Hrun.
  destruct features as [|[f0|] rest]; try discriminate Hrun.
  cbn [mbind option_bind] in Hrun.
  destruct (f_cloud f0) as [a|] eqn:Hptr; [| discriminate Hrun].
  destruct (match trainSubset with Some _ => _ | None => _ end) eqn:Hcheck;
    [discriminate Hrun |].
  apply bind_Returns in Hrun as (cloud & st1 & l0 & l0' & Hderef & Hrun & _).
  unfold deref_cloud in Hderef.
  destruct (heap st !! a) as [[c|]|] eqn:Hheap; try discriminate Hderef.
  injection Hderef as <- <- _.
  destruct (_ =? 0) eqn:Hidx; [discriminate Hrun |].
  destruct (getScalarField _ _) as [classifSF|] eqn:Hfield; [| discriminate Hrun].
  destruct (ScalarField_size classifSF <? cloud_size c) eqn:Hsize; [discriminate Hrun |].
  apply bind_Returns in Hrun as (? & st1 & l3 & l4 & Hlog & Hrun & _).
  injection Hlog as _ <- _.
  change (match trainSubset with Some ts => rc_size ts | None => cloud_size c end)
    with (selected_count trainSubset c) in Hrun.
  set (sampleCount := to_int (selected_count trainSubset c)) in *.
  set (attributesPerSample := to_int (Z.of_nat (length _))) in *.
  unfold Mat_create in Hrun.
  destruct (sampleCount <? 0) eqn:Hrows; [discriminate Hrun |].
  destruct (attributesPerSample <? 0) eqn:Hcols; [discriminate Hrun |].
  cbn [orb] in Hrun.
  destruct (Mat_alloc_failure sampleCount attributesPerSample); [discriminate Hrun |].
  assert ((1 <? 0) = false) as Hone by done. rewrite Hone in Hrun.
  destruct (Mat_alloc_failure sampleCount 1); [discriminate Hrun |].
  apply bind_Returns in Hrun as (labels' & st1 & l5 & l6 & Hlabels & Hrun & _).
  pose proof (readonly_Returns _ _ _ _ _ (readonly_train_fill_labels _ _ _ _) Hlabels)
    as ->.
  apply bind_Returns in Hrun as (filled & st1 & l7 & l8 & Hdata & Hrun & _).
  pose proof (readonly_Returns _ _ _ _ _ (readonly_train_fill_data _ _ _ _ _ _ _) Hdata)
    as ->.
  destruct filled as [msg | data']; [discriminate Hrun |].
  injection Hrun as <- <- _ _.
  exists f0, rest, a, c, classifSF, l5, l7. cbv zeta.
  split_and!; try done; try lia.
  intros ts ->. by apply negb_false_iff, bool_decide_eq_true in Hcheck.
Qed.

(** X2.  What a successful [train] has checked.  When [train] returns true, the
    error message is the one it was handed, the classifier is valid, the heap
    and the files are as before, and: the feature set starts with a feature
    attached to a [ccPointCloud] of the heap, the training subset (if any)
    refers to that cloud, the cloud has a "Classification" field at an index
    above 0 that is at least as long as the cloud, and every feature is not
    null, is attached to that same cloud and has a usable source. *)
Theorem train_success_requires `{CV : OpenCV}
    params features errorMessage trainSubset st msg st' log :
  Z.of_nat (length features) <= INT_MAX ->
  train params features errorMessage trainSubset st = Returns (true, msg) st' log ->
  msg = errorMessage /\
  isValid (this st') = true /\ heap st' = heap st /\ files st' = files st /\
  exists f0 rest a cloud classifSF,
    let classifSFIdx := getScalarFieldIndexByName cloud LAS_CLASSIFICATION_NAME in
    features = Some f0 :: rest /\ f_cloud f0 = Some a /\
    heap st !! a = Some (IsPointCloud cloud) /\
    (forall ts, trainSubset = Some ts -> rc_associatedCloud ts = Some a) /\
    0 < classifSFIdx /\
    getScalarField cloud classifSFIdx = Some classifSF /\
    cloud_size cloud <= ScalarField_size classifSF /\
    forall j f, features !! j = Some f ->
      exists ft, f = Some ft /\ f_cloud ft = Some a /\ source_usable ft cloud = true.
Proof.
  intros Hlen Hrun.
  pose proof (train_success_valid _ _ _ _ _ _ _ _ Hrun) as (Hvalid & Hheap & Hfiles).
  apply train_Returns in Hrun as [(msg' & _ & Hr & _) | (data & labels & l1 & Hprep & Hrun)];
    [discriminate Hr |].
  assert (Hmsg : msg = errorMessage).
  { pose proof (train_run_unfold params data labels errorMessage st) as Hunfold.
    simpl in Hunfold. rewrite Hunfold in Hrun.
    destruct (RTrees_train _ _ _) as [[[? | ? |] |] trained]; try discriminate Hrun.
    destruct (isTrained trained); [| discriminate Hrun]. by injection Hrun as <- _. }
  split_and!; try done.
  apply train_prepare_inr
    in Hprep as (f0 & rest & a & cloud & classifSF & l2 & l3 & Hprep).
  cbv zeta in Hprep.
  destruct Hprep as (-> & Hptr & Hsubset & Hcloud & Hidx & Hfield & Hsize & _ & _ & _ & Hdata).
  exists f0, rest, a, cloud, classifSF. cbv zeta. split_and!; try done.
  - unfold getScalarField in Hfield. case_match eqn:Hb; [| discriminate Hfield]. lia.
  - intros j f Hf.
    pose proof (lookup_lt_Some _ _ _ Hf) as Hj.
    unfold Feature_Set, Feature_Shared in *.
    rewrite (to_int_small (Z.of_nat _)) in Hdata by lia.
    destruct (train_fill_data_inr _ _ _ _ _ _ _ _ _ _ _ Hdata (Z.of_nat j))
      as (ft & Hft & Hcl & Hus); [lia |].
    rewrite Nat2Z.id in Hft. exists ft.
    assert (Some f = Some (Some ft)) as [= ->] by (by rewrite <- Hf, <- Hft).
    done.
Qed.

(** An instance: training on the demo subset with the "Intensity" feature. *)
Lemma train_success_requires_witness :
  train (CV := toyCV) demo_params [Some (demo_feature 1)] "" (Some demo_subset)
      (demo_state Classifier_new)
    = Returns (true, "") trained_state
        [Print "[3DMASC] Training data: 10 samples with 1 feature(s)"] /\
  source_usable (demo_feature 1) demo_cloud = true.
Proof.
  assert (Hrun : train (CV := toyCV) demo_params [Some (demo_feature 1)] ""
                   (Some demo_subset) (demo_state Classifier_new)
                 = Returns (true, "") trained_state
                     [Print "[3DMASC] Training data: 10 samples with 1 feature(s)"])
    by (vm_compute; reflexivity).
  split; [exact Hrun |].
  destruct (train_success_requires (CV := toyCV) demo_params [Some (demo_feature 1)] ""
              (Some demo_subset) _ _ _ _ ltac:(by vm_compute) Hrun)
    as (_ & _ & _ & _ & f0 & rest & a & cloud & classifSF & Hfeatures & Hptr & Hheap
        & _ & _ & _ & _ & Hall).
  injection Hfeatures as <- <-. injection Hptr as <-.
  assert (Hcloud : heap (demo_state Classifier_new) !! 1%nat = Some (IsPointCloud demo_cloud))
    by (vm_compute; reflexivity).
  rewrite Hcloud in Hheap. injection Hheap as <-.
  destruct (Hall 0%nat _ eq_refl) as (ft & Hft & _ & Husable).
  injection Hft as <-. exact Husable.
Defined.

(** From the creation of the forest on, [train] always returns. *)
Lemma train_run_returns `{CV : OpenCV} params training_data train_labels errorMessage st :
  exists r st', train_run params training_data train_labels errorMessage st
                = Returns r st' [].
Proof.
  pose proof (train_run_unfold params training_data train_labels errorMessage st) as Hunfold.
  simpl in Hunfold. rewrite Hunfold.
  destruct (RTrees_train _ _ _) as [[[? | ? |] |] trained]; try by eexists _, _.
  destruct (isTrained trained); by eexists _, _.
Qed.

(** A usable source is what [GetSource] resolves the feature to, and it is
    valid. *)
Lemma GetSource_usable_valid `{CV : OpenCV} ft cloud st :
  source_usable ft cloud = true ->
  exists w log, GetSource (Some ft) cloud st = Returns (Some w) st log /\
                wrapper_isValid w = true.
Proof.
  intros Husable.
  destruct (GetSource_usable ft cloud st) as (source & log & Hget & Hsource).
  rewrite Husable in Hsource. unfold source_unusable in Hsource.
  destruct source as [w|]; [| discriminate Hsource].
  exists w, log. split; [done |]. by apply negb_false_iff.
Qed.

(** X3.  Once its preconditions hold, [train] reaches the trainer and answers
    what the trainer makes of the samples: if the first feature is attached to
    a [ccPointCloud] of the heap to which the subset (if any) refers, the
    "Classification" field exists at an index other than 0 and covers the
    cloud, the sizes fit an [int], the two matrices can be allocated, the
    selected indexes are points of the cloud with classes that convert to
    [int], and every feature is attached to that cloud with a usable source,
    then [train] returns the very result, in the very state, that the part of
    [train] from the creation of the forest on yields on the sample matrix of
    the features and the label vector of the classes. *)
Theorem train_reaches_trainer `{CV : OpenCV}
    params f0 rest a cloud subset classifSF errorMessage st :
  let features := Some f0 :: rest in
  let rows := selected_count subset cloud in
  let cols := Z.of_nat (length features) in
  let classifSFIdx := getScalarFieldIndexByName cloud LAS_CLASSIFICATION_NAME in
  f_cloud f0 = Some a ->
  heap st !! a = Some (IsPointCloud cloud) ->
  (forall ts, subset = Some ts -> rc_associatedCloud ts = Some a) ->
  classifSFIdx <> 0 ->
  getScalarField cloud classifSFIdx = Some classifSF ->
  cloud_size cloud <= ScalarField_size classifSF ->
  rows <= INT_MAX -> cols <= INT_MAX -> cloud_size cloud <= INT_MAX ->
  Mat_alloc_failure rows cols = None -> Mat_alloc_failure rows 1 = None ->
  colors_cover_points cloud ->
  (forall i p, 0 <= i < rows -> selected_index subset i = Some p ->
               0 <= p < cloud_size cloud) ->
  (forall i, 0 <= i < rows -> is_Some (sample_class subset classifSF i)) ->
  (forall j f, features !! j = Some f ->
     exists ft, f = Some ft /\ f_cloud ft = Some a /\ source_usable ft cloud = true) ->
  exists training_data train_labels r st' log,
    is_sample_matrix features cloud subset st training_data /\
    mat_rows train_labels = rows /\ mat_cols train_labels = 1 /\
    (forall i, 0 <= i < rows ->
       Mat_at train_labels i 0
       = (fun c => float_of_Z (to_uchar c)) <$> sample_class subset classifSF i) /\
    train_run params training_data train_labels errorMessage st = Returns r st' [] /\
    train params features errorMessage subset st = Returns r st' log.
Proof.
  intros features rows cols classifSFIdx Hptr Hheap Hsubset Hidx Hfield Hlong
    Hrows Hcols Hcloud Halloc1 Halloc2 Hcolors Hindexes Hclasses Hfeatures.
  destruct (train_prepare_builds f0 rest a cloud subset classifSF st)
    as (data & labels & log & Hprep & Hmatrix & Hlr & Hlc & Hcells); try done.
  { intros j f Hf. destruct (Hfeatures j f Hf) as (ft & -> & Hft & Husable).
    split; [by exists ft |]. by apply GetSource_usable_valid. }
  destruct (train_run_returns params data labels errorMessage st) as (r & st' & Hrun).
  exists data, labels, r, st', (log ++ []). split_and!; try done.
  unfold train. eapply bind_Returns_intro; [exact Hprep | exact Hrun].
Qed.

(** An instance: training on two points of the demo cloud. *)
Lemma train_reaches_trainer_witness :
  exists log,
    train (CV := toyCV) demo_params [Some (demo_feature 1)] "" (Some pair_subset)
        (demo_state Classifier_new)
      = Returns (true, "")
          (demo_state
             (@Build_Classifier toyCV
                (Some {| toy_maxDepth := 25;
                         toy_samples := [([float_of_Z 9], float_of_Z 1);
                                         ([float_of_Z 1], float_of_Z 0)] |})))
          log.
Proof.
  destruct (train_reaches_trainer (CV := toyCV) demo_params (demo_feature 1) [] 1%nat
              demo_cloud (Some pair_subset)
              {| sf_name := "Classification";
                 sf_values := float_of_Z <$> [0; 0; 0; 1; 1; 1; 1; 0; 0; 1] |}
              "" (demo_state Classifier_new))
    as (data & labels & r & st' & log & _ & _ & _ & _ & _ & Htrain).
  - reflexivity.
  - vm_compute. reflexivity.
  - intros ts [= <-]. reflexivity.
  - vm_compute. discriminate.
  - vm_compute. reflexivity.
  - vm_compute. discriminate.
  - vm_compute. discriminate.
  - vm_compute. discriminate.
  - vm_compute. discriminate.
  - vm_compute. reflexivity.
  - vm_compute. reflexivity.
  - intros cols Hcols. discriminate Hcols.
  - intros i p Hi. assert (i = 0 \/ i = 1) as [-> | ->] by (change (0 <= i < 2) in Hi; lia);
      intros [= <-]; vm_compute; (split; [discriminate | reflexivity]).
  - intros i Hi. assert (i = 0 \/ i = 1) as [-> | ->] by (change (0 <= i < 2) in Hi; lia);
      vm_compute; by eexists.
  - intros j f Hf. destruct j as [|j]; [| by destruct j].
    injection Hf as <-. exists (demo_feature 1). split_and!; reflexivity.
  - exists log. rewrite Htrain. symmetry.
    assert (Hrun : train (CV := toyCV) demo_params [Some (demo_feature 1)] ""
              (Some pair_subset) (demo_state Classifier_new)
            = Returns (true, "")
          (demo_state
             (@Build_Classifier toyCV
                (Some {| toy_maxDepth := 25;
                         toy_samples := [([float_of_Z 9], float_of_Z 1);
                                         ([float_of_Z 1], float_of_Z 0)] |})))
          [Print "[3DMASC] Training data: 2 samples with 1 feature(s)"])
      by (vm_compute; reflexivity).
    rewrite Hrun in Htrain. injection Htrain as <- <- <-. reflexivity.
Defined.

(** When the loop of [evaluate] over the features runs to its end, no feature
    is null and every source is usable. *)
Lemma evaluate_fill_data_inr `{CV : OpenCV}
    features cloud testSubset cols m0 errorMessage st data st' log :
  evaluate_fill_data features cloud testSubset cols m0 errorMessage st
    = Returns (inr data) st' log ->
  forall j, 0 <= j < cols ->
    exists ft, features !! Z.to_nat j = Some (Some ft) /\ source_usable ft cloud = true.
Proof.
  intros Hrun j Hj. unfold evaluate_fill_data in Hrun.
  eapply for_each_ret_inr_all with (j := j) in Hrun as (m1 & m2 & l & Hbody);
    [| | by apply elem_of_range].
  2: { intros i m. readonly_auto. }
  apply bind_Returns in Hbody as (f & st1 & l1 & l2 & Hf & Hbody & _).
  destruct (features !! Z.to_nat j) as [f'|]; [| discriminate Hf].
  injection Hf as <- <- _.
  destruct f' as [ft|]; [| discriminate Hbody].
  exists ft. split; [done |].
  apply bind_Returns in Hbody as (source & st1 & l5 & l6 & Hsource & Hbody & _).
  destruct (GetSource_usable ft cloud st) as (source' & log' & Hget & Husable).
  rewrite Hget in Hsource. injection Hsource as <- <- _.
  destruct (source_usable ft cloud); [done |].
  simpl in Husable. rewrite Husable in Hbody. discriminate Hbody.
Qed.

(** X4.  What a successful [evaluate] has checked.  When [evaluate] returns
    true, the error message is the one it was handed, the classifier is valid,
    the feature set is not empty, the test subset is not null and refers to a
    [ccPointCloud] of the heap that has a "Classification" field at an index
    above 0, at least as long as the cloud, and every feature is not null and
    has a usable source on that cloud.  Nothing is required of the clouds the
    features are attached to. *)
Theorem evaluate_success_requires `{CV : OpenCV}
    features testSubset metrics errorMessage st metrics' msg st' log :
  Z.of_nat (length features) <= INT_MAX ->
  evaluate features testSubset metrics errorMessage st
    = Returns (true, metrics', msg) st' log ->
  msg = errorMessage /\ isValid (this st) = true /\ features <> [] /\
  exists ts a cloud classifSF,
    let classifSFIdx := getScalarFieldIndexByName cloud LAS_CLASSIFICATION_NAME in
    testSubset = Some ts /\ rc_associatedCloud ts = Some a /\
    heap st !! a = Some (IsPointCloud cloud) /\
    0 < classifSFIdx /\
    getScalarField cloud classifSFIdx = Some classifSF /\
    cloud_size cloud <= ScalarField_size classifSF /\
    forall j f, features !! j = Some f ->
      exists ft, f = Some ft /\ source_usable ft cloud = true.
Proof.
  intros Hlen Hrun. unfold evaluate in Hrun.
  apply bind_Returns in Hrun as (rtrees & st1 & l1 & l2 & Hget & Hrun & _).
  injection Hget as <- <- _.
  unfold isValid.
  destruct (m_rtrees (this st)) as [rtrees|]; [| discriminate Hrun].
  destruct (isTrained rtrees) eqn:Htrained; [| discriminate Hrun]. cbn [negb] in Hrun.
  destruct features as [|f0 rest] eqn:Hfeatures; [discriminate Hrun |].
  rewrite <- Hfeatures in Hrun, Hlen.
  destruct testSubset as [ts|]; [| discriminate Hrun].
  apply bind_Returns in Hrun as (cloud & st1 & l3 & l4 & Hcast & Hrun & _).
  unfold dynamic_cast_cloud in Hcast.
  destruct (rc_associatedCloud ts) as [a|] eqn:Hptr.
  2: { injection Hcast as <- <- _. discriminate Hrun. }
  destruct (heap st !! a) as [[c|]|] eqn:Hheap; try discriminate Hcast.
  2: { injection Hcast as <- <- _. discriminate Hrun. }
  injection Hcast as <- <- _.
  destruct (getScalarFieldIndexByName c LAS_CLASSIFICATION_NAME =? 0) eqn:Hidx;
    [discriminate Hrun |].
  destruct (getScalarField _ _) as [classifSF|] eqn:Hfield; [| discriminate Hrun].
  destruct (ScalarField_size classifSF <? cloud_size c) eqn:Hsize; [discriminate Hrun |].
  apply bind_Returns in Hrun as (? & st1 & l5 & l6 & Hlog & Hrun & _).
  injection Hlog as _ <- _.
  destruct (Mat_create _ _) as [? | test_data]; [discriminate Hrun |].
  apply bind_Returns in Hrun as (filled & st1 & l7 & l8 & Hdata & Hrun & _).
  pose proof (readonly_Returns _ _ _ _ _ (readonly_evaluate_fill_data _ _ _ _ _ _) Hdata)
    as ->.
  destruct filled as [? | data]; [discriminate Hrun |].
  apply bind_Returns in Hrun as (m & st1 & l9 & l10 & _ & Hrun & _).
  injection Hrun as _ <- _ _.
  split_and!; try done. rewrite <- Hfeatures.
  exists ts, a, c, classifSF. cbv zeta. split_and!; try done; try lia.
  - unfold getScalarField in Hfield. case_match eqn:Hb; [| discriminate Hfield]. lia.
  - intros j f Hf.
    pose proof (lookup_lt_Some _ _ _ Hf) as Hj.
    unfold Feature_Set, Feature_Shared in *.
    rewrite (to_int_small (Z.of_nat _)) in Hdata by lia.
    destruct (evaluate_fill_data_inr _ _ _ _ _ _ _ _ _ _ Hdata (Z.of_nat j))
      as (ft & Hft & Hus); [lia |].
    rewrite Nat2Z.id in Hft. exists ft.
    assert (Some f = Some (Some ft)) as [= ->] by (by rewrite <- Hf, <- Hft).
    done.
Qed.

(** An instance: the evaluation of the demo forest with a feature attached to
    the cloud at address 2. *)
Lemma evaluate_success_requires_witness :
  evaluate (CV := toyCV) [Some (demo_feature 2)] (Some demo_subset) zero_metrics ""
      trained_state
    = Returns (true, {| sampleCount := 10; goodGuess := 10; ratio := float_of_Z 1 |}, "")
        trained_state
        [Print "[3DMASC] Testing data: 10 samples with 1 feature(s)"] /\
  isValid (this trained_state) = true.
Proof.
  assert (Hrun : evaluate (CV := toyCV) [Some (demo_feature 2)] (Some demo_subset)
                   zero_metrics "" trained_state
                 = Returns (true, {| sampleCount := 10; goodGuess := 10;
                                     ratio := float_of_Z 1 |}, "")
                     trained_state
                     [Print "[3DMASC] Testing data: 10 samples with 1 feature(s)"])
    by (vm_compute; reflexivity).
  split; [exact Hrun |].
  exact (proj1 (proj2 (evaluate_success_requires (CV := toyCV) [Some (demo_feature 2)]
                         (Some demo_subset) zero_metrics "" trained_state _ _ _ _
                         ltac:(by vm_compute) Hrun))).
Defined.

(** One more turn of a counting loop. *)
Lemma range_succ (n : Z) : 0 <= n -> range (n + 1) = range n ++ [n].
Proof.
  intros Hn. unfold range. replace (Z.to_nat (n + 1)) with (S (Z.to_nat n)) by lia.
  rewrite seq_S, fmap_app. simpl. by rewrite Z2Nat.id.
Qed.

(** The loop of [evaluate] over the test points counts the points whose
    predicted class is their stored class. *)
Lemma evaluate_metrics_counts `{CV : OpenCV} rtrees classifSF testSubset test_data st :
  rc_size testSubset <= INT_MAX ->
  (forall i, 0 <= i < rc_size testSubset ->
     is_Some (sample_class (Some testSubset) classifSF i)) ->
  (forall i, 0 <= i < rc_size testSubset ->
     is_Some (predicted_class rtrees test_data i)) ->
  exists log,
    evaluate_metrics rtrees classifSF testSubset test_data st
    = Returns
        {| sampleCount := rc_size testSubset;
           goodGuess := good_guesses rtrees testSubset classifSF test_data;
           ratio := float_div
                      (float_of_Z (good_guesses rtrees testSubset classifSF test_data))
                      (float_of_Z (rc_size testSubset)) |}
        st log.
Proof.
  intros Hsize Hclasses Hpredicted. unfold evaluate_metrics, good_guesses.
  set (P := fun i => predicted_class rtrees test_data i
                     = sample_class (Some testSubset) classifSF i).
  set (count := fun k => Z.of_nat (length (filter P (range k)))).
  match goal with
  | |- context [for_each _ ?body 0] =>
      destruct (for_each_range_invariant (rc_size testSubset) body
                  (fun k good => good = count k /\ 0 <= good <= k) 0 st)
        as (good & log & Hloop & Hgood & _)
  end.
  - unfold rc_size. lia.
  - split; [done | lia].
  - intros i good Hi [-> Hbound].
    destruct (Hclasses i Hi) as [c Hc]. destruct (Hpredicted i Hi) as [c' Hc'].
    pose proof Hc as Hclass. pose proof Hc' as Hguess.
    unfold sample_class, selected_index in Hc.
    destruct (getPointGlobalIndex testSubset i) as [p|] eqn:Hp; [| discriminate Hc].
    simpl in Hc.
    destruct (ScalarField_getValue classifSF p) as [v|] eqn:Hv; [| discriminate Hc].
    simpl in Hc.
    unfold predicted_class in Hc'.
    destruct (Mat_row test_data i) as [row|] eqn:Hrow; [| discriminate Hc'].
    simpl in Hc'.
    destruct (predict rtrees row) as [e | v'] eqn:Hpred; [discriminate Hc' |].
    exists (if c' =? c then count i + 1 else count i), []. split.
    + rewrite (bind_defined_Some _ p) by done.
      rewrite (bind_defined_Some _ v) by done.
      rewrite (bind_defined_Some _ c) by done.
      rewrite to_int_small by lia.
      rewrite (bind_defined_Some _ row) by done.
      rewrite Hpred. unfold call. rewrite bind_ret_l.
      rewrite (bind_defined_Some _ c') by done.
      rewrite to_unsigned_small by lia. reflexivity.
    + assert (Hstep : count (i + 1) = count i + (if decide (P i) then 1 else 0)).
      { unfold count. rewrite range_succ by lia.
        rewrite filter_app, length_app, filter_cons, filter_nil.
        destruct (decide (P i)); simpl; lia. }
      rewrite Hstep.
      destruct (Z.eqb_spec c' c) as [-> | Hne].
      * rewrite decide_True by (unfold P; congruence). lia.
      * rewrite decide_False by (unfold P; congruence). lia.
  - exists (log ++ []). subst good. eapply bind_Returns_intro; [exact Hloop | reflexivity].
Qed.

(** X5.  Once its preconditions hold, [evaluate] succeeds and counts the good
    guesses: for a trained model that answers every one-row query with a
    number that converts to [int], a test subset of a [ccPointCloud] of the
    heap whose "Classification" field (at an index other than 0) covers the
    cloud, sizes that fit an [int], a matrix that can be allocated, indexes
    that are points of the cloud with classes that convert to [int], and
    features that are not null and have usable sources, [evaluate] returns
    true without touching the state or the error message; the sample count is
    the size of the subset, [goodGuess] is the number of rows of the sample
    matrix whose predicted class is the stored class of the point, and the
    ratio is the quotient of the two. *)
Theorem evaluate_counts_good_guesses `{CV : OpenCV}
    rtrees f0 rest ts a cloud classifSF metrics errorMessage st :
  let features := f0 :: rest in
  let rows := rc_size ts in
  let cols := Z.of_nat (length features) in
  let classifSFIdx := getScalarFieldIndexByName cloud LAS_CLASSIFICATION_NAME in
  m_rtrees (this st) = Some rtrees -> isTrained rtrees = true ->
  rc_associatedCloud ts = Some a ->
  heap st !! a = Some (IsPointCloud cloud) ->
  classifSFIdx <> 0 ->
  getScalarField cloud classifSFIdx = Some classifSF ->
  cloud_size cloud <= ScalarField_size classifSF ->
  rows <= INT_MAX -> cols <= INT_MAX ->
  Mat_alloc_failure rows cols = None ->
  colors_cover_points cloud ->
  (forall i p, 0 <= i < rows -> getPointGlobalIndex ts i = Some p ->
               0 <= p < cloud_size cloud) ->
  (forall i, 0 <= i < rows -> is_Some (sample_class (Some ts) classifSF i)) ->
  (forall j f, features !! j = Some f ->
     exists ft, f = Some ft /\ source_usable ft cloud = true) ->
  (forall row, exists predictedClass,
     predict rtrees {| mat_rows := 1; mat_cols := cols; mat_data := [row] |}
       = inr predictedClass /\
     is_Some (float_to_int predictedClass)) ->
  exists test_data log,
    is_sample_matrix features cloud (Some ts) st test_data /\
    evaluate features (Some ts) metrics errorMessage st
    = Returns
        (true,
         {| sampleCount := rows;
            goodGuess := good_guesses rtrees ts classifSF test_data;
            ratio := float_div (float_of_Z (good_guesses rtrees ts classifSF test_data))
                       (float_of_Z rows) |},
         errorMessage)
        st log.
Proof.
  intros features rows cols classifSFIdx Hmodel Htrained Hptr Hheap Hidx Hfield Hlong
    Hrows Hcols Halloc Hcolors Hindexes Hclasses Hfeatures Hpredict.
  assert (Hrows0 : 0 <= rows) by (unfold rows, rc_size; lia).
  assert (Hcols0 : 0 <= cols) by (subst cols; lia).
  destruct (evaluate_fill_data_builds features cloud st (Some ts) Hrows Hcolors)
    with (testSubset := ts) (errorMessage := errorMessage)
    as (test_data & l1 & Hfill & Hmatrix); [exact Hindexes | | done |].
  { intros j f Hf. destruct (Hfeatures j f Hf) as (ft & -> & Husable).
    by apply GetSource_usable_valid. }
  assert (Hpredicted : forall i, 0 <= i < rc_size ts ->
            is_Some (predicted_class rtrees test_data i)).
  { intros i Hi. destruct Hmatrix as (Hmr & Hmc & Hcells).
    destruct (Hfeatures 0%nat f0 eq_refl) as (ft & -> & Husable).
    destruct (GetSource_usable_valid ft cloud st Husable) as (w & lw & Hget & _).
    destruct (selected_index_is_Some (Some ts) cloud i Hi) as [p Hp].
    destruct (Hcells i 0%nat p (Some ft) w lw Hi Hp eq_refl Hget) as [[v Hv] Hat].
    rewrite Hv in Hat. unfold Mat_at in Hat.
    assert ((0 <=? i) && (0 <=? Z.of_nat 0) = true) as Hb
      by (apply andb_true_intro; split; [lia | done]).
    rewrite Hb in Hat.
    destruct (mat_data test_data !! Z.to_nat i) as [row|] eqn:Hrow; [| discriminate Hat].
    unfold predicted_class, Mat_row.
    assert ((0 <=? i) && (i <? mat_rows test_data) = true) as ->.
    { apply andb_true_intro. simpl in Hmr. lia. }
    rewrite Hrow. simpl. rewrite Hmc.
    destruct (Hpredict row) as (v' & Hv' & Hint). unfold cols in Hv'.
    rewrite Hv'. exact Hint. }
  destruct (evaluate_metrics_counts rtrees classifSF ts test_data st Hrows Hclasses
              Hpredicted) as (l2 & Hmetrics).
  exists test_data. eexists. split; [exact Hmatrix |].
  unfold evaluate. eapply bind_Returns_intro; [reflexivity |].
  rewrite Hmodel, Htrained. cbn [negb]. subst features. cbv iota.
  eapply bind_Returns_intro.
  { unfold dynamic_cast_cloud. by rewrite Hptr, Hheap. }
  cbv iota. fold classifSFIdx. assert ((classifSFIdx =? 0) = false) as -> by lia.
  rewrite Hfield.
  assert ((ScalarField_size classifSF <? cloud_size cloud) = false) as -> by lia.
  eapply bind_Returns_intro; [reflexivity |].
  change (Z.of_nat (length (f0 :: rest))) with cols.
  fold rows. rewrite !to_int_small by lia.
  unfold Mat_create.
  assert ((rows <? 0) = false) as -> by lia.
  assert ((cols <? 0) = false) as -> by lia.
  cbn [orb]. rewrite Halloc.
  eapply bind_Returns_intro; [exact Hfill |].
  eapply bind_Returns_intro; [exact Hmetrics | reflexivity].
Qed.

(** An instance: the demo forest evaluated on two points of the demo cloud. *)
Lemma evaluate_counts_good_guesses_witness :
  exists log,
    evaluate (CV := toyCV) [Some (demo_feature 1)] (Some pair_subset) zero_metrics ""
        trained_state
      = Returns (true, {| sampleCount := 2; goodGuess := 2; ratio := float_of_Z 1 |}, "")
          trained_state log.
Proof.
  destruct (evaluate_counts_good_guesses (CV := toyCV) demo_forest
              (Some (demo_feature 1)) [] pair_subset 1%nat demo_cloud
              {| sf_name := "Classification";
                 sf_values := float_of_Z <$> [0; 0; 0; 1; 1; 1; 1; 0; 0; 1] |}
              zero_metrics "" trained_state)
    as (test_data & log & _ & Hrun).
  - reflexivity.
  - reflexivity.
  - reflexivity.
  - vm_compute. reflexivity.
  - vm_compute. discriminate.
  - vm_compute. reflexivity.
  - vm_compute. discriminate.
  - vm_compute. discriminate.
  - vm_compute. discriminate.
  - vm_compute. reflexivity.
  - intros cols Hcols. discriminate Hcols.
  - intros i p Hi. assert (i = 0 \/ i = 1) as [-> | ->] by (change (0 <= i < 2) in Hi; lia);
      intros [= <-]; vm_compute; (split; [discriminate | reflexivity]).
  - intros i Hi. assert (i = 0 \/ i = 1) as [-> | ->] by (change (0 <= i < 2) in Hi; lia);
      vm_compute; by eexists.
  - intros j f Hf. destruct j as [|j]; [| by destruct j].
    injection Hf as <-. exists (demo_feature 1). split; reflexivity.
  - intros row.
    assert (Hlabels : forallb (fun s : list float * float =>
                                 bool_decide (is_Some (float_to_int (snd s))))
                        (toy_samples demo_forest) = true) by (vm_compute; reflexivity).
    change (exists predictedClass,
              toy_predict demo_forest
                {| mat_rows := 1; mat_cols := 1; mat_data := [row] |} = inr predictedClass /\
              is_Some (float_to_int predictedClass)).
    unfold toy_predict. cbn [mat_data].
    destruct (List.find _ _) as [s|] eqn:Hfind.
    + exists (snd s). split; [reflexivity |].
      apply find_some in Hfind as [Hin _].
      rewrite forallb_forall in Hlabels.
      exact (proj1 (bool_decide_eq_true _) (Hlabels s Hin)).
    + exists (S754_zero false). split; [reflexivity |]. vm_compute. by eexists.
  - exists log.
    assert (Hc : evaluate (CV := toyCV) [Some (demo_feature 1)] (Some pair_subset)
                   zero_metrics "" trained_state
                 = Returns (true, {| sampleCount := 2; goodGuess := 2;
                                     ratio := float_of_Z 1 |}, "")
                     trained_state
                     [Print "[3DMASC] Testing data: 2 samples with 1 feature(s)"])
      by (vm_compute; reflexivity).
    pose proof (eq_trans (eq_sym Hrun) Hc) as Heq.
    injection Heq as _ _ ->. exact Hc.
Defined.

(** The dereference of a cloud pointer reads the heap only. *)
Lemma sim_deref_cloud `{CV : OpenCV} (a : nat) : sim eq (deref_cloud a) (deref_cloud a).
Proof.
  intros st1 st2 Hheap. unfold deref_cloud. rewrite Hheap.
  by destruct (heap st2 !! a) as [[]|].
Qed.

(** Related [return]-or-continue results are equal results. *)
Lemma sim_sum_eq `{CV : OpenCV} {A B} (m1 m2 : M (A + B)) :
  sim (sum_rel eq eq) m1 m2 -> sim eq m1 m2.
Proof.
  intros Hsim st1 st2 Hheap. specialize (Hsim st1 st2 Hheap). unfold related, sum_rel in *.
  destruct (m1 st1) as [[a1 | b1] ? ? | |], (m2 st2) as [[a2 | b2] ? ? | |];
    try done; try (by destruct Hsim); by destruct Hsim as [-> ?].
Qed.

Ltac sim_auto :=
  repeat first
    [ apply sim_defined | apply sim_call | apply sim_ccLog | apply sim_deref_cloud
    | apply sim_throw | apply sim_undefined
    | apply sim_GetSource, same_source_refl
    | by apply sim_ret
    | apply sim_for_each; [intros ? ? ? <- | done]
    | eapply sim_bind with (R := eq); [| intros ? ? <-]
    | match goal with
      | |- sim _ (match ?x with _ => _ end) _ => destruct x
      | |- sim _ (if ?b then _ else _) _ => destruct b
      end ].

(** The preparation of [train] reads the heap only. *)
Lemma sim_train_prepare `{CV : OpenCV} features trainSubset :
  sim eq (train_prepare features trainSubset) (train_prepare features trainSubset).
Proof.
  unfold train_prepare.
  destruct features as [|front rest]; [by apply sim_ret |].
  destruct (front ≫= f_cloud) as [a|]; [| by apply sim_ret].
  destruct (match trainSubset with Some _ => _ | None => _ end); [by apply sim_ret |].
  eapply sim_bind with (R := eq); [apply sim_deref_cloud |]. intros cloud ? <-.
  destruct (getScalarFieldIndexByName cloud LAS_CLASSIFICATION_NAME =? 0);
    [by apply sim_ret |].
  destruct (getScalarField _ _) as [classifSF|]; [| by apply sim_ret].
  destruct (ScalarField_size classifSF <? cloud_size cloud); [by apply sim_ret |].
  eapply sim_bind with (R := eq); [apply sim_ccLog |]. intros ? ? _.
  destruct (Mat_create _ _) as [? | training_data]; [by apply sim_ret |].
  destruct (Mat_create _ 1) as [? | train_labels]; [by apply sim_ret |].
  eapply sim_bind with (R := eq).
  { unfold train_fill_labels. sim_auto. }
  intros labels ? <-.
  eapply sim_bind with (R := eq); [| intros ? ? <-; sim_auto].
  unfold train_fill_data. apply sim_sum_eq.
  apply sim_for_each_ret; [| done]. intros fIndex m ? <-.
  eapply sim_bind with (R := eq); [apply sim_defined |]. intros f ? <-.
  eapply sim_bind with (R := eq); [apply sim_defined |]. intros ft ? <-.
  destruct (negb _); [by apply sim_ret |].
  eapply sim_bind with (R := eq); [apply sim_GetSource, same_source_refl |].
  intros source ? <-.
  destruct (source_unusable source); [by apply sim_ret |].
  eapply sim_bind with (R := eq); [apply sim_defined |]. intros w ? <-.
  eapply sim_bind with (R := eq); [| intros ? ? <-; by apply sim_ret].
  sim_auto.
Qed.

(** X6.  [train] does not look at the model the classifier holds: run on two
    states with the same heap (whatever their models and files), it returns
    the same success flag and error message, leaves the heap and the files of
    each state as they were, and, when it succeeds, leaves the same model in
    both. *)
Theorem train_forgets_previous_model `{CV : OpenCV}
    params features errorMessage trainSubset st1 st2 r st1' log1 :
  heap st1 = heap st2 ->
  train params features errorMessage trainSubset st1 = Returns r st1' log1 ->
  exists st2' log2,
    train params features errorMessage trainSubset st2 = Returns r st2' log2 /\
    heap st2' = heap st2 /\ files st2' = files st2 /\
    (fst r = true -> this st2' = this st1').
Proof.
  intros Hheap Hrun.
  pose proof (sim_train_prepare features trainSubset st1 st2 Hheap) as Hsim.
  pose proof (readonly_train_prepare features trainSubset st2) as Hro.
  apply train_Returns in Hrun
    as [(msg & Hprep & -> & ->) | (data & labels & l1 & Hprep & Hrun)].
  - rewrite Hprep in Hsim. unfold related in Hsim.
    destruct (train_prepare features trainSubset st2) as [p2 s2 l2 | |] eqn:Hprep2;
      try contradiction.
    destruct Hsim as [<- _]. subst s2.
    exists st2, (l2 ++ []). split_and!; try done.
    unfold train. eapply bind_Returns_intro; [exact Hprep2 | reflexivity].
  - rewrite Hprep in Hsim. unfold related in Hsim.
    destruct (train_prepare features trainSubset st2) as [p2 s2 l2 | |] eqn:Hprep2;
      try contradiction.
    destruct Hsim as [<- _]. subst s2.
    pose proof (train_run_unfold params data labels errorMessage st1) as Hrun1.
    pose proof (train_run_unfold params data labels errorMessage st2) as Hrun2.
    simpl in Hrun1, Hrun2. rewrite Hrun1 in Hrun.
    destruct (RTrees_train _ _ _) as [[[? | ? |] |] trained];
      try destruct (isTrained trained);
      injection Hrun as <- <-;
      (eexists _, (l2 ++ []); split;
       [ unfold train; eapply bind_Returns_intro; [exact Hprep2 | exact Hrun2]
       | done ]).
Qed.

(** An instance: training a fresh classifier and retraining a trained one. *)
Lemma train_forgets_previous_model_witness :
  exists log,
    train (CV := toyCV) demo_params [Some (demo_feature 1)] "" (Some demo_subset)
        trained_state
      = Returns (true, "") trained_state log.
Proof.
  assert (Hrun : train (CV := toyCV) demo_params [Some (demo_feature 1)] ""
                   (Some demo_subset) (demo_state Classifier_new)
                 = Returns (true, "") trained_state
                     [Print "[3DMASC] Training data: 10 samples with 1 feature(s)"])
    by (vm_compute; reflexivity).
  destruct (train_forgets_previous_model (CV := toyCV) demo_params
              [Some (demo_feature 1)] "" (Some demo_subset) (demo_state Classifier_new)
              trained_state (true, "") trained_state _ eq_refl Hrun) as (st2' & log2 & Hagain & Hheap & Hfiles & Hmodel).
  exists log2. rewrite Hagain. f_equal.
  destruct st2' as [c h f]. simpl in Hheap, Hfiles, Hmodel.
  rewrite Hheap, Hfiles, (Hmodel eq_refl). reflexivity.
Defined.

(** ** The error messages *)

(** A value that had to exist is the value there was. *)
Lemma post_defined `{CV : OpenCV} {A} (o : option A) : post (defined o) (fun a => o = Some a).
Proof. destruct o as [a|]; [by apply post_ret | apply post_undefined]. Qed.

(** What a loop returns with, a turn of it returns with. *)
Lemma post_for_each_ret_inl `{CV : OpenCV} {R T} (idx : list Z)
    (body : Z -> T -> M (R + T)) (Q : R -> Prop) :
  (forall i s, post (body i s) (fun r => match r with inl v => Q v | inr _ => True end)) ->
  forall s,
    post (for_each_ret idx body s) (fun r => match r with inl v => Q v | inr _ => True end).
Proof.
  intros Hbody. induction idx as [|i rest IH]; intros s; simpl.
  - by apply post_ret.
  - eapply post_bind_with; [apply Hbody |].
    intros [v | s'] Hr; [by apply post_ret | apply IH].
Qed.

(** The messages the loop of [evaluate] over the features leaves with. *)
Lemma evaluate_fill_data_messages `{CV : OpenCV}
    features cloud testSubset cols test_data errorMessage :
  post (evaluate_fill_data features cloud testSubset cols test_data errorMessage)
    (fun r => match r with
              | inl msg =>
                  (exists ft, Some ft ∈ features /\ source_usable ft cloud = false /\
                              msg = invalid_source_message ft) \/
                  (None ∈ features /\ msg = errorMessage)
              | inr _ => True
              end).
Proof.
  unfold evaluate_fill_data. apply post_for_each_ret_inl. intros fIndex m.
  eapply post_bind_with; [apply post_defined |]. intros f Hf. cbv beta in Hf.
  apply list_elem_of_lookup_2 in Hf.
  destruct f as [ft|]; [| apply post_ret; by right].
  intros st r st' log Hrun.
  apply bind_Returns in Hrun as (source & st1 & l1 & l2 & Hget & Hrun & _).
  destruct (GetSource_usable ft cloud st) as (source' & log' & Hget' & Husable).
  rewrite Hget' in Hget. injection Hget as <- <- _.
  destruct (source_usable ft cloud) eqn:Hus; simpl in Husable; rewrite Husable in Hrun.
  - apply bind_Returns in Hrun as (w & st1 & l3 & l4 & _ & Hrun & _).
    apply bind_Returns in Hrun as (filled & st2 & l5 & l6 & _ & Hrun & _).
    by injection Hrun as <- _ _.
  - injection Hrun as <- _ _. left. by exists ft.
Qed.

(** X7.  What [evaluate] says when it fails.  The error message of a failed
    [evaluate] is the message of one of the six checks made before the matrix
    is built, or a message of the exception of the matrix creation, or the
    invalid-source message of one of the features, or, when the feature set
    holds a null feature, the very message [evaluate] was handed: a null
    feature makes it fail without a message of its own. *)
Theorem evaluate_failure_messages `{CV : OpenCV}
    features testSubset metrics errorMessage st metrics' msg st' log :
  evaluate features testSubset metrics errorMessage st
    = Returns (false, metrics', msg) st' log ->
  msg ∈ evaluate_precondition_messages \/
  Mat_create_message msg \/
  (exists ft, Some ft ∈ features /\ msg = invalid_source_message ft) \/
  (None ∈ features /\ msg = errorMessage).
Proof.
  intros Hrun.
  set (Q := fun msg : string =>
         msg ∈ evaluate_precondition_messages \/
         Mat_create_message msg \/
         (exists ft, Some ft ∈ features /\ msg = invalid_source_message ft) \/
         (None ∈ features /\ msg = errorMessage)).
  assert (Hpost : post (evaluate features testSubset metrics errorMessage)
                    (fun r => fst (fst r) = false -> Q (snd r))).
  { unfold evaluate. lazy beta iota zeta.
    apply post_bind. intros [rtrees|];
      [| apply post_ret; intros _; left; set_solver].
    destruct (negb (isTrained rtrees)); [apply post_ret; intros _; left; set_solver |].
    destruct features as [|f0 rest] eqn:Hfeatures;
      [apply post_ret; intros _; left; set_solver |].
    rewrite <- Hfeatures.
    destruct testSubset as [ts|]; [| apply post_ret; intros _; left; set_solver].
    apply post_bind. intros [cloud|]; [| apply post_ret; intros _; left; set_solver].
    destruct (_ =? 0); [apply post_ret; intros _; left; set_solver |].
    destruct (getScalarField _ _) as [classifSF|];
      [| apply post_ret; intros _; left; set_solver].
    destruct (_ <? _); [apply post_ret; intros _; left; set_solver |].
    apply post_bind. intros _.
    destruct (Mat_create _ _) as [cvmsg | test_data] eqn:Hcreate.
    { apply post_ret. intros _. right. left. unfold Mat_create in Hcreate.
      destruct (_ || _); [injection Hcreate as <-; by left |].
      destruct (Mat_alloc_failure _ _) eqn:Halloc; [| discriminate Hcreate].
      injection Hcreate as <-. right. eauto. }
    eapply post_bind_with; [apply evaluate_fill_data_messages |].
    intros [emsg | data] Hfilled.
    - apply post_ret. intros _. right. right.
      destruct Hfilled as [(ft & Hin & _ & ->) | [Hin ->]]; [left | right].
      + exists ft. by rewrite <- Hfeatures.
      + by rewrite <- Hfeatures.
    - apply post_bind. intros m. apply post_ret. discriminate. }
  exact (Hpost _ _ _ _ Hrun eq_refl).
Qed.

(** An instance: a feature naming a scalar field the cloud does not have. *)
Lemma evaluate_failure_messages_witness :
  "Internal error: invalid source 'Curvature'" ∈ evaluate_precondition_messages \/
  Mat_create_message (CV := toyCV) "Internal error: invalid source 'Curvature'" \/
  (exists ft, Some ft ∈ [Some absent_feature] /\
              "Internal error: invalid source 'Curvature'" = invalid_source_message ft) \/
  (None ∈ [Some absent_feature] /\ "Internal error: invalid source 'Curvature'" = "").
Proof.
  assert (Hrun : evaluate (CV := toyCV) [Some absent_feature] (Some demo_subset)
                   zero_metrics "" trained_state
                 = Returns (false, zero_metrics, "Internal error: invalid source 'Curvature'")
                     trained_state
                     [Print "[3DMASC] Testing data: 10 samples with 1 feature(s)";
                      Warning "Internal error: unknwon scalar field 'Curvature'"])
    by (vm_compute; reflexivity).
  exact (evaluate_failure_messages _ _ _ _ _ _ _ _ _ Hrun).
Defined.

(** The messages the loop of [train] over the features leaves with. *)
Lemma train_fill_data_messages `{CV : OpenCV}
    features cloud_ptr cloud trainSubset rows cols training_data :
  post (train_fill_data features cloud_ptr cloud trainSubset rows cols training_data)
    (fun r => match r with
              | inl msg =>
                  exists ft, Some ft ∈ features /\
                    (msg = other_cloud_message ft \/ msg = invalid_source_message ft)
              | inr _ => True
              end).
Proof.
  unfold train_fill_data. apply post_for_each_ret_inl. intros fIndex m.
  eapply post_bind_with; [apply post_defined |]. intros f Hf. cbv beta in Hf.
  apply list_elem_of_lookup_2 in Hf.
  eapply post_bind_with; [apply post_defined |]. intros ft Hft. cbv beta in Hft.
  subst f.
  destruct (negb _); [apply post_ret; exists ft; split; [done | by left] |].
  apply post_bind. intros source.
  destruct (source_unusable source); [apply post_ret; exists ft; split; [done | by right] |].
  apply post_bind. intros w. apply post_bind. intros filled. by apply post_ret.
Qed.

(** The messages [train] leaves with before it creates the forest. *)
Lemma train_prepare_messages `{CV : OpenCV} features trainSubset :
  post (train_prepare features trainSubset)
    (fun r => match r with
              | inl msg =>
                  msg ∈ train_precondition_messages \/
                  Mat_create_message msg \/
                  exists ft, Some ft ∈ features /\
                    (msg = other_cloud_message ft \/ msg = invalid_source_message ft)
              | inr _ => True
              end).
Proof.
  unfold train_prepare.
  destruct features as [|front rest] eqn:Hfeatures; [apply post_ret; left; set_solver |].
  rewrite <- Hfeatures.
  destruct (front ≫= f_cloud) as [a|]; [| apply post_ret; left; set_solver].
  destruct (match trainSubset with Some _ => _ | None => _ end);
    [apply post_ret; left; set_solver |].
  apply post_bind. intros cloud.
  destruct (_ =? 0); [apply post_ret; left; set_solver |].
  destruct (getScalarField _ _) as [classifSF|]; [| apply post_ret; left; set_solver].
  destruct (_ <? _); [apply post_ret; left; set_solver |].
  apply post_bind. intros _.
  assert (Hcreate : forall rows cols cvmsg,
            Mat_create rows cols = inl cvmsg -> Mat_create_message cvmsg).
  { intros rows cols cvmsg Hcreate. unfold Mat_create in Hcreate.
    destruct (_ || _); [injection Hcreate as <-; by left |].
    destruct (Mat_alloc_failure _ _) eqn:Halloc; [| discriminate Hcreate].
    injection Hcreate as <-. right. eauto. }
  destruct (Mat_create _ _) as [cvmsg | training_data] eqn:Hdata.
  { apply post_ret. right. left. by eapply Hcreate. }
  destruct (Mat_create _ 1) as [cvmsg | train_labels] eqn:Hlabels.
  { apply post_ret. right. left. by eapply Hcreate. }
  apply post_bind. intros labels.
  eapply post_bind_with; [apply train_fill_data_messages |].
  intros [emsg | data] Hfilled; apply post_ret; [| done].
  right. right. exact Hfilled.
Qed.

(** X8.  What [train] says when it fails.  The error message of a failed
    [train] is the message of one of the five checks made before the matrices
    are built, or a message of the exception of a matrix creation, or the
    message about a feature attached to another cloud or about its invalid
    source, for one of the features, or the message of the [cv::Exception] or
    of the [std::exception] the trainer raised on the matrices, or "Unknown
    error", or "Training failed for an unknown reason...". *)
Theorem train_failure_messages `{CV : OpenCV}
    params features errorMessage trainSubset st msg st' log :
  train params features errorMessage trainSubset st = Returns (false, msg) st' log ->
  msg ∈ train_precondition_messages \/
  Mat_create_message msg \/
  (exists ft, Some ft ∈ features /\
     (msg = other_cloud_message ft \/ msg = invalid_source_message ft)) \/
  (exists training_data train_labels trained,
     RTrees_train (configure params) training_data train_labels
       = (Some (cv_Exception msg), trained) \/
     RTrees_train (configure params) training_data train_labels
       = (Some (std_exception msg), trained)) \/
  msg = "Unknown error" \/
  msg = "Training failed for an unknown reason...".
Proof.
  intros Hrun.
  apply train_Returns in Hrun
    as [(msg' & Hprep & [= <-] & _) | (data & labels & l1 & _ & Hrun)].
  - pose proof (train_prepare_messages features trainSubset _ _ _ _ Hprep) as Hmsg.
    cbv beta iota in Hmsg. tauto.
  - pose proof (train_run_unfold params data labels errorMessage st) as Hunfold.
    simpl in Hunfold. rewrite Hunfold in Hrun.
    destruct (RTrees_train _ _ _) as [[[cvmsg | what |] |] trained] eqn:Htrain.
    + injection Hrun as <- _. right. right. right. left.
      exists data, labels, trained. by left.
    + injection Hrun as <- _. right. right. right. left.
      exists data, labels, trained. by right.
    + injection Hrun as <- _. tauto.
    + destruct (isTrained trained); [discriminate Hrun |].
      injection Hrun as <- _. tauto.
Qed.

(** An instance: retraining on an empty subset, where the trainer throws. *)
Lemma train_failure_messages_witness :
  "No training samples" ∈ train_precondition_messages \/
  Mat_create_message (CV := toyCV) "No training samples" \/
  (exists ft, Some ft ∈ [Some (demo_feature 1)] /\
     ("No training samples" = other_cloud_message ft \/
      "No training samples" = invalid_source_message ft)) \/
  (exists training_data train_labels trained,
     RTrees_train (OpenCV := toyCV) (configure demo_params) training_data train_labels
       = (Some (cv_Exception "No training samples"), trained) \/
     RTrees_train (OpenCV := toyCV) (configure demo_params) training_data train_labels
       = (Some (std_exception "No training samples"), trained)) \/
  "No training samples" = "Unknown error" \/
  "No training samples" = "Training failed for an unknown reason...".
Proof.
  assert (Hrun : train (CV := toyCV) demo_params [Some (demo_feature 1)] ""
                   (Some empty_subset) trained_state
                 = Returns (false, "No training samples") (demo_state Classifier_new)
                     [Print "[3DMASC] Training data: 0 samples with 1 feature(s)"])
    by (vm_compute; reflexivity).
  exact (train_failure_messages _ _ _ _ _ _ _ _ Hrun).
Defined.

(** * Properties of the dialog *)

(** ** The database and the combo boxes *)

(** An entity of a class is of the kind of that class. *)
Lemma isA_isKindOf (o : ccHObject) (type : Z) : isA o type = true -> isKindOf o type = true.
Proof.
  unfold isA, isKindOf. intros Heq. apply Z.eqb_eq in Heq. rewrite Heq.
  rewrite Z.land_diag. apply Z.eqb_refl.
Qed.

(** The second test of the constructor, [isA], makes the first, [isKindOf],
    redundant. *)
Lemma filter_isA_filterChildren (root : ccHObject) :
  filter (fun c => isA c POINT_CLOUD = true) (filterChildren root POINT_CLOUD)
  = filter (fun c => isA c POINT_CLOUD = true) (descendants root).
Proof.
  unfold filterChildren. induction (descendants root) as [|c rest IH]; [done |].
  rewrite !filter_cons. destruct (isA c POINT_CLOUD) eqn:HisA.
  - rewrite (isA_isKindOf _ _ HisA). rewrite decide_True by done.
    rewrite filter_cons, decide_True by done. by rewrite IH.
  - rewrite (decide_False (P := false = true)) by done.
    destruct (decide (isKindOf c POINT_CLOUD = true)); [| done].
    rewrite filter_cons, decide_False by congruence. done.
Qed.

(** What the loop of the constructor leaves: every combo box has received the
    items of the point clouds, in their order, and the counter is their number
    (modulo 2^32). *)
Lemma add_clouds_spec (clouds : list ccHObject) (ui0 : Ui_Classify3DMASCDialog) :
  let listed := filter (fun c => isA c POINT_CLOUD = true) clouds in
  exists ui1,
    add_clouds clouds ui0 = (ui1, to_unsigned (Z.of_nat (length listed))) /\
    combo_items (cloud1ComboBox ui1) = combo_items (cloud1ComboBox ui0) ++ (cloud_item <$> listed) /\
    combo_items (cloud2ComboBox ui1) = combo_items (cloud2ComboBox ui0) ++ (cloud_item <$> listed) /\
    combo_items (cloud3ComboBox ui1) = combo_items (cloud3ComboBox ui0) ++ (cloud_item <$> listed) /\
    cloud1RadioButton ui1 = cloud1RadioButton ui0 /\
    cloud2RadioButton ui1 = cloud2RadioButton ui0 /\
    cloud3RadioButton ui1 = cloud3RadioButton ui0 /\
    radioButtons_exclusive ui1 = radioButtons_exclusive ui0.
Proof.
  unfold add_clouds.
  match goal with |- context [foldl ?f _ _] => set (F := f) end.
  assert (Hgen : forall clouds ui0 count,
    let listed := filter (fun c => isA c POINT_CLOUD = true) clouds in
    exists ui1,
      foldl F (ui0, to_unsigned count) clouds
        = (ui1, to_unsigned (count + Z.of_nat (length listed))) /\
      combo_items (cloud1ComboBox ui1)
        = combo_items (cloud1ComboBox ui0) ++ (cloud_item <$> listed) /\
      combo_items (cloud2ComboBox ui1)
        = combo_items (cloud2ComboBox ui0) ++ (cloud_item <$> listed) /\
      combo_items (cloud3ComboBox ui1)
        = combo_items (cloud3ComboBox ui0) ++ (cloud_item <$> listed) /\
      cloud1RadioButton ui1 = cloud1RadioButton ui0 /\
      cloud2RadioButton ui1 = cloud2RadioButton ui0 /\
      cloud3RadioButton ui1 = cloud3RadioButton ui0 /\
      radioButtons_exclusive ui1 = radioButtons_exclusive ui0).
  { clear clouds ui0. intros clouds.
    induction clouds as [|cloud rest IH]; intros ui0 count; cbn [foldl].
    - exists ui0. cbn [filter list_filter length fmap list_fmap].
      rewrite !app_nil_r, Z.add_0_r. split_and!; done.
    - rewrite filter_cons. unfold F at 2. destruct (isA cloud POINT_CLOUD) eqn:HisA.
      + rewrite decide_True by done.
        destruct (cloud_item cloud) as [name uniqueID] eqn:Hitem.
        assert (Hcount : to_unsigned (to_unsigned count + 1) = to_unsigned (count + 1)).
        { unfold to_unsigned. by rewrite Z.add_mod_idemp_l. }
        rewrite Hcount.
        destruct (IH (with_combos (addItem name uniqueID) (addItem name uniqueID)
                        (addItem name uniqueID) ui0) (count + 1))
          as (ui1 & Hrun & H1 & H2 & H3 & Hr1 & Hr2 & Hr3 & Hex).
        exists ui1. split.
        { rewrite Hrun. f_equal. f_equal. cbn [length]. lia. }
        cbn [fmap list_fmap]. rewrite H1, H2, H3, Hr1, Hr2, Hr3, Hex, Hitem.
        cbn [with_combos addItem combo_items cloud1ComboBox cloud2ComboBox cloud3ComboBox
               cloud1RadioButton cloud2RadioButton cloud3RadioButton radioButtons_exclusive].
        rewrite <- !app_assoc. split_and!; done.
      + rewrite decide_False by congruence. apply IH. }
  cbv zeta.
  destruct (Hgen clouds ui0 0) as (ui1 & Hrun & Hrest).
  exists ui1. split; [exact Hrun | exact Hrest].
Qed.

(** [onCloudChanged] writes the Ok button only. *)
Lemma onCloudChanged_eq (dummy : Z) (u : Ui_Classify3DMASCDialog) :
  onCloudChanged dummy u
  = buttonBox_Ok_setEnabled
      (radio_isEnabled (cloud1RadioButton u) && (0 <=? combo_currentIndex (cloud1ComboBox u)))
      u.
Proof. unfold onCloudChanged. by destruct (radio_isEnabled (cloud1RadioButton u)). Qed.

(** Selecting an item that exists selects it. *)
Lemma setCurrentIndex_valid (index : Z) (c : QComboBox) :
  0 <= index < Z.of_nat (length (combo_items c)) ->
  combo_currentIndex (setCurrentIndex index c) = index.
Proof.
  intros Hindex. unfold setCurrentIndex. cbn [combo_currentIndex].
  assert ((0 <=? index) && (index <? Z.of_nat (length (combo_items c))) = true) as ->
    by (apply andb_true_intro; lia).
  done.
Qed.

(** The widgets the constructor leaves, by the number of point clouds. *)
Lemma Classify3DMASCDialog_new_fields (app : ccMainAppInterface)
    (ui0 : Ui_Classify3DMASCDialog) :
  let clouds := loaded_clouds app in
  let n := Z.of_nat (length clouds) in
  let made := Classify3DMASCDialog_new (Some app) ui0 in
  let ui1 := ui (fst made) in
  n < 2 ^ 32 ->
  combo_items (cloud1ComboBox ui1)
    = combo_items (cloud1ComboBox ui0) ++ (cloud_item <$> clouds) /\
  combo_items (cloud2ComboBox ui1)
    = combo_items (cloud2ComboBox ui0) ++ (cloud_item <$> clouds) /\
  combo_items (cloud3ComboBox ui1)
    = combo_items (cloud3ComboBox ui0) ++ (cloud_item <$> clouds) /\
  combo_currentIndex (cloud1ComboBox ui1) = (if n =? 0 then -1 else if n <=? 2 then 0 else 1) /\
  combo_currentIndex (cloud2ComboBox ui1) = (if n <=? 1 then -1 else if n =? 2 then 1 else 2) /\
  combo_currentIndex (cloud3ComboBox ui1) = (if n <=? 2 then -1 else 0) /\
  buttonBox_Ok_isEnabled ui1 = radio_isEnabled (cloud1RadioButton ui0) && (0 <? n) /\
  snd made = (if n =? 0 then ["You need at least 1 loaded cloud to classify it..."] else []).
Proof.
  intros clouds n made ui1 Hn.
  subst ui1 made. unfold Classify3DMASCDialog_new.
  match goal with
  | |- context [add_clouds ?cs ui0] =>
      destruct (add_clouds_spec cs ui0)
        as (ui1 & Hrun & H1 & H2 & H3 & Hr1 & Hr2 & Hr3 & Hex);
      assert (Hlisted : filter (fun c => isA c POINT_CLOUD = true) cs = clouds)
  end.
  { subst clouds. unfold loaded_clouds.
    destruct (dbRootObject app) as [root|]; [apply filter_isA_filterChildren | done]. }
  rewrite Hlisted in Hrun, H1, H2, H3. fold n in Hrun.
  assert (Hcount : to_unsigned n = n) by (unfold to_unsigned; apply Z.mod_small; lia).
  rewrite Hcount in Hrun. rewrite Hrun.
  cbn [fst snd ui]. rewrite onCloudChanged_eq.
  cbn [buttonBox_Ok_setEnabled with_combos cloud1ComboBox cloud2ComboBox cloud3ComboBox
         cloud1RadioButton buttonBox_Ok_isEnabled].
  rewrite Hr1.
  assert (Hlen1 : Z.of_nat (length (combo_items (cloud1ComboBox ui1))) >= n).
  { rewrite H1, length_app, length_fmap. subst n. lia. }
  assert (Hlen2 : Z.of_nat (length (combo_items (cloud2ComboBox ui1))) >= n).
  { rewrite H2, length_app, length_fmap. subst n. lia. }
  assert (Hlen3 : Z.of_nat (length (combo_items (cloud3ComboBox ui1))) >= n).
  { rewrite H3, length_app, length_fmap. subst n. lia. }
  assert (Hn0 : 0 <= n) by (subst n; lia).
  assert (Hindex1 : combo_currentIndex
                      (setCurrentIndex (if 0 <? n then if 2 <? n then 1 else 0 else -1)
                         (cloud1ComboBox ui1))
                    = (if n =? 0 then -1 else if n <=? 2 then 0 else 1)).
  { destruct (Z.ltb_spec 0 n); [| by assert ((n =? 0) = true) as -> by lia].
    assert ((n =? 0) = false) as -> by lia.
    destruct (Z.ltb_spec 2 n).
    - assert ((n <=? 2) = false) as -> by lia. apply setCurrentIndex_valid. lia.
    - assert ((n <=? 2) = true) as -> by lia. apply setCurrentIndex_valid. lia. }
  assert (Hindex2 : combo_currentIndex
                      (setCurrentIndex (if 1 <? n then if 2 <? n then 2 else 1 else -1)
                         (cloud2ComboBox ui1))
                    = (if n <=? 1 then -1 else if n =? 2 then 1 else 2)).
  { destruct (Z.ltb_spec 1 n); [| by assert ((n <=? 1) = true) as -> by lia].
    assert ((n <=? 1) = false) as -> by lia.
    destruct (Z.ltb_spec 2 n).
    - assert ((n =? 2) = false) as -> by lia. apply setCurrentIndex_valid. lia.
    - assert ((n =? 2) = true) as -> by lia. apply setCurrentIndex_valid. lia. }
  assert (Hindex3 : combo_currentIndex
                      (setCurrentIndex (if 2 <? n then 0 else -1) (cloud3ComboBox ui1))
                    = (if n <=? 2 then -1 else 0)).
  { destruct (Z.ltb_spec 2 n); [| by assert ((n <=? 2) = true) as -> by lia].
    assert ((n <=? 2) = false) as -> by lia. apply setCurrentIndex_valid. lia. }
  rewrite Hindex1, Hindex2, Hindex3.
  split_and!; try done.
  f_equal. destruct (Z.eqb_spec n 0) as [-> | Hne]; [done |].
  assert ((0 <? n) = true) as -> by lia. by destruct (n <=? 2).
Qed.

(** Among entities with distinct identifiers, the search by identifier finds
    the entity itself. *)
Lemma find_unique (l : list ccHObject) (o : ccHObject) :
  NoDup (getUniqueID <$> l) -> o ∈ l ->
  List.find (fun c => getUniqueID c =? getUniqueID o) l = Some o.
Proof.
  induction l as [|c rest IH]; intros Hnodup Ho; [by inversion Ho |].
  cbn [fmap list_fmap] in Hnodup. apply NoDup_cons in Hnodup as [Hfresh Hnodup].
  cbn [List.find]. apply elem_of_cons in Ho as [<- | Ho].
  - by rewrite Z.eqb_refl.
  - destruct (Z.eqb_spec (getUniqueID c) (getUniqueID o)) as [Heq | Hne]; [| by apply IH].
    exfalso. apply Hfresh. rewrite Heq. apply list_elem_of_fmap. by exists o.
Qed.

(** A combo box that lists point clouds of the database, and whose current
    index is that of an item, gives the cloud of that item. *)
Lemma GetCloudFromCombo_listed (c : QComboBox) (root : ccHObject)
    (clouds : list ccHObject) (k : nat) (cloud : ccHObject) :
  NoDup (getUniqueID <$> (root :: descendants root)) ->
  (forall o, o ∈ clouds -> o ∈ descendants root /\ isA o POINT_CLOUD = true) ->
  combo_items c = cloud_item <$> clouds ->
  combo_currentIndex c = Z.of_nat k ->
  clouds !! k = Some cloud ->
  GetCloudFromCombo (Some c) (Some root) = Some cloud.
Proof.
  intros Hnodup Hclouds Hitems Hindex Hk.
  destruct (Hclouds cloud) as [Hin HisA]; [by eapply list_elem_of_lookup_2 |].
  unfold GetCloudFromCombo. rewrite Hindex.
  assert ((Z.of_nat k <? 0) = false) as -> by lia.
  unfold itemData_toUInt.
  assert ((Z.of_nat k <? 0) = false) as -> by lia.
  rewrite Nat2Z.id, Hitems, list_lookup_fmap, Hk. cbn [fmap option_fmap option_map cloud_item].
  unfold ccHObject_find. rewrite (find_unique _ cloud Hnodup) by (by apply elem_of_cons; right).
  by rewrite HisA.
Qed.

(** The loaded clouds are point clouds of the database. *)
Lemma loaded_clouds_in_database (app : ccMainAppInterface) (root o : ccHObject) :
  dbRootObject app = Some root -> o ∈ loaded_clouds app ->
  o ∈ descendants root /\ isA o POINT_CLOUD = true.
Proof.
  unfold loaded_clouds. intros ->. intros Ho. apply list_elem_of_filter in Ho. tauto.
Qed.

(** ** The cloud of a combo box *)

(** X9.  [GetCloudFromCombo] answers null or a point cloud of the database:
    when it returns an entity, neither argument is null, the combo box has a
    current index that is not negative, and the entity is one of the root and
    the entities below it, is exactly of class [POINT_CLOUD], and has for
    identifier the datum of the current item. *)
Theorem GetCloudFromCombo_sound (comboBox : option QComboBox) (dbRoot : option ccHObject)
    (cloud : ccHObject) :
  GetCloudFromCombo comboBox dbRoot = Some cloud ->
  exists c root,
    comboBox = Some c /\ dbRoot = Some root /\
    0 <= combo_currentIndex c /\
    cloud ∈ root :: descendants root /\
    isA cloud POINT_CLOUD = true /\
    getUniqueID cloud = itemData_toUInt c (combo_currentIndex c).
Proof.
  unfold GetCloudFromCombo. intros Hget.
  destruct comboBox as [c|]; [| discriminate Hget].
  destruct dbRoot as [root|]; [| discriminate Hget].
  destruct (Z.ltb_spec (combo_currentIndex c) 0) as [Hneg | Hpos]; [discriminate Hget |].
  destruct (ccHObject_find root _) as [item|] eqn:Hfind; [| discriminate Hget].
  destruct (isA item POINT_CLOUD) eqn:HisA; [| discriminate Hget].
  injection Hget as <-. exists c, root. split_and!; try done.
  - unfold ccHObject_find in Hfind. apply find_some in Hfind as [Hin _].
    by apply list_elem_of_In.
  - unfold ccHObject_find in Hfind. apply find_some in Hfind as [_ Hid]. by apply Z.eqb_eq.
Qed.

(** An instance: the entry of the cloud in the group of the demo database. *)
Lemma GetCloudFromCombo_sound_witness :
  GetCloudFromCombo
    (Some {| combo_items := [("core points [12]", 12)]; combo_currentIndex := 0;
             combo_isEnabled := true; combo_isVisible := true |})
    (Some demo_root)
  = Some (HObject 257 12 "core points" []) /\
  isA (HObject 257 12 "core points" []) POINT_CLOUD = true.
Proof.
  assert (Hget : GetCloudFromCombo
            (Some {| combo_items := [("core points [12]", 12)]; combo_currentIndex := 0;
                     combo_isEnabled := true; combo_isVisible := true |})
            (Some demo_root)
          = Some (HObject 257 12 "core points" [])) by reflexivity.
  split; [exact Hget |].
  destruct (GetCloudFromCombo_sound _ _ _ Hget) as (c & root & _ & _ & _ & _ & HisA & _).
  exact HisA.
Defined.

(** ** The constructor *)



(** X11.  Every entry the constructor lists leads back to its cloud.  For a
    database whose entities have distinct identifiers, and combo boxes that
    were empty, selecting the k-th entry of any of the three combo boxes makes
    [GetCloudFromCombo] return the k-th point cloud of the database; and the
    selections the constructor makes give, for the three combo boxes, the
    first cloud (the second when there are three or more), the second cloud
    (the third when there are three or more) and the first cloud, or null when
    the combo box has no selection. *)
Theorem dialog_entries_resolve (app : ccMainAppInterface) (root : ccHObject)
    (ui0 : Ui_Classify3DMASCDialog) :
  let clouds := loaded_clouds app in
  let n := Z.of_nat (length clouds) in
  let ui1 := ui (fst (Classify3DMASCDialog_new (Some app) ui0)) in
  dbRootObject app = Some root ->
  NoDup (getUniqueID <$> (root :: descendants root)) ->
  combo_items (cloud1ComboBox ui0) = [] ->
  combo_items (cloud2ComboBox ui0) = [] ->
  combo_items (cloud3ComboBox ui0) = [] ->
  n < 2 ^ 32 ->
  (forall k cloud, clouds !! k = Some cloud ->
     GetCloudFromCombo (Some (setCurrentIndex (Z.of_nat k) (cloud1ComboBox ui1)))
       (dbRootObject app) = Some cloud /\
     GetCloudFromCombo (Some (setCurrentIndex (Z.of_nat k) (cloud2ComboBox ui1)))
       (dbRootObject app) = Some cloud /\
     GetCloudFromCombo (Some (setCurrentIndex (Z.of_nat k) (cloud3ComboBox ui1)))
       (dbRootObject app) = Some cloud) /\
  GetCloudFromCombo (Some (cloud1ComboBox ui1)) (dbRootObject app)
    = (if n =? 0 then None else clouds !! (if n <=? 2 then 0%nat else 1%nat)) /\
  GetCloudFromCombo (Some (cloud2ComboBox ui1)) (dbRootObject app)
    = (if n <=? 1 then None else clouds !! (if n =? 2 then 1%nat else 2%nat)) /\
  GetCloudFromCombo (Some (cloud3ComboBox ui1)) (dbRootObject app)
    = (if n <=? 2 then None else clouds !! 0%nat).
Proof.
  intros clouds n ui1 Hroot Hnodup Hempty1 Hempty2 Hempty3 Hn.
  destruct (Classify3DMASCDialog_new_fields app ui0 Hn)
    as (H1 & H2 & H3 & Hi1 & Hi2 & Hi3 & _ & _).
  fold clouds n ui1 in H1, H2, H3, Hi1, Hi2, Hi3.
  rewrite Hempty1 in H1. rewrite Hempty2 in H2. rewrite Hempty3 in H3.
  rewrite app_nil_l in H1, H2, H3. rewrite Hroot.
  assert (Hclouds : forall o, o ∈ clouds -> o ∈ descendants root /\ isA o POINT_CLOUD = true)
    by (intros o; by apply loaded_clouds_in_database).
  assert (Hresolve : forall c k,
            combo_items c = cloud_item <$> clouds ->
            combo_currentIndex c = Z.of_nat k -> (k < length clouds)%nat ->
            GetCloudFromCombo (Some c) (Some root) = clouds !! k).
  { intros c k Hitems Hindex Hk.
    destruct (lookup_lt_is_Some_2 clouds k Hk) as [cloud Hcloud].
    rewrite Hcloud. by eapply GetCloudFromCombo_listed. }
  assert (Hnone : forall c, combo_currentIndex c = -1 ->
            GetCloudFromCombo (Some c) (Some root) = None).
  { intros c Hindex. unfold GetCloudFromCombo. by rewrite Hindex. }
  split_and!.
  - intros k cloud Hk. pose proof (lookup_lt_Some _ _ _ Hk) as Hlt.
    rewrite <- Hk.
    split_and!; apply Hresolve; try done; apply setCurrentIndex_valid;
      rewrite ?H1, ?H2, ?H3, length_fmap; lia.
  - destruct (Z.eqb_spec n 0); [by apply Hnone; rewrite Hi1 |].
    destruct (Z.leb_spec n 2); apply Hresolve; try done; subst n; lia.
  - destruct (Z.leb_spec n 1); [by apply Hnone; rewrite Hi2 |].
    destruct (Z.eqb_spec n 2); apply Hresolve; try done; subst n; lia.
  - destruct (Z.leb_spec n 2); [by apply Hnone; rewrite Hi3 |].
    apply Hresolve; try done; subst n; lia.
Qed.

(** An instance: the three selections of the dialog on the demo database. *)
Lemma dialog_entries_resolve_witness :
  let ui1 := ui (fst (Classify3DMASCDialog_new (Some demo_app) demo_ui)) in
  GetCloudFromCombo (Some (cloud1ComboBox ui1)) (Some demo_root)
    = Some (HObject 257 12 "core points" []) /\
  GetCloudFromCombo (Some (cloud2ComboBox ui1)) (Some demo_root)
    = Some (HObject 257 14 "vegetation" []) /\
  GetCloudFromCombo (Some (cloud3ComboBox ui1)) (Some demo_root)
    = Some (HObject 257 10 "ground" []).
Proof.
  destruct (dialog_entries_resolve demo_app demo_root demo_ui)
    as (_ & Hd1 & Hd2 & Hd3).
  - reflexivity.
  - apply (bool_decide_unpack _). vm_compute. exact I.
  - reflexivity.
  - reflexivity.
  - reflexivity.
  - by vm_compute.
  - cbv zeta. split_and!; [exact Hd1 | exact Hd2 | exact Hd3].
Defined.

(** ** The roles *)

(** From the fourth role on, the loop of [setCloudRoles] only counts. *)
Lemma setCloudRoles_ignores_more (roles : list string) (ui0 : Ui_Classify3DMASCDialog) :
  setCloudRoles roles ui0 = setCloudRoles (take 3 roles) ui0.
Proof.
  destruct roles as [|r1 [|r2 [|r3 rest]]]; try reflexivity.
  unfold setCloudRoles. cbn [take foldl].
  match goal with
  | |- context [foldl ?f (?u, ?i) rest] =>
      assert (Hloop : forall (more : list string) index, 3 <= index ->
                foldl f (u, index) more = (u, index + Z.of_nat (length more)))
  end.
  { intros more. induction more as [|r more IH]; intros index Hindex; cbn [foldl length].
    - by rewrite Z.add_0_r.
    - assert ((index =? 0) = false) as -> by lia.
      assert ((index =? 1) = false) as -> by lia.
      assert ((index =? 2) = false) as -> by lia.
      rewrite IH by lia. f_equal. lia. }
  change (0 + 1 + 1 + 1) with 3. rewrite Hloop by lia.
  set (more := Z.of_nat (length rest)).
  assert (Hmore : 0 <= more) by (subst more; lia). clearbody more.
  assert ((3 + more <? 1) = false) as -> by lia.
  assert ((3 + more <? 2) = false) as -> by lia.
  assert ((3 + more <? 3) = false) as -> by lia.
  reflexivity.
Qed.

(** What [setCloudRoles] leaves in the widgets [getClouds] reads. *)
Lemma setCloudRoles_fields (roles : list string) (ui0 : Ui_Classify3DMASCDialog) :
  let n := length roles in
  let ui1 := setCloudRoles roles ui0 in
  let radios ui := [cloud1RadioButton ui; cloud2RadioButton ui; cloud3RadioButton ui] in
  let combos ui := [cloud1ComboBox ui; cloud2ComboBox ui; cloud3ComboBox ui] in
  ui1 = setCloudRoles (take 3 roles) ui0 /\
  (forall k b0 b1, radios ui0 !! k = Some b0 -> radios ui1 !! k = Some b1 ->
     radio_text b1 = default (radio_text b0) (roles !! k) /\
     radio_isEnabled b1 = radio_isEnabled b0 && bool_decide (k < n)%nat /\
     radio_isVisible b1
     = radio_isVisible b0 && (bool_decide (k = 0)%nat || bool_decide (k < n)%nat) /\
     radio_isChecked b1
     = if bool_decide (0 < n)%nat
       then bool_decide (k = 0)%nat ||
            negb (radioButtons_exclusive ui0) && radio_isChecked b0
       else radio_isChecked b0) /\
  (forall k c0 c1, combos ui0 !! k = Some c0 -> combos ui1 !! k = Some c1 ->
     combo_items c1 = combo_items c0 /\
     combo_currentIndex c1 = combo_currentIndex c0).
Proof.
  intros n ui1 radios combos. subst ui1 n.
  split; [apply setCloudRoles_ignores_more |].
  rewrite setCloudRoles_ignores_more.
  destruct ui0 as [[t1 k1 e1 v1] [t2 k2 e2 v2] [t3 k3 e3 v3] c1 c2 c3 ex ok].
  destruct roles as [|r1 [|r2 [|r3 rest]]]; cbn [take length]; subst radios combos;
    cbv beta.
  all: split.
  all: try (intros [|[|[|k]]] b0 b1 Hb0 Hb1; [| | | by inversion Hb0];
            injection Hb0 as <-; injection Hb1 as <-; destruct ex; cbn;
            rewrite ?andb_true_r, ?andb_false_r; done).
  all: intros [|[|[|k]]] c0' c1' Hc0 Hc1; [| | | by inversion Hc0];
         injection Hc0 as <-; injection Hc1 as <-; destruct ex; cbn; done.
Qed.

(** X12.  [setCloudRoles] names the radio buttons and only ever disables.  The
    roles after the third are ignored; the k-th radio button takes the k-th
    role for text when there is one and keeps its text otherwise, stays
    enabled only if there are more than k roles, and (the first one apart)
    stays visible only then; so after a second call a radio button is enabled
    only if it was at first and both calls had a role for it: a call with
    fewer roles cannot be undone by a call with more. *)
Theorem setCloudRoles_only_disables (roles1 roles2 : list string)
    (ui0 : Ui_Classify3DMASCDialog) :
  let radios ui := [cloud1RadioButton ui; cloud2RadioButton ui; cloud3RadioButton ui] in
  let ui1 := setCloudRoles roles1 ui0 in
  let ui2 := setCloudRoles roles2 ui1 in
  ui1 = setCloudRoles (take 3 roles1) ui0 /\
  forall k b0 b1 b2,
    radios ui0 !! k = Some b0 -> radios ui1 !! k = Some b1 -> radios ui2 !! k = Some b2 ->
    radio_text b1 = default (radio_text b0) (roles1 !! k) /\
    radio_isEnabled b1 = radio_isEnabled b0 && bool_decide (k < length roles1)%nat /\
    radio_isVisible b1
    = radio_isVisible b0 &&
      (bool_decide (k = 0)%nat || bool_decide (k < length roles1)%nat) /\
    radio_isEnabled b2
    = radio_isEnabled b0 && bool_decide (k < length roles1)%nat
      && bool_decide (k < length roles2)%nat.
Proof.
  intros radios ui1 ui2.
  destruct (setCloudRoles_fields roles1 ui0) as (Htake & Hradios1 & _).
  destruct (setCloudRoles_fields roles2 ui1) as (_ & Hradios2 & _).
  split; [exact Htake |].
  intros k b0 b1 b2 Hb0 Hb1 Hb2.
  destruct (Hradios1 k b0 b1 Hb0 Hb1) as (Ht & He & Hv & _).
  destruct (Hradios2 k b1 b2 Hb1 Hb2) as (_ & He2 & _).
  split_and!; try done. by rewrite He2, He.
Qed.

(** An instance: one role, then three. *)
Lemma setCloudRoles_only_disables_witness :
  radio_isEnabled
    (cloud2RadioButton (setCloudRoles ["PC1"; "PC2"; "CTX"] (setCloudRoles ["PC1"] demo_ui)))
  = false.
Proof.
  destruct (setCloudRoles_only_disables ["PC1"] ["PC1"; "PC2"; "CTX"] demo_ui)
    as [_ Hradios].
  destruct (Hradios 1%nat _ _ _ eq_refl eq_refl eq_refl) as (_ & _ & _ & Henabled).
  rewrite Henabled. reflexivity.
Defined.

(** [GetCloudFromCombo] reads the items and the current index of the combo
    box only. *)
Lemma GetCloudFromCombo_reads (c c' : QComboBox) (dbRoot : option ccHObject) :
  combo_items c' = combo_items c -> combo_currentIndex c' = combo_currentIndex c ->
  GetCloudFromCombo (Some c') dbRoot = GetCloudFromCombo (Some c) dbRoot.
Proof.
  intros Hitems Hindex. unfold GetCloudFromCombo, itemData_toUInt.
  by rewrite Hitems, Hindex.
Qed.

(** X13.  [getClouds] after [setCloudRoles].  For a dialog with an application
    whose three radio buttons are enabled, and are one exclusive group or have
    the second and third unchecked, setting distinct roles and then calling
    [getClouds] maps each of the first three roles to what
    [GetCloudFromCombo] finds for the combo box of its rank, leaves the other
    keys of the map as they were, and names the first role as main cloud (or
    leaves the main cloud alone when there is no role). *)
Theorem getClouds_after_setCloudRoles (d : Classify3DMASCDialog)
    (app : ccMainAppInterface) (roles : list string)
    (clouds : gmap string (option ccHObject)) (mainCloud : string) :
  let d1 := {| ui := setCloudRoles roles (ui d); m_app := m_app d |} in
  let found :=
    (fun c => GetCloudFromCombo (Some c) (dbRootObject app))
      <$> [cloud1ComboBox (ui d); cloud2ComboBox (ui d); cloud3ComboBox (ui d)] in
  let out := getClouds d1 app clouds mainCloud in
  m_app d = true ->
  NoDup roles ->
  radio_isEnabled (cloud1RadioButton (ui d)) = true ->
  radio_isEnabled (cloud2RadioButton (ui d)) = true ->
  radio_isEnabled (cloud3RadioButton (ui d)) = true ->
  (radioButtons_exclusive (ui d) = true \/
   (radio_isChecked (cloud2RadioButton (ui d)) = false /\
    radio_isChecked (cloud3RadioButton (ui d)) = false)) ->
  (forall k role, take 3 roles !! k = Some role -> out.1 !! role = found !! k) /\
  (forall key, key ∉ take 3 roles -> out.1 !! key = clouds !! key) /\
  out.2 = default mainCloud (head roles).
Proof.
  intros d1 found out Happ Hnodup He1 He2 He3 Hchecked.
  destruct (setCloudRoles_fields roles (ui d)) as (_ & Hradios & Hcombos).
  destruct (Hradios 0%nat _ _ eq_refl eq_refl) as (Ht1 & Hen1 & _ & Hk1).
  destruct (Hradios 1%nat _ _ eq_refl eq_refl) as (Ht2 & Hen2 & _ & Hk2).
  destruct (Hradios 2%nat _ _ eq_refl eq_refl) as (Ht3 & Hen3 & _ & Hk3).
  destruct (Hcombos 0%nat _ _ eq_refl eq_refl) as (Hi1 & Hx1).
  destruct (Hcombos 1%nat _ _ eq_refl eq_refl) as (Hi2 & Hx2).
  destruct (Hcombos 2%nat _ _ eq_refl eq_refl) as (Hi3 & Hx3).
  clear Hradios Hcombos.
  subst out d1 found. unfold getClouds, getClouds_entry. cbn [m_app ui fmap list_fmap].
  rewrite Happ. cbn [negb].
  rewrite (GetCloudFromCombo_reads _ _ _ Hi1 Hx1), (GetCloudFromCombo_reads _ _ _ Hi2 Hx2),
    (GetCloudFromCombo_reads _ _ _ Hi3 Hx3).
  rewrite Hen1, Hen2, Hen3, Hk1, Hk2, Hk3, Ht1, Ht2, Ht3, He1, He2, He3.
  clear Hen1 Hen2 Hen3 Hk1 Hk2 Hk3 Ht1 Ht2 Ht3 Hi1 Hi2 Hi3 Hx1 Hx2 Hx3.
  set (g1 := GetCloudFromCombo (Some (cloud1ComboBox (ui d))) (dbRootObject app)).
  set (g2 := GetCloudFromCombo (Some (cloud2ComboBox (ui d))) (dbRootObject app)).
  set (g3 := GetCloudFromCombo (Some (cloud3ComboBox (ui d))) (dbRootObject app)).
  clearbody g1 g2 g3.
  assert (Hmain : negb (radioButtons_exclusive (ui d)) &&
                  radio_isChecked (cloud2RadioButton (ui d)) = false /\
                  negb (radioButtons_exclusive (ui d)) &&
                  radio_isChecked (cloud3RadioButton (ui d)) = false).
  { destruct Hchecked as [Hex | [Hk2 Hk3]]; [by rewrite Hex |].
    by rewrite Hk2, Hk3, !andb_false_r. }
  destruct Hmain as [Hm2 Hm3]. rewrite Hm2, Hm3. clear Hm2 Hm3 Hchecked He1 He2 He3 Happ.
  destruct roles as [|r1 [|r2 [|r3 rest]]]; cbn [length take head default lookup list_lookup];
    repeat first [ rewrite bool_decide_true by (simpl; lia)
                 | rewrite bool_decide_false by (simpl; lia) ];
    cbn [orb andb fst snd].
  - split_and!; [by intros [|k] | done | done].
  - split_and!; [| | done].
    + intros [|[|k]] role [= <-]. apply lookup_insert_eq.
    + intros key Hkey. apply lookup_insert_ne. set_solver.
  - apply NoDup_cons in Hnodup as [Hr1 _].
    split_and!; [| | done].
    + intros [|[|[|k]]] role [= <-].
      * rewrite lookup_insert_ne by set_solver. apply lookup_insert_eq.
      * apply lookup_insert_eq.
    + intros key Hkey. rewrite !lookup_insert_ne by set_solver. done.
  - apply NoDup_cons in Hnodup as [Hr1 Hnodup].
    apply NoDup_cons in Hnodup as [Hr2 _].
    split_and!; [| | done].
    + intros [|[|[|[|k]]]] role [= <-].
      * rewrite !lookup_insert_ne by set_solver. apply lookup_insert_eq.
      * rewrite lookup_insert_ne by set_solver. apply lookup_insert_eq.
      * apply lookup_insert_eq.
    + intros key Hkey. rewrite !lookup_insert_ne by set_solver. done.
Qed.

(** An instance: two roles on the dialog of the demo database. *)
Lemma getClouds_after_setCloudRoles_witness :
  let d := fst (Classify3DMASCDialog_new (Some demo_app) demo_ui) in
  getClouds {| ui := setCloudRoles ["PC1"; "PC2"] (ui d); m_app := m_app d |}
    demo_app ∅ ""
  = ({[ "PC1" := Some (HObject 257 12 "core points" []);
        "PC2" := Some (HObject 257 14 "vegetation" []) ]},
     "PC1").
Proof.
  destruct (getClouds_after_setCloudRoles (Classify3DMASCDialog_new (Some demo_app) demo_ui).1
              demo_app ["PC1"; "PC2"] ∅ "")
    as (_ & _ & Hmain).
  - reflexivity.
  - apply (bool_decide_unpack _). vm_compute. exact I.
  - reflexivity.
  - reflexivity.
  - reflexivity.
  - left. reflexivity.
  - cbv zeta in Hmain |- *.
    match goal with |- ?out = _ => rewrite (surjective_pairing out) end.
    rewrite Hmain. reflexivity.
Defined.
